(** * Sante-Express: the ingestion, reconciliation and archival pipeline

    A shallow embedding of the Python sources
      app/utils/encoding_utils.py, app/utils/data_validation.py,
      app/models/models.py, app/db/database.py, app/core/scheduler.py,
      scripts/data_updater.py, scripts/fix_tables.py
    and the properties of the pipeline stated over it.

    Conventions.
    - A Python [str] is a [string]: one [ascii] per character, so the text
      covered is the one whose code points lie in 0..255 (ASCII and Latin-1).
    - A Python [float] is a primitive binary64 [float].
    - A cell of a pandas row, and an attribute of an ORM object, is a [value]:
      [None], a float (NaN included) or a str.
    - What the repository imports and does not define is a parameter of the
      section that uses it: [ftfy.fix_text], [float()] on a str, [str()] on a
      float, [pandas.to_numeric], [datetime.now()].
    - The data store is the four tables of models.py.  A SELECT of an open
      transaction succeeds; an INSERT or UPDATE is accepted or refused by the
      store at flush time ([accepts]). *)

From Stdlib Require Import List String Ascii Bool Arith Lia Floats DecimalString.
Import ListNotations.
Open Scope string_scope.
Open Scope bool_scope.

(** ** Python values and the builtins the pipeline calls *)

Module Py.

Inductive value : Type :=
| VNone
| VFloat (f : float)
| VStr (s : string).

(** [isinstance(x, str)] *)
Definition is_str (v : value) : bool :=
  match v with VStr _ => true | _ => false end.

(** [x is None] *)
Definition is_None (v : value) : bool :=
  match v with VNone => true | _ => false end.

(** Truth value of an object: [None], [0.0], [-0.0] and [''] are false,
    every other float (NaN included) and str is true. *)
Definition truthy (v : value) : bool :=
  match v with
  | VNone => false
  | VFloat f => negb (PrimFloat.eqb f 0)
  | VStr s => negb (s =? "")
  end.

(** A pandas row ([pd.Series]): the value under a label, if the label exists. *)
Definition Series := string -> option value.

(** [row.get(key, default)] *)
Definition get (row : Series) (key : string) (default : value) : value :=
  match row key with Some v => v | None => default end.

(** [row.get(key)], whose default is [None] *)
Definition get_ (row : Series) (key : string) : value := get row key VNone.

(** The row built from a list of (label, value) pairs, first binding first. *)
Fixpoint series (cells : list (string * value)) : Series :=
  fun key =>
    match cells with
    | [] => None
    | (k, v) :: rest => if k =? key then Some v else series rest key
    end.

(** Code point of a character. *)
Definition ord (c : ascii) : nat := nat_of_ascii c.

Definition between (lo hi n : nat) : bool := Nat.leb lo n && Nat.leb n hi.

(** [str.isspace] of one character, which is also the class [\s] of [re]:
    TAB..CR, FS..US, SPACE, NEL and NBSP below code point 256. *)
Definition isspace (c : ascii) : bool :=
  let n := ord c in
  between 9 13 n || between 28 32 n || Nat.eqb n 133 || Nat.eqb n 160.

(** [str.isalnum] of one character below code point 256. *)
Definition isalnum (c : ascii) : bool :=
  let n := ord c in
  between 48 57 n || between 65 90 n || between 97 122 n
  || Nat.eqb n 170 || between 178 179 n || Nat.eqb n 181 || between 185 186 n
  || between 188 190 n || between 192 214 n || between 216 246 n
  || between 248 255 n.

(** The class [\w] of [re] on str patterns: alphanumeric or the underscore. *)
Definition re_word (c : ascii) : bool := isalnum c || Nat.eqb (ord c) 95.

(** Unicode general category P (punctuation) below code point 256: the
    ASCII marks of code points 33-35, 37-42, 44-47, 58-59, 63-64, 91-93,
    95 (the underscore, category Pc), 123 and 125 and, in Latin-1, the
    inverted marks, the guillemets, the section sign, the pilcrow and the
    middle dot. *)
Definition is_punctuation (c : ascii) : bool :=
  let n := ord c in
  between 33 35 n || between 37 42 n || between 44 47 n || between 58 59 n
  || between 63 64 n || between 91 93 n || Nat.eqb n 95 || Nat.eqb n 123
  || Nat.eqb n 125 || Nat.eqb n 161 || Nat.eqb n 167 || Nat.eqb n 171 || between 182 183 n
  || Nat.eqb n 187 || Nat.eqb n 191.

Definition lower_char (c : ascii) : ascii :=
  let n := ord c in
  if between 65 90 n || between 192 214 n || between 216 222 n
  then ascii_of_nat (n + 32) else c.

(** [str.lower] *)
Fixpoint lower (s : string) : string :=
  match s with
  | EmptyString => EmptyString
  | String c s' => String (lower_char c) (lower s')
  end.

(** The base letter of a Latin-1 letter that has a canonical decomposition:
    what is left of its NFD form once the marks of category Mn are dropped. *)
Definition base_char (c : ascii) : ascii :=
  let n := ord c in
  if between 192 197 n then "A"%char
  else if Nat.eqb n 199 then "C"%char
  else if between 200 203 n then "E"%char
  else if between 204 207 n then "I"%char
  else if Nat.eqb n 209 then "N"%char
  else if between 210 214 n then "O"%char
  else if between 217 220 n then "U"%char
  else if Nat.eqb n 221 then "Y"%char
  else if between 224 229 n then "a"%char
  else if Nat.eqb n 231 then "c"%char
  else if between 232 235 n then "e"%char
  else if between 236 239 n then "i"%char
  else if Nat.eqb n 241 then "n"%char
  else if between 242 246 n then "o"%char
  else if between 249 252 n then "u"%char
  else if Nat.eqb n 253 || Nat.eqb n 255 then "y"%char
  else c.

(** [''.join(c for c in unicodedata.normalize('NFD', s)
             if unicodedata.category(c) != 'Mn')] *)
Fixpoint strip_marks (s : string) : string :=
  match s with
  | EmptyString => EmptyString
  | String c s' => String (base_char c) (strip_marks s')
  end.

(** [s.lstrip()] *)
Fixpoint lstrip (s : string) : string :=
  match s with
  | EmptyString => EmptyString
  | String c s' => if isspace c then lstrip s' else s
  end.

(** [s.rstrip()] *)
Fixpoint rstrip (s : string) : string :=
  match s with
  | EmptyString => EmptyString
  | String c s' =>
      match rstrip s' with
      | EmptyString => if isspace c then EmptyString else String c EmptyString
      | r => String c r
      end
  end.

(** [s.strip()] *)
Definition strip (s : string) : string := rstrip (lstrip s).

(** [s.replace(a, b)] for one-character [a] and [b] *)
Fixpoint replace_char (a b : ascii) (s : string) : string :=
  match s with
  | EmptyString => EmptyString
  | String c s' => String (if Ascii.eqb c a then b else c) (replace_char a b s')
  end.

(** [c in s] for a one-character [c] *)
Fixpoint contains_char (c : ascii) (s : string) : bool :=
  match s with
  | EmptyString => false
  | String d s' => Ascii.eqb c d || contains_char c s'
  end.

(** [s.split(c)] for a one-character separator: never empty. *)
Fixpoint split (c : ascii) (s : string) : list string :=
  match s with
  | EmptyString => [EmptyString]
  | String d s' =>
      if Ascii.eqb d c then EmptyString :: split c s'
      else match split c s' with
           | [] => [String d EmptyString]
           | w :: ws => String d w :: ws
           end
  end.

(** [(d.get(key, key))] on a dict given as its list of items. *)
Fixpoint dict_get {A : Type} (d : list (string * A)) (key : string) : option A :=
  match d with
  | [] => None
  | (k, v) :: rest => if k =? key then Some v else dict_get rest key
  end.

(** [x > 0]; [None] when it raises [TypeError] (a str, or [None]). *)
Definition gt0 (x : value) : option bool :=
  match x with
  | VFloat f => Some (PrimFloat.ltb 0 f)
  | _ => None
  end.

(** [(x / y) * 100]; [None] when it raises ([TypeError] on an operand that
    is not a number, [ZeroDivisionError] on a zero divisor). *)
Definition percent (x y : value) : option value :=
  match x, y with
  | VFloat a, VFloat b =>
      if PrimFloat.eqb b 0 then None else Some (VFloat (a / b * 100)%float)
  | _, _ => None
  end.

(** The first row of a list that passes [p], replaced by its image. *)
Fixpoint update_first {A : Type} (p : A -> bool) (f : A -> A) (l : list A) : list A :=
  match l with
  | [] => []
  | x :: l' => if p x then f x :: l' else x :: update_first p f l'
  end.

(** The character classes compute on closed characters only. *)
Arguments isspace : simpl never.
Arguments isalnum : simpl never.
Arguments re_word : simpl never.
Arguments is_punctuation : simpl never.
Arguments lower_char : simpl never.
Arguments base_char : simpl never.

End Py.

Import Py.

(** ** app/utils/encoding_utils.py *)

Module EncodingUtils.

Section WithFtfy.

(** [ftfy.fix_text] *)
Variable ftfy_fix_text : string -> string.

(** [fix_text_encoding(text)]: a value that is not a str is returned as it is.
    ([pd.isna] of a str is false.) *)
Definition fix_text_encoding (text : value) : value :=
  match text with
  | VStr s => VStr (ftfy_fix_text s)
  | _ => text
  end.

(** [re.sub(r'[^\w\s]', ' ', text)] *)
Fixpoint sub_special (text : string) : string :=
  match text with
  | EmptyString => EmptyString
  | String c s' =>
      String (if re_word c || isspace c then c else " "%char) (sub_special s')
  end.

(** [re.sub(r'\s+', ' ', text)]; [in_run] tells that the character before
    belongs to a run of whitespace already replaced. *)
Fixpoint sub_spaces (in_run : bool) (text : string) : string :=
  match text with
  | EmptyString => EmptyString
  | String c s' =>
      if isspace c
      then (if in_run then sub_spaces true s' else String " " (sub_spaces true s'))
      else String c (sub_spaces false s')
  end.

(** [normalize_text(text, remove_accents)] *)
Definition normalize_text (text : value) (remove_accents : bool) : string :=
  match text with
  | VStr s =>
      let s := ftfy_fix_text s in
      let s := lower s in
      let s := if remove_accents then strip_marks s else s in
      let s := sub_special s in
      strip (sub_spaces false s)
  | _ => ""
  end.

End WithFtfy.

End EncodingUtils.

(** ** app/models/models.py *)

Module Models.

(** A [DateTime]. *)
Definition Time := nat.

Module Region.
Record t : Type := mk {
  id : nat;
  rss : string;
  nom : string;
  nom_normalise : string
}.
End Region.

(** The text columns hold a str or NULL; the two raw names hold whatever
    object the row carried. *)
Module Etablissement.
Record t : Type := mk {
  id : nat;
  source_id : option string;
  no_permis_installation : option string;
  nom_etablissement : value;
  nom_etablissement_normalise : string;
  nom_installation : value;
  nom_installation_normalise : option string;
  type : option string;
  adresse : option string;
  code_postal : option string;
  ville : option string;
  province : option string;
  region_id : option nat;
  point_geo : option (value * value);
  date_maj : Time
}.
End Etablissement.

(** The surrogate key [id] of the two measurement tables is left out: the
    pipeline reads and writes these rows by [etablissement_id] only. *)
Module UrgencesEtatActuel.
Record t : Type := mk {
  etablissement_id : nat;
  civieres_fonctionnelles : value;
  civieres_occupees : value;
  patients_24h : value;
  patients_48h : value;
  total_patients : value;
  patients_en_attente : value;
  dms_civiere : value;
  dms_ambulatoire : value;
  taux_occupation : value;
  date_extraction : option Time;
  date_maj : option Time;
  statut_validation : option string
}.

(** [UrgencesEtatActuel(etablissement_id=etablissement_id)] *)
Definition new (etablissement_id : nat) : t :=
  mk etablissement_id VNone VNone VNone VNone VNone VNone VNone VNone VNone
     None None None.

(** Attribute writes: [c.field = x]. *)
Definition set_civieres_fonctionnelles (x : value) (c : t) : t :=
  mk (etablissement_id c) x (civieres_occupees c) (patients_24h c)
     (patients_48h c) (total_patients c) (patients_en_attente c) (dms_civiere c)
     (dms_ambulatoire c) (taux_occupation c) (date_extraction c) (date_maj c)
     (statut_validation c).
Definition set_civieres_occupees (x : value) (c : t) : t :=
  mk (etablissement_id c) (civieres_fonctionnelles c) x (patients_24h c)
     (patients_48h c) (total_patients c) (patients_en_attente c) (dms_civiere c)
     (dms_ambulatoire c) (taux_occupation c) (date_extraction c) (date_maj c)
     (statut_validation c).
Definition set_patients_24h (x : value) (c : t) : t :=
  mk (etablissement_id c) (civieres_fonctionnelles c) (civieres_occupees c) x
     (patients_48h c) (total_patients c) (patients_en_attente c) (dms_civiere c)
     (dms_ambulatoire c) (taux_occupation c) (date_extraction c) (date_maj c)
     (statut_validation c).
Definition set_patients_48h (x : value) (c : t) : t :=
  mk (etablissement_id c) (civieres_fonctionnelles c) (civieres_occupees c) (patients_24h c)
     x (total_patients c) (patients_en_attente c) (dms_civiere c)
     (dms_ambulatoire c) (taux_occupation c) (date_extraction c) (date_maj c)
     (statut_validation c).
Definition set_total_patients (x : value) (c : t) : t :=
  mk (etablissement_id c) (civieres_fonctionnelles c) (civieres_occupees c) (patients_24h c)
     (patients_48h c) x (patients_en_attente c) (dms_civiere c)
     (dms_ambulatoire c) (taux_occupation c) (date_extraction c) (date_maj c)
     (statut_validation c).
Definition set_patients_en_attente (x : value) (c : t) : t :=
  mk (etablissement_id c) (civieres_fonctionnelles c) (civieres_occupees c) (patients_24h c)
     (patients_48h c) (total_patients c) x (dms_civiere c)
     (dms_ambulatoire c) (taux_occupation c) (date_extraction c) (date_maj c)
     (statut_validation c).
Definition set_dms_civiere (x : value) (c : t) : t :=
  mk (etablissement_id c) (civieres_fonctionnelles c) (civieres_occupees c) (patients_24h c)
     (patients_48h c) (total_patients c) (patients_en_attente c) x
     (dms_ambulatoire c) (taux_occupation c) (date_extraction c) (date_maj c)
     (statut_validation c).
Definition set_dms_ambulatoire (x : value) (c : t) : t :=
  mk (etablissement_id c) (civieres_fonctionnelles c) (civieres_occupees c) (patients_24h c)
     (patients_48h c) (total_patients c) (patients_en_attente c) (dms_civiere c)
     x (taux_occupation c) (date_extraction c) (date_maj c)
     (statut_validation c).
Definition set_taux_occupation (x : value) (c : t) : t :=
  mk (etablissement_id c) (civieres_fonctionnelles c) (civieres_occupees c) (patients_24h c)
     (patients_48h c) (total_patients c) (patients_en_attente c) (dms_civiere c)
     (dms_ambulatoire c) x (date_extraction c) (date_maj c)
     (statut_validation c).
Definition set_date_extraction (x : option Time) (c : t) : t :=
  mk (etablissement_id c) (civieres_fonctionnelles c) (civieres_occupees c) (patients_24h c)
     (patients_48h c) (total_patients c) (patients_en_attente c) (dms_civiere c)
     (dms_ambulatoire c) (taux_occupation c) x (date_maj c)
     (statut_validation c).
Definition set_date_maj (x : option Time) (c : t) : t :=
  mk (etablissement_id c) (civieres_fonctionnelles c) (civieres_occupees c) (patients_24h c)
     (patients_48h c) (total_patients c) (patients_en_attente c) (dms_civiere c)
     (dms_ambulatoire c) (taux_occupation c) (date_extraction c) x
     (statut_validation c).
Definition set_statut_validation (x : option string) (c : t) : t :=
  mk (etablissement_id c) (civieres_fonctionnelles c) (civieres_occupees c) (patients_24h c)
     (patients_48h c) (total_patients c) (patients_en_attente c) (dms_civiere c)
     (dms_ambulatoire c) (taux_occupation c) (date_extraction c) (date_maj c)
     x.
End UrgencesEtatActuel.

Module UrgencesHistorique.
Record t : Type := mk {
  etablissement_id : nat;
  civieres_fonctionnelles : value;
  civieres_occupees : value;
  patients_24h : value;
  patients_48h : value;
  total_patients : value;
  patients_en_attente : value;
  dms_civiere : value;
  dms_ambulatoire : value;
  taux_occupation : value;
  date_extraction : option Time;
  date_maj : option Time;
  statut_validation : option string
}.
End UrgencesHistorique.

End Models.

Import Models.

(** ** app/db/database.py: the data store and its session *)

Module Database.

(** The four tables, each in the order the store returns its rows. *)
Record DB : Type := mkDB {
  etablissements : list Etablissement.t;
  regions : list Region.t;
  urgences_etat_actuel : list UrgencesEtatActuel.t;
  urgences_historique : list UrgencesHistorique.t
}.

(** A session made by [SessionLocal], that is with [autocommit=False] and
    [autoflush=False].
    - [committed]: the store as of the last commit.
    - [persistent]: the rows of the open transaction, with the attribute
      values the session holds for them.  A query returns these objects.
    - [new_etablissement], [new_actuel], [new_historique]: objects given to
      [db.add] and not flushed yet.  With [autoflush=False] no query sees
      them.
    - [etablissement_seq]: the sequence behind [etablissements.id]; a
      rollback does not take a drawn number back. *)
Record Session : Type := mkSession {
  committed : DB;
  persistent : DB;
  new_etablissement : list Etablissement.t;
  new_actuel : list UrgencesEtatActuel.t;
  new_historique : list UrgencesHistorique.t;
  etablissement_seq : nat
}.

(** [SessionLocal()] on a store. *)
Definition open (db : DB) (seq : nat) : Session :=
  mkSession db db [] [] [] seq.

(** The tables as a flush would leave them. *)
Definition flushed (s : Session) : DB :=
  mkDB (etablissements (persistent s) ++ new_etablissement s)
       (regions (persistent s))
       (urgences_etat_actuel (persistent s) ++ new_actuel s)
       (urgences_historique (persistent s) ++ new_historique s).

(** [db.rollback()] *)
Definition rollback (s : Session) : Session :=
  mkSession (committed s) (committed s) [] [] [] (etablissement_seq s).

(** [db.add(etablissement)]: the object gets the next number of the sequence
    as its [id] when it is flushed; the number is drawn here. *)
Definition add_etablissement (e : nat -> Etablissement.t) (s : Session) : Session :=
  mkSession (committed s) (persistent s)
            (new_etablissement s ++ [e (etablissement_seq s)])
            (new_actuel s) (new_historique s) (S (etablissement_seq s)).

(** [db.add(current_data)] *)
Definition add_actuel (c : UrgencesEtatActuel.t) (s : Session) : Session :=
  mkSession (committed s) (persistent s) (new_etablissement s)
            (new_actuel s ++ [c]) (new_historique s) (etablissement_seq s).

(** [db.add(historique)] *)
Definition add_historique (h : UrgencesHistorique.t) (s : Session) : Session :=
  mkSession (committed s) (persistent s) (new_etablissement s)
            (new_actuel s) (new_historique s ++ [h]) (etablissement_seq s).

(** The session after attribute writes on persistent objects. *)
Definition with_persistent (db : DB) (s : Session) : Session :=
  mkSession (committed s) db (new_etablissement s)
            (new_actuel s) (new_historique s) (etablissement_seq s).

Section WithStore.

(** The verdict of the store on the tables a flush writes (NOT NULL, UNIQUE,
    length and foreign-key constraints, the state of the connection). *)
Variable accepts : DB -> bool.

(** [db.flush()]; [None] when the store raises. *)
Definition flush (s : Session) : option Session :=
  if accepts (flushed s)
  then Some (mkSession (committed s) (flushed s) [] [] [] (etablissement_seq s))
  else None.

(** [db.commit()]; [None] when the store raises. *)
Definition commit (s : Session) : option Session :=
  match flush s with
  | Some s' =>
      Some (mkSession (persistent s') (persistent s') [] [] [] (etablissement_seq s'))
  | None => None
  end.

End WithStore.

(** [query.first()]: the first row, in the order of the store, that passes
    the filter. *)
Definition first {A : Type} (filter : A -> bool) (table : list A) : option A :=
  List.find filter table.

(** [text LIKE pattern] with the escape character of PostgreSQL, the
    backslash.  A pattern that ends in a lone escape, which the store
    refuses, matches nothing. *)
Fixpoint like (pattern : string) : string -> bool :=
  match pattern with
  | EmptyString =>
      fun text => match text with EmptyString => true | _ => false end
  | String c p =>
      if Ascii.eqb c "%" then
        fix any (text : string) : bool :=
          like p text
          || match text with
             | EmptyString => false
             | String _ text' => any text'
             end
      else if Ascii.eqb c "_" then
        fun text =>
          match text with
          | EmptyString => false
          | String _ text' => like p text'
          end
      else if Ascii.eqb c "\" then
        match p with
        | EmptyString => fun _ => false
        | String d p' =>
            fun text =>
              match text with
              | EmptyString => false
              | String e text' => Ascii.eqb d e && like p' text'
              end
        end
      else
        fun text =>
          match text with
          | EmptyString => false
          | String e text' => Ascii.eqb c e && like p text'
          end
  end.

(** [column.ilike(pattern)]: [column ILIKE pattern], false on NULL. *)
Definition ilike (column : option string) (pattern : string) : bool :=
  match column with
  | Some text => like (lower pattern) (lower text)
  | None => false
  end.

(** [column == text], false on NULL. *)
Definition eq_str (column : option string) (text : string) : bool :=
  match column with
  | Some t => t =? text
  | None => false
  end.

End Database.

Import Database.

(** ** app/core/scheduler.py *)

Module Scheduler.

(** The character of code point [n], for the literals of the source that
    carry an accent. *)
Definition chr (n : nat) : string := String (ascii_of_nat n) EmptyString.

Definition Quebec : string := "Qu" ++ chr 233 ++ "bec".
Definition A_completer : string := chr 192 ++ " compl" ++ chr 233 ++ "ter".
Definition Hopital : string := "H" ++ chr 244 ++ "pital".
Definition valide : string := "valid" ++ chr 233.

Definition PROVINCE_MAPPING : list (string * string) :=
  [ ("qc", Quebec); ("QC", Quebec); ("Qc", Quebec);
    ("quebec", Quebec); ("QUEBEC", Quebec);
    ("on", "Ontario"); ("ON", "Ontario");
    ("bc", "Colombie-Britannique"); ("BC", "Colombie-Britannique");
    ("ab", "Alberta"); ("AB", "Alberta");
    ("mb", "Manitoba"); ("MB", "Manitoba");
    ("sk", "Saskatchewan"); ("SK", "Saskatchewan");
    ("ns", "Nouvelle-" ++ chr 201 ++ "cosse"); ("NS", "Nouvelle-" ++ chr 201 ++ "cosse");
    ("nb", "Nouveau-Brunswick"); ("NB", "Nouveau-Brunswick");
    ("nl", "Terre-Neuve-et-Labrador"); ("NL", "Terre-Neuve-et-Labrador");
    ("pe", chr 206 ++ "le-du-Prince-" ++ chr 201 ++ "douard");
    ("PE", chr 206 ++ "le-du-Prince-" ++ chr 201 ++ "douard");
    ("yt", "Yukon"); ("YT", "Yukon");
    ("nt", "Territoires du Nord-Ouest"); ("NT", "Territoires du Nord-Ouest");
    ("nu", "Nunavut"); ("NU", "Nunavut") ].

(** One entry of [self.etablissements_info], or the dict of default values:
    the latter has no latitude and no longitude. *)
Record Info : Type := mkInfo {
  info_source_id : string;
  info_type : string;
  info_adresse : string;
  info_code_postal : string;
  info_ville : string;
  info_province : string;
  info_coordinates : option (value * value)   (* latitude, longitude *)
}.

(** A record of [logger]. *)
Inductive LogRecord : Type :=
| Warning_dms_civiere
| Warning_dms_ambulatoire
| Error_update_current_data (etablissement_id : nat)
| Error_create_etablissement
| Error_update_database.

(** [needle in haystack] on str *)
Fixpoint prefix_of (p s : string) : bool :=
  match p, s with
  | EmptyString, _ => true
  | String a p', String b s' => Ascii.eqb a b && prefix_of p' s'
  | String _ _, EmptyString => false
  end.

Fixpoint substring_of (needle haystack : string) : bool :=
  prefix_of needle haystack
  || match haystack with
     | EmptyString => false
     | String _ rest => substring_of needle rest
     end.

(** [pd.isna(x)] of a scalar *)
Definition isna (v : value) : bool :=
  match v with
  | VNone => true
  | VFloat f => PrimFloat.is_nan f
  | VStr _ => false
  end.

(** [f"{n:04d}"] *)
Definition pad4 (n : nat) : string :=
  let d := NilEmpty.string_of_uint (Nat.to_uint n) in
  let d := if d =? "" then "0" else d in
  match String.length d with
  | 1 => "000" ++ d
  | 2 => "00" ++ d
  | 3 => "0" ++ d
  | _ => d
  end.

Section DataUpdater.

(** [ftfy.fix_text] *)
Variable ftfy_fix_text : string -> string.
(** [float(s)] of a str; [None] when it raises [ValueError]. *)
Variable float_of_str : string -> option float.
(** [str(f)] of a float. *)
Variable str_of_float : float -> string.
(** [t.strftime('%Y%m%d')] *)
Variable strftime_Ymd : Time -> string.
(** The verdict of the store on a flush. *)
Variable accepts : DB -> bool.
(** [self.etablissements_info], in the order of its items. *)
Variable etablissements_info : list (string * Info).

Abbreviation fix_text_encoding := (EncodingUtils.fix_text_encoding ftfy_fix_text).
Abbreviation normalize_text := (EncodingUtils.normalize_text ftfy_fix_text).

(** [str(x)] *)
Definition str (v : value) : string :=
  match v with
  | VNone => "None"
  | VFloat f => str_of_float f
  | VStr s => s
  end.

(** [float(x)]; [None] when it raises ([TypeError] on [None], [ValueError]
    on a str that is not a number). *)
Definition float (v : value) : option float :=
  match v with
  | VNone => None
  | VFloat f => Some f
  | VStr s => float_of_str s
  end.

(** *** [_find_region_id] *)

Definition find_region_id (s : Session) (rss region_name : value) : option nat :=
  let regions := regions (persistent s) in
  let rss := strip (str rss) in
  (* 1) by RSS *)
  let region :=
    if negb (rss =? "")
    then first (fun r => Region.rss r =? rss) regions
    else None in
  (* 2) by name *)
  let region :=
    match region with
    | Some _ => region
    | None =>
        if truthy region_name
        then
          let region_name_norm := normalize_text region_name true in
          first (fun r => ilike (Some (Region.nom_normalise r))
                                ("%" ++ region_name_norm ++ "%")) regions
        else None
    end in
  (* 3) the default: Montreal *)
  let region :=
    match region with
    | Some _ => region
    | None => first (fun r => Region.rss r =? "06") regions
    end in
  (* 4) the first region there is *)
  let region :=
    match region with
    | Some _ => region
    | None => first (fun _ => true) regions
    end in
  match region with
  | Some r => Some (Region.id r)
  | None => None
  end.

(** *** [_get_etablissement_info] *)

Definition default_info (now : Time) : Info :=
  mkInfo ("GEN-" ++ strftime_Ymd now ++ "-" ++ pad4 (List.length etablissements_info + 1))
         Hopital A_completer "" A_completer Quebec None.

Definition get_etablissement_info (now : Time)
    (nom_installation_norm nom_etablissement_norm : string) : Info :=
  match
    List.find
      (fun item =>
         (negb (nom_installation_norm =? "")
          && substring_of nom_installation_norm (fst item))
         || (negb (nom_etablissement_norm =? "")
             && substring_of nom_etablissement_norm (fst item)))
      etablissements_info
  with
  | Some (_, info) => info
  | None => default_info now
  end.

(** *** [_find_etablissement] *)

(** The three queries of the cascade, on the rows a query sees. *)
Definition by_permis (table : list Etablissement.t) (no_permis : string) :=
  first (fun e => eq_str (Etablissement.no_permis_installation e) no_permis) table.

Definition by_installation (table : list Etablissement.t) (nom_installation_std : string) :=
  first (fun e => ilike (Etablissement.nom_installation_normalise e)
                        ("%" ++ nom_installation_std ++ "%")) table.

Definition by_etablissement (table : list Etablissement.t) (nom_etablissement_std : string) :=
  first (fun e => ilike (Some (Etablissement.nom_etablissement_normalise e))
                        ("%" ++ nom_etablissement_std ++ "%")) table.

(** The [try] block of the search: what [etablissement] holds after it. *)
Definition search (table : list Etablissement.t)
    (no_permis nom_installation_std nom_etablissement_std : string)
    : option Etablissement.t :=
  (* 1) by permit number, if there is one *)
  let etablissement :=
    if negb (no_permis =? "") && negb (strip no_permis =? "")
    then by_permis table no_permis
    else None in
  (* 2) by installation *)
  let etablissement :=
    match etablissement with
    | Some _ => etablissement
    | None =>
        if negb (nom_installation_std =? "")
        then by_installation table nom_installation_std
        else None
    end in
  (* 3) by establishment *)
  match etablissement with
  | Some _ => etablissement
  | None =>
      if negb (nom_etablissement_std =? "")
      then by_etablissement table nom_etablissement_std
      else None
  end.

(** The geographic point of the new facility: [(lon, lat)] of the WKT
    element, when both coordinates are there, true and not NaN. *)
Definition point_of (info : Info) : option (value * value) :=
  match info_coordinates info with
  | Some (lat, lon) =>
      if truthy lat && truthy lon && negb (isna lat) && negb (isna lon)
      then Some (lon, lat)
      else None
  | None => None
  end.

(** [PROVINCE_MAPPING[province.lower()]] when the key is there. *)
Definition standard_province (province : string) : string :=
  match dict_get PROVINCE_MAPPING (lower province) with
  | Some p => p
  | None => province
  end.

(** The [Etablissement(...)] of the creation, but for its [id]. *)
Definition new_etablissement_of (now : Time) (row : Series) (region_id : option nat)
    (info : Info) (id : nat) : Etablissement.t :=
  let nom_etablissement := fix_text_encoding (get row "nom_etablissement" (VStr "")) in
  let nom_installation := fix_text_encoding (get row "nom_installation" (VStr "")) in
  Etablissement.mk id
    (Some (info_source_id info))
    (Some (str (get row "no_permis_installation" (VStr ""))))
    nom_etablissement
    (normalize_text nom_etablissement true)
    nom_installation
    (Some (normalize_text nom_installation true))
    (Some (info_type info))
    (Some (info_adresse info))
    (Some (info_code_postal info))
    (Some (info_ville info))
    (Some (standard_province (info_province info)))
    region_id
    (point_of info)
    now.

(** [_find_etablissement(db, row)]: the session after the call and the
    facility returned, [None] when the creation raised. *)
Definition find_etablissement (now : Time) (s : Session) (row : Series)
    : Session * option Etablissement.t :=
  let nom_etablissement := get row "nom_etablissement" (VStr "") in
  let nom_installation := get row "nom_installation" (VStr "") in
  let no_permis := str (get row "no_permis_installation" (VStr "")) in
  let nom_etablissement := fix_text_encoding nom_etablissement in
  let nom_installation := fix_text_encoding nom_installation in
  let nom_etablissement_std := normalize_text nom_etablissement true in
  let nom_installation_std := normalize_text nom_installation true in
  match search (etablissements (persistent s))
               no_permis nom_installation_std nom_etablissement_std with
  | Some e => (s, Some e)
  | None =>
      let region_id := find_region_id s (get row "rss" (VStr "")) (get row "region" (VStr "")) in
      let info := get_etablissement_info now nom_installation_std nom_etablissement_std in
      let e := new_etablissement_of now row region_id info in
      let id := etablissement_seq s in
      let s := add_etablissement e s in
      match flush accepts s with
      | Some s' => (s', Some (e id))
      | None => (rollback s, None)
      end
  end.

(** The three inputs of the cascade, as [_find_etablissement] computes them. *)
Definition no_permis_of (row : Series) : string :=
  str (get row "no_permis_installation" (VStr "")).

Definition installation_key (row : Series) : string :=
  normalize_text (fix_text_encoding (get row "nom_installation" (VStr ""))) true.

Definition etablissement_key (row : Series) : string :=
  normalize_text (fix_text_encoding (get row "nom_etablissement" (VStr ""))) true.

(** The facility the creation path of [_find_etablissement] builds, but for
    its [id]. *)
Definition created (now : Time) (s : Session) (row : Series) : nat -> Etablissement.t :=
  new_etablissement_of now row
    (find_region_id s (get row "rss" (VStr "")) (get row "region" (VStr "")))
    (get_etablissement_info now (installation_key row) (etablissement_key row)).

(** *** [_archive_current_data] *)

(** The [UrgencesHistorique(...)] built from [current_data]. *)
Definition historique_of (c : UrgencesEtatActuel.t) : UrgencesHistorique.t :=
  UrgencesHistorique.mk
    (UrgencesEtatActuel.etablissement_id c)
    (UrgencesEtatActuel.civieres_fonctionnelles c)
    (UrgencesEtatActuel.civieres_occupees c)
    (UrgencesEtatActuel.patients_24h c)
    (UrgencesEtatActuel.patients_48h c)
    (UrgencesEtatActuel.total_patients c)
    (UrgencesEtatActuel.patients_en_attente c)
    (UrgencesEtatActuel.dms_civiere c)
    (UrgencesEtatActuel.dms_ambulatoire c)
    (UrgencesEtatActuel.taux_occupation c)
    (UrgencesEtatActuel.date_extraction c)
    (UrgencesEtatActuel.date_maj c)
    (UrgencesEtatActuel.statut_validation c).

Definition of_etablissement (etablissement_id : nat) (c : UrgencesEtatActuel.t) : bool :=
  Nat.eqb (UrgencesEtatActuel.etablissement_id c) etablissement_id.

(** [db.query(UrgencesEtatActuel).filter(
       UrgencesEtatActuel.etablissement_id == etablissement_id).first()] *)
Definition current_data_of (s : Session) (etablissement_id : nat)
    : option UrgencesEtatActuel.t :=
  first (of_etablissement etablissement_id) (urgences_etat_actuel (persistent s)).

Definition archive_current_data (s : Session) (etablissement_id : nat) : Session :=
  match current_data_of s etablissement_id with
  | Some current_data => add_historique (historique_of current_data) s
  | None => s
  end.

(** *** [_update_current_data] *)

(** The six counts, in the order they are written. *)
Definition counts : list (string * (value -> UrgencesEtatActuel.t -> UrgencesEtatActuel.t)) :=
  [ ("civieres_fonctionnelles", UrgencesEtatActuel.set_civieres_fonctionnelles);
    ("civieres_occupees", UrgencesEtatActuel.set_civieres_occupees);
    ("patients_24h", UrgencesEtatActuel.set_patients_24h);
    ("patients_48h", UrgencesEtatActuel.set_patients_48h);
    ("total_patients", UrgencesEtatActuel.set_total_patients);
    ("patients_en_attente", UrgencesEtatActuel.set_patients_en_attente) ].

(** [current_data.x = float(row.get('x', 0))] for each count in turn; the
    object as the writes left it, and [false] when a conversion raised. *)
Fixpoint write_counts
    (columns : list (string * (value -> UrgencesEtatActuel.t -> UrgencesEtatActuel.t)))
    (row : Series) (c : UrgencesEtatActuel.t) : UrgencesEtatActuel.t * bool :=
  match columns with
  | [] => (c, true)
  | (key, set) :: rest =>
      match float (get row key (VFloat 0)) with
      | Some f => write_counts rest row (set (VFloat f) c)
      | None => (c, false)
      end
  end.

(** The [try] block of a mean length of stay: the hours, [None] when the
    block raises. *)
Definition dms_hours (dms : value) : option PrimFloat.float :=
  match dms with
  | VStr d =>
      if contains_char ":" d then
        match split ":" d with
        | [h; m] =>
            match float_of_str h, float_of_str m with
            | Some h, Some m => Some (h + m / 60)%float
            | _, _ => None
            end
        | _ => None
        end
      else float_of_str (replace_char "," "." d)
  | VFloat f => Some f
  | VNone => Some 0%float
  end.

(** The value written for a mean length of stay, and the warning logged
    when the [try] block raised. *)
Definition coerce_dms (warning : LogRecord) (dms : value) : value * list LogRecord :=
  match dms_hours dms with
  | Some f => (VFloat f, [])
  | None => (VFloat 0, [warning])
  end.

(** The occupancy rate: [None] when the computation raises. *)
Definition taux_occupation_of (civieres_fonctionnelles civieres_occupees : value)
    : option value :=
  if truthy civieres_fonctionnelles then
    match gt0 civieres_fonctionnelles with
    | Some true =>
        if negb (is_None civieres_occupees)
        then percent civieres_occupees civieres_fonctionnelles
        else Some (VFloat 0)
    | Some false => Some (VFloat 0)
    | None => None
    end
  else Some (VFloat 0).

(** The attribute writes of [_update_current_data] on [current_data]: the
    object as they left it, the warnings, and [false] when the body raised
    before its end. *)
Definition write_current_data (row : Series) (date_extraction now : Time)
    (c : UrgencesEtatActuel.t) : UrgencesEtatActuel.t * list LogRecord * bool :=
  match write_counts counts row c with
  | (c, false) => (c, [], false)
  | (c, true) =>
      let (dms_civiere, w1) := coerce_dms Warning_dms_civiere (get_ row "dms_civiere") in
      let c := UrgencesEtatActuel.set_dms_civiere dms_civiere c in
      let (dms_ambulatoire, w2) :=
        coerce_dms Warning_dms_ambulatoire (get_ row "dms_ambulatoire") in
      let c := UrgencesEtatActuel.set_dms_ambulatoire dms_ambulatoire c in
      match taux_occupation_of (UrgencesEtatActuel.civieres_fonctionnelles c)
                               (UrgencesEtatActuel.civieres_occupees c) with
      | Some taux =>
          let c := UrgencesEtatActuel.set_taux_occupation taux c in
          let c := UrgencesEtatActuel.set_date_extraction (Some date_extraction) c in
          let c := UrgencesEtatActuel.set_date_maj (Some now) c in
          let c := UrgencesEtatActuel.set_statut_validation (Some valide) c in
          (c, (w1 ++ w2)%list, true)
      | None => (c, (w1 ++ w2)%list, false)
      end
  end.

(** The persistent tables once the current state of a facility, the object
    the query returned, has been written by [f]. *)
Definition write_persistent (etablissement_id : nat)
    (f : UrgencesEtatActuel.t -> UrgencesEtatActuel.t) (db : DB) : DB :=
  mkDB (etablissements db) (regions db)
       (update_first (of_etablissement etablissement_id) f (urgences_etat_actuel db))
       (urgences_historique db).

Definition update_current_data (s : Session) (etablissement_id : nat) (row : Series)
    (date_extraction now : Time) : Session * list LogRecord :=
  match current_data_of s etablissement_id with
  | Some current_data =>
      let '(c, log, ok) := write_current_data row date_extraction now current_data in
      (with_persistent (write_persistent etablissement_id (fun _ => c) (persistent s)) s,
       (log ++ if ok then [] else [Error_update_current_data etablissement_id])%list)
  | None =>
      let '(c, log, ok) :=
        write_current_data row date_extraction now
                           (UrgencesEtatActuel.new etablissement_id) in
      (add_actuel c s,
       (log ++ if ok then [] else [Error_update_current_data etablissement_id])%list)
  end.

(** *** [_update_database] *)

(** The two calls made for a resolved facility: archive, then update. *)
Definition apply_measurement (s : Session) (etablissement_id : nat) (row : Series)
    (date_extraction now : Time) : Session * list LogRecord :=
  let s := archive_current_data s etablissement_id in
  update_current_data s etablissement_id row date_extraction now.

(** One turn of the loop.  A row without a facility is skipped:
    [_find_etablissement] has logged the error and rolled the session back. *)
Definition process_row (date_extraction now : Time) (s : Session) (row : Series)
    : Session * list LogRecord :=
  match find_etablissement now s row with
  | (s, Some etablissement) =>
      apply_measurement s (Etablissement.id etablissement) row date_extraction now
  | (s, None) => (s, [Error_create_etablissement])
  end.

Fixpoint process_rows (date_extraction now : Time) (s : Session) (rows : list Series)
    : Session * list LogRecord :=
  match rows with
  | [] => (s, [])
  | row :: rest =>
      let (s, log) := process_row date_extraction now s row in
      let (s, log') := process_rows date_extraction now s rest in
      (s, (log ++ log')%list)
  end.

(** [_update_database(df_urgences)] on a fresh session: the session as the
    call leaves it, whose [committed] tables are the store. *)
Definition update_database (s : Session) (rows : list Series)
    (date_extraction now : Time) : Session * list LogRecord :=
  let (s, log) := process_rows date_extraction now s rows in
  match commit accepts s with
  | Some s' => (s', log)
  | None => (rollback s, (log ++ [Error_update_database])%list)
  end.

(** *** [fix_null_values] *)

Definition or_else {A : Type} (x : option A) (y : A) : option A :=
  match x with
  | Some _ => x
  | None => Some y
  end.

(** The filter of the first query: a facility with a NULL among [adresse],
    [ville], [type] and [source_id]. *)
Definition etablissement_avec_null (e : Etablissement.t) : bool :=
  match Etablissement.adresse e, Etablissement.ville e,
        Etablissement.type e, Etablissement.source_id e with
  | Some _, Some _, Some _, Some _ => false
  | _, _, _, _ => true
  end.

(** The body of the first loop, on one facility. *)
Definition fix_etablissement (now : Time) (etab : Etablissement.t) : Etablissement.t :=
  let info :=
    get_etablissement_info now
      (match Etablissement.nom_installation_normalise etab with
       | Some n => n
       | None => ""
       end)
      (Etablissement.nom_etablissement_normalise etab) in
  let adresse := or_else (Etablissement.adresse etab) (info_adresse info) in
  let ville := or_else (Etablissement.ville etab) (info_ville info) in
  let type := or_else (Etablissement.type etab) (info_type info) in
  let code_postal := or_else (Etablissement.code_postal etab) (info_code_postal info) in
  let province := or_else (Etablissement.province etab) Quebec in
  let source_id := or_else (Etablissement.source_id etab) (info_source_id info) in
  (* the province is standardised, present or not *)
  let province :=
    match province with
    | Some p =>
        match dict_get PROVINCE_MAPPING p with
        | Some q => Some q
        | None => Some p
        end
    | None => None
    end in
  let point_geo :=
    match Etablissement.point_geo etab with
    | Some g => Some g
    | None => point_of info
    end in
  Etablissement.mk (Etablissement.id etab) source_id
    (Etablissement.no_permis_installation etab)
    (Etablissement.nom_etablissement etab)
    (Etablissement.nom_etablissement_normalise etab)
    (Etablissement.nom_installation etab)
    (Etablissement.nom_installation_normalise etab)
    type adresse code_postal ville province
    (Etablissement.region_id etab) point_geo now.

(** The filter of the second query: a current state with a NULL among the
    two mean lengths of stay, the two totals and the occupancy rate. *)
Definition urgence_avec_null (u : UrgencesEtatActuel.t) : bool :=
  is_None (UrgencesEtatActuel.dms_civiere u)
  || is_None (UrgencesEtatActuel.dms_ambulatoire u)
  || is_None (UrgencesEtatActuel.total_patients u)
  || is_None (UrgencesEtatActuel.patients_en_attente u)
  || is_None (UrgencesEtatActuel.taux_occupation u).

Definition zero_if_None (v : value) : value :=
  if is_None v then VFloat 0 else v.

(** The body of the second loop, on one current state; [None] when the
    occupancy rate raises. *)
Definition fix_urgence (now : Time) (urg : UrgencesEtatActuel.t)
    : option UrgencesEtatActuel.t :=
  let urg := UrgencesEtatActuel.set_dms_civiere
               (zero_if_None (UrgencesEtatActuel.dms_civiere urg)) urg in
  let urg := UrgencesEtatActuel.set_dms_ambulatoire
               (zero_if_None (UrgencesEtatActuel.dms_ambulatoire urg)) urg in
  let urg := UrgencesEtatActuel.set_total_patients
               (zero_if_None (UrgencesEtatActuel.total_patients urg)) urg in
  let urg := UrgencesEtatActuel.set_patients_en_attente
               (zero_if_None (UrgencesEtatActuel.patients_en_attente urg)) urg in
  let taux :=
    if is_None (UrgencesEtatActuel.taux_occupation urg)
    then taux_occupation_of (UrgencesEtatActuel.civieres_fonctionnelles urg)
                            (UrgencesEtatActuel.civieres_occupees urg)
    else Some (UrgencesEtatActuel.taux_occupation urg) in
  match taux with
  | Some t =>
      Some (UrgencesEtatActuel.set_date_maj (Some now)
              (UrgencesEtatActuel.set_taux_occupation t urg))
  | None => None
  end.

(** The second loop: every selected row is written, the others are left;
    [None] as soon as one body raises. *)
Fixpoint fix_urgences (now : Time) (table : list UrgencesEtatActuel.t)
    : option (list UrgencesEtatActuel.t) :=
  match table with
  | [] => Some []
  | u :: rest =>
      match (if urgence_avec_null u then fix_urgence now u else Some u) with
      | Some u' =>
          match fix_urgences now rest with
          | Some rest' => Some (u' :: rest')
          | None => None
          end
      | None => None
      end
  end.

(** The tables as the two loops of [fix_null_values] write them; [None]
    when a body raises. *)
Definition backfill (now : Time) (db : DB) : option DB :=
  let etablissements :=
    List.map (fun e => if etablissement_avec_null e then fix_etablissement now e else e)
             (etablissements db) in
  match fix_urgences now (urgences_etat_actuel db) with
  | Some urgences =>
      Some (mkDB etablissements (regions db) urgences (urgences_historique db))
  | None => None
  end.

(** [fix_null_values()] on a fresh session. *)
Definition fix_null_values (s : Session) (now : Time) : Session :=
  match backfill now (persistent s) with
  | Some db =>
      let s' := with_persistent db s in
      match commit accepts s' with
      | Some s'' => s''
      | None => rollback s'
      end
  | None => rollback s
  end.

End DataUpdater.

End Scheduler.

(** ** scripts/data_updater.py *)

Module ScriptUpdater.

Section DataUpdater.

(** [ftfy.fix_text] *)
Variable ftfy_fix_text : string -> string.
(** The verdict of the store on a flush. *)
Variable accepts : DB -> bool.

Abbreviation fix_text_encoding := (EncodingUtils.fix_text_encoding ftfy_fix_text).
Abbreviation normalize_text := (EncodingUtils.normalize_text ftfy_fix_text).

(** *** [_find_etablissement] *)

(** The [try] block of the search: by installation, then by establishment. *)
Definition search (table : list Etablissement.t)
    (nom_installation_std nom_etablissement_std : string) : option Etablissement.t :=
  let etablissement :=
    if negb (nom_installation_std =? "")
    then Scheduler.by_installation table nom_installation_std
    else None in
  match etablissement with
  | Some _ => etablissement
  | None =>
      if negb (nom_etablissement_std =? "")
      then Scheduler.by_etablissement table nom_etablissement_std
      else None
  end.

(** The default region: Montreal if it is there, else the first one. *)
Definition default_region_id (s : Session) : option nat :=
  let regions := regions (persistent s) in
  let region :=
    match first (fun r => Region.rss r =? "06") regions with
    | Some r => Some r
    | None => first (fun _ => true) regions
    end in
  match region with
  | Some r => Some (Region.id r)
  | None => None
  end.

(** The [Etablissement(...)] of the creation, but for its [id]: the columns
    it does not name are NULL. *)
Definition new_etablissement_of (now : Time) (row : Series) (region_id : option nat)
    (id : nat) : Etablissement.t :=
  let nom_etablissement := fix_text_encoding (get row "nom_etablissement" (VStr "")) in
  let nom_installation := fix_text_encoding (get row "nom_installation" (VStr "")) in
  Etablissement.mk id None None
    nom_etablissement
    (normalize_text nom_etablissement true)
    nom_installation
    (Some (normalize_text nom_installation true))
    None None None None
    (Some Scheduler.Quebec)
    region_id None now.

(** [_find_etablissement(db, row)]: the session at the end of the call and
    the facility returned, [None] when the call raised. *)
Definition find_etablissement (now : Time) (s : Session) (row : Series)
    : Session * option Etablissement.t :=
  let nom_etablissement := fix_text_encoding (get row "nom_etablissement" (VStr "")) in
  let nom_installation := fix_text_encoding (get row "nom_installation" (VStr "")) in
  let nom_etablissement_std := normalize_text nom_etablissement true in
  let nom_installation_std := normalize_text nom_installation true in
  match search (etablissements (persistent s))
               nom_installation_std nom_etablissement_std with
  | Some e => (s, Some e)
  | None =>
      let region_id := default_region_id s in
      let e := new_etablissement_of now row region_id in
      let id := etablissement_seq s in
      let s := add_etablissement e s in
      match flush accepts s with
      | Some s' => (s', Some (e id))
      | None => (s, None)
      end
  end.

(** *** [_update_current_data] *)

(** The occupancy rate: [Some VNone] is the NULL of the [else] branch,
    [None] a computation that raises. *)
Definition taux_occupation_of (civieres_fonctionnelles civieres_occupees : value)
    : option value :=
  if truthy civieres_fonctionnelles then
    match gt0 civieres_fonctionnelles with
    | Some true => percent civieres_occupees civieres_fonctionnelles
    | Some false => Some VNone
    | None => None
    end
  else Some VNone.

(** The attribute writes on [current_data]; [None] when the body raises. *)
Definition write_current_data (row : Series) (date_extraction now : Time)
    (c : UrgencesEtatActuel.t) : option UrgencesEtatActuel.t :=
  let c := UrgencesEtatActuel.set_civieres_fonctionnelles (get_ row "civieres_fonctionnelles") c in
  let c := UrgencesEtatActuel.set_civieres_occupees (get_ row "civieres_occupees") c in
  let c := UrgencesEtatActuel.set_patients_24h (get_ row "patients_24h") c in
  let c := UrgencesEtatActuel.set_patients_48h (get_ row "patients_48h") c in
  let c := UrgencesEtatActuel.set_total_patients (get_ row "total_patients") c in
  let c := UrgencesEtatActuel.set_patients_en_attente (get_ row "patients_en_attente") c in
  let c := UrgencesEtatActuel.set_dms_civiere (get_ row "dms_civiere") c in
  let c := UrgencesEtatActuel.set_dms_ambulatoire (get_ row "dms_ambulatoire") c in
  match taux_occupation_of (UrgencesEtatActuel.civieres_fonctionnelles c)
                           (UrgencesEtatActuel.civieres_occupees c) with
  | Some taux =>
      let c := UrgencesEtatActuel.set_taux_occupation taux c in
      let c := UrgencesEtatActuel.set_date_extraction (Some date_extraction) c in
      let c := UrgencesEtatActuel.set_date_maj (Some now) c in
      Some (UrgencesEtatActuel.set_statut_validation (Some Scheduler.valide) c)
  | None => None
  end.

(** [_update_current_data]; [None] when it raises. *)
Definition update_current_data (s : Session) (etablissement_id : nat) (row : Series)
    (date_extraction now : Time) : option Session :=
  match Scheduler.current_data_of s etablissement_id with
  | Some current_data =>
      match write_current_data row date_extraction now current_data with
      | Some c =>
          Some (with_persistent
                  (Scheduler.write_persistent etablissement_id (fun _ => c) (persistent s)) s)
      | None => None
      end
  | None =>
      match write_current_data row date_extraction now
                               (UrgencesEtatActuel.new etablissement_id) with
      | Some c => Some (add_actuel c s)
      | None => None
      end
  end.

(** *** [_update_database] *)

(** One turn of the loop: the [try] and its [except], which rolls the
    session back and goes on. *)
Definition process_row (date_extraction now : Time) (s : Session) (row : Series)
    : Session :=
  match find_etablissement now s row with
  | (s, Some etablissement) =>
      let s := Scheduler.archive_current_data s (Etablissement.id etablissement) in
      match update_current_data s (Etablissement.id etablissement) row
                                date_extraction now with
      | Some s' => s'
      | None => rollback s
      end
  | (s, None) => rollback s
  end.

(** [_update_database(df_urgences)] on a fresh session. *)
Definition update_database (s : Session) (rows : list Series)
    (date_extraction now : Time) : Session :=
  let s := List.fold_left (process_row date_extraction now) rows s in
  match commit accepts s with
  | Some s' => s'
  | None => rollback s
  end.

End DataUpdater.

End ScriptUpdater.

(** ** scripts/fix_tables.py *)

Module FixTables.

(** One entry of the catalog read by this script, or the dict of default
    values: neither has a [source_id], and the latter has no coordinates. *)
Record Info : Type := mkInfo {
  info_type : string;
  info_adresse : string;
  info_code_postal : string;
  info_ville : string;
  info_province : string;
  info_coordinates : option (value * value)   (* latitude, longitude *)
}.

Definition default_info : Info :=
  mkInfo Scheduler.Hopital Scheduler.A_completer "" Scheduler.A_completer
         Scheduler.Quebec None.

(** [get_etablissement_info(etablissements_info, nom_installation_norm,
    nom_etablissement_norm)] *)
Definition get_etablissement_info (etablissements_info : list (string * Info))
    (nom_installation_norm nom_etablissement_norm : string) : Info :=
  if (nom_installation_norm =? "") && (nom_etablissement_norm =? "")
  then default_info
  else
    match
      List.find
        (fun item =>
           (negb (nom_installation_norm =? "")
            && Scheduler.substring_of nom_installation_norm (fst item))
           || (negb (nom_etablissement_norm =? "")
               && Scheduler.substring_of nom_etablissement_norm (fst item)))
        etablissements_info
    with
    | Some (_, info) => info
    | None => default_info
    end.

(** [column IS NULL OR column = ''] *)
Definition null_or_empty (column : option string) : bool :=
  match column with
  | None => true
  | Some text => text =? ""
  end.

(** [column IS NULL] *)
Definition is_null {A : Type} (column : option A) : bool :=
  match column with
  | None => true
  | Some _ => false
  end.

(** [column = ''], which is not true of NULL. *)
Definition is_empty (column : option string) : bool :=
  match column with
  | None => false
  | Some text => text =? ""
  end.

(** The WHERE clause of the first SELECT. *)
Definition etablissement_a_corriger (e : Etablissement.t) : bool :=
  is_null (Etablissement.adresse e) || is_null (Etablissement.ville e)
  || is_null (Etablissement.type e) || is_null (Etablissement.province e)
  || is_empty (Etablissement.adresse e) || is_empty (Etablissement.ville e)
  || is_empty (Etablissement.province e).

(** [CASE WHEN column IS NULL OR column = '' THEN :param ELSE column END] *)
Definition case_null_or_empty (column : option string) (param : string) : option string :=
  if null_or_empty column then Some param else column.

(** [CASE WHEN column IS NULL THEN :param ELSE column END] *)
Definition case_null (column : option string) (param : string) : option string :=
  if is_null column then Some param else column.

(** The point written when both coordinates are there, true and not NaN. *)
Definition point_of (info : Info) : option (value * value) :=
  match info_coordinates info with
  | Some (lat, lon) =>
      if truthy lat && truthy lon && negb (Scheduler.isna lat) && negb (Scheduler.isna lon)
      then Some (lon, lat)
      else None
  | None => None
  end.

(** The two UPDATE statements of the first loop, on the row whose [id] they
    name. *)
Definition fix_etablissement (etablissements_info : list (string * Info)) (now : Time)
    (etab : Etablissement.t) : Etablissement.t :=
  let nom_etablissement_norm := Etablissement.nom_etablissement_normalise etab in
  let nom_installation_norm :=
    match Etablissement.nom_installation_normalise etab with
    | Some n => n
    | None => ""
    end in
  let info :=
    get_etablissement_info etablissements_info nom_installation_norm nom_etablissement_norm in
  let point_geo :=
    match point_of info with
    | Some point =>
        match Etablissement.point_geo etab with
        | None => Some point
        | Some g => Some g
        end
    | None => Etablissement.point_geo etab
    end in
  Etablissement.mk (Etablissement.id etab)
    (Etablissement.source_id etab)
    (Etablissement.no_permis_installation etab)
    (Etablissement.nom_etablissement etab)
    (Etablissement.nom_etablissement_normalise etab)
    (Etablissement.nom_installation etab)
    (Etablissement.nom_installation_normalise etab)
    (case_null_or_empty (Etablissement.type etab) (info_type info))
    (case_null_or_empty (Etablissement.adresse etab) (info_adresse info))
    (case_null (Etablissement.code_postal etab) (info_code_postal info))
    (case_null_or_empty (Etablissement.ville etab) (info_ville info))
    (case_null_or_empty (Etablissement.province etab) (info_province info))
    (Etablissement.region_id etab)
    point_geo
    now.

(** [x or 0] *)
Definition or_0 (x : value) : value := if truthy x then x else VFloat 0.

(** [COALESCE(column, param)] *)
Definition coalesce (column param : value) : value :=
  if is_None column then param else column.

(** The rate computed for a selected current state; [None] when the
    computation raises. *)
Definition taux_occupation_of (urg : UrgencesEtatActuel.t) : option value :=
  let civieres_fonctionnelles := or_0 (UrgencesEtatActuel.civieres_fonctionnelles urg) in
  let civieres_occupees := or_0 (UrgencesEtatActuel.civieres_occupees urg) in
  if truthy civieres_fonctionnelles then
    match gt0 civieres_fonctionnelles with
    | Some true =>
        if negb (is_None civieres_occupees)
        then percent civieres_occupees civieres_fonctionnelles
        else Some (VFloat 0)
    | Some false => Some (VFloat 0)
    | None => None
    end
  else Some (VFloat 0).

(** The UPDATE statement of the second loop, on the row it names. *)
Definition fix_urgence (now : Time) (urg : UrgencesEtatActuel.t)
    : option UrgencesEtatActuel.t :=
  match taux_occupation_of urg with
  | Some taux_occupation =>
      Some (UrgencesEtatActuel.mk
              (UrgencesEtatActuel.etablissement_id urg)
              (UrgencesEtatActuel.civieres_fonctionnelles urg)
              (UrgencesEtatActuel.civieres_occupees urg)
              (UrgencesEtatActuel.patients_24h urg)
              (UrgencesEtatActuel.patients_48h urg)
              (coalesce (UrgencesEtatActuel.total_patients urg) (VFloat 0))
              (coalesce (UrgencesEtatActuel.patients_en_attente urg) (VFloat 0))
              (coalesce (UrgencesEtatActuel.dms_civiere urg) (VFloat 0))
              (coalesce (UrgencesEtatActuel.dms_ambulatoire urg) (VFloat 0))
              (coalesce (UrgencesEtatActuel.taux_occupation urg) taux_occupation)
              (UrgencesEtatActuel.date_extraction urg)
              (Some now)
              (Some Scheduler.valide))
  | None => None
  end.

(** The second loop over the table: the selected rows are updated, the
    others are left; [None] as soon as one turn raises. *)
Fixpoint fix_urgences (now : Time) (table : list UrgencesEtatActuel.t)
    : option (list UrgencesEtatActuel.t) :=
  match table with
  | [] => Some []
  | u :: rest =>
      match (if Scheduler.urgence_avec_null u then fix_urgence now u else Some u) with
      | Some u' =>
          match fix_urgences now rest with
          | Some rest' => Some (u' :: rest')
          | None => None
          end
      | None => None
      end
  end.

(** The tables as the statements of the two loops leave them; [None] when a
    turn raises. *)
Definition backfill (etablissements_info : list (string * Info)) (now : Time) (db : DB)
    : option DB :=
  let etablissements :=
    List.map (fun e => if etablissement_a_corriger e
                       then fix_etablissement etablissements_info now e else e)
             (etablissements db) in
  match fix_urgences now (urgences_etat_actuel db) with
  | Some urgences =>
      Some (mkDB etablissements (regions db) urgences (urgences_historique db))
  | None => None
  end.

(** [fix_null_values_in_tables()]: the store after the call.  The
    statements run in one transaction, committed at the end and rolled back
    when a turn raises or the store refuses a statement. *)
Definition fix_null_values_in_tables (accepts : DB -> bool)
    (etablissements_info : list (string * Info)) (now : Time) (db : DB) : DB :=
  match backfill etablissements_info now db with
  | Some db' => if accepts db' then db' else db
  | None => db
  end.

End FixTables.

(** ** app/utils/data_validation.py *)

Module DataValidation.

(** A [pd.DataFrame]: its column labels and its rows. *)
Record DataFrame : Type := mkDataFrame {
  columns : list string;
  rows : list Series
}.

(** [column in df.columns] *)
Definition has_column (df : DataFrame) (column : string) : bool :=
  List.existsb (fun c => c =? column) (columns df).

(** The row with [value] under [column]. *)
Definition set_cell (row : Series) (column : string) (v : value) : Series :=
  fun key => if key =? column then Some v else row key.

(** The message of an anomaly. *)
Inductive Message : Type :=
| Column_not_found (column : string)
| Out_of_range (count : nat) (column : string).

(** An entry of [self.anomalies], with the rows saved beside it. *)
Record Anomaly : Type := mkAnomaly {
  anomaly_type : string;
  message : Message;
  data : list Series
}.

Section DataValidator.

(** [pd.to_numeric(x, errors='coerce')] of one cell: NaN when the cell is
    not a number. *)
Variable to_numeric : value -> PrimFloat.float.
(** [float(s)] of a str; [None] when it raises [ValueError]. *)
Variable float_of_str : string -> option PrimFloat.float.

(** [_log_anomaly(anomaly_type, message, data)] *)
Definition log_anomaly (anomalies : list Anomaly) (anomaly_type : string)
    (message : Message) (data : list Series) : list Anomaly :=
  (anomalies ++ [mkAnomaly anomaly_type message data])%list.

(** [(x < min_val) | (x > max_val) | isna(x)] *)
Definition invalid (min_val max_val x : PrimFloat.float) : bool :=
  PrimFloat.ltb x min_val || PrimFloat.ltb max_val x || PrimFloat.is_nan x.

(** The cell of [column] after [df[column] = pd.to_numeric(df[column], ...)]. *)
Definition numeric_cell (column : string) (row : Series) : PrimFloat.float :=
  to_numeric (get_ row column).

(** The row after [df[column] = pd.to_numeric(df[column], errors='coerce')]. *)
Definition converted (column : string) (row : Series) : Series :=
  set_cell row column (VFloat (numeric_cell column row)).

(** [validate_numeric_range(df, column, min_val, max_val)]: the frame
    returned and [self.anomalies] after the call.  The mask holds one
    boolean per row, computed on the number written in the row. *)
Definition validate_numeric_range (anomalies : list Anomaly) (df : DataFrame)
    (column : string) (min_val max_val : PrimFloat.float)
    : DataFrame * list Anomaly :=
  if negb (has_column df column) then
    (df, log_anomaly anomalies "validation" (Column_not_found column) [])
  else
    let invalid_mask := fun row => invalid min_val max_val (numeric_cell column row) in
    let invalid_rows :=
      List.map (converted column) (List.filter invalid_mask (rows df)) in
    let anomalies :=
      match invalid_rows with
      | [] => anomalies
      | _ :: _ =>
          log_anomaly anomalies "validation"
                      (Out_of_range (List.length invalid_rows) column) invalid_rows
      end in
    (mkDataFrame (columns df)
                 (List.map (converted column)
                           (List.filter (fun row => negb (invalid_mask row)) (rows df))),
     anomalies).

(** *** The loop of [process_urgences_data] over the numeric columns *)

Definition numeric_columns : list string :=
  [ "civieres_fonctionnelles"; "civieres_occupees"; "patients_24h"; "patients_48h";
    "total_patients"; "patients_en_attente"; "dms_civiere"; "dms_ambulatoire" ].

(** [lambda x: float(str(x).replace(',', '.')) if isinstance(x, str) else x];
    [None] when [float] raises. *)
Definition dms_lambda (x : value) : option value :=
  match x with
  | VStr s =>
      match float_of_str (replace_char "," "." s) with
      | Some f => Some (VFloat f)
      | None => None
      end
  | _ => Some x
  end.

(** [df[col].apply(f)], written back under [col]; [None] when [f] raises
    on a cell. *)
Fixpoint apply_column (f : value -> option value) (col : string) (rows : list Series)
    : option (list Series) :=
  match rows with
  | [] => Some []
  | row :: rest =>
      match f (get_ row col) with
      | Some v =>
          match apply_column f col rest with
          | Some rest' => Some (set_cell row col v :: rest')
          | None => None
          end
      | None => None
      end
  end.

(** [fillna(0)] of one cell *)
Definition fillna0 (x : PrimFloat.float) : PrimFloat.float :=
  if PrimFloat.is_nan x then 0%float else x.

(** One turn of the loop, for a column of the frame. *)
Definition convert_column (col : string) (rows : list Series) : option (list Series) :=
  match
    (if (col =? "dms_civiere") || (col =? "dms_ambulatoire")
     then apply_column dms_lambda col rows
     else Some rows)
  with
  | Some rows =>
      Some (List.map (fun row => set_cell row col (VFloat (fillna0 (numeric_cell col row))))
                     rows)
  | None => None
  end.

(** The loop; [None] when a turn raises, which ends
    [process_urgences_data] and, in [update_urgences_data], the cycle. *)
Fixpoint convert_numeric_columns (cols : list string) (df : DataFrame)
    : option DataFrame :=
  match cols with
  | [] => Some df
  | col :: rest =>
      if has_column df col then
        match convert_column col (rows df) with
        | Some rows' => convert_numeric_columns rest (mkDataFrame (columns df) rows')
        | None => None
        end
      else convert_numeric_columns rest df
  end.

End DataValidator.

End DataValidation.

(** ** Instances of the parameters, for the concrete runs *)

Module Instances.

(** [ftfy.fix_text] on text that has nothing to repair. *)
Definition no_repair (s : string) : string := s.

(** A store that accepts every write. *)
Definition accept_all (_ : DB) : bool := true.

(** A store that enforces [nullable=False] of [etablissements.nom_etablissement]. *)
Definition nom_etablissement_not_null (db : DB) : bool :=
  List.forallb (fun e => negb (is_None (Etablissement.nom_etablissement e)))
               (etablissements db).

Definition digit (c : ascii) : option PrimFloat.float :=
  List.nth_error [0; 1; 2; 3; 4; 5; 6; 7; 8; 9]%float (ord c - 48).

Definition is_digit (c : ascii) : bool := between 48 57 (ord c).

(** The number a run of decimal digits writes, after [acc]. *)
Fixpoint digits (acc : PrimFloat.float) (s : string) : option PrimFloat.float :=
  match s with
  | EmptyString => Some acc
  | String c s' =>
      if is_digit c then
        match digit c with
        | Some d => digits (acc * 10 + d)%float s'
        | None => None
        end
      else None
  end.

Fixpoint pow10 (n : nat) : PrimFloat.float :=
  match n with
  | O => 1%float
  | S n' => (10 * pow10 n')%float
  end.

(** [float(s)] on the unsigned decimal literals [ddd] and [ddd.ddd]; any
    other text is refused. *)
Definition decimal_literal (s : string) : option PrimFloat.float :=
  match split "." s with
  | [i] => if i =? "" then None else digits 0 i
  | [i; f] =>
      if (i =? "") && (f =? "") then None
      else
        match digits 0 (i ++ f) with
        | Some m => Some (m / pow10 (String.length f))%float
        | None => None
        end
  | _ => None
  end.

(** [pd.to_numeric(x, errors='coerce')] of a float, of [None], and of a str
    that is a decimal literal or is no number at all. *)
Definition to_numeric (x : value) : PrimFloat.float :=
  match x with
  | VFloat f => f
  | VStr s =>
      match decimal_literal s with
      | Some f => f
      | None => PrimFloat.nan
      end
  | VNone => PrimFloat.nan
  end.

(** [str(f)], for runs that convert no float. *)
Definition str_of_float (_ : PrimFloat.float) : string := "nan".

(** [t.strftime('%Y%m%d')], for runs on the first of January 2025. *)
Definition strftime_Ymd (_ : Time) : string := "20250101".

End Instances.

(** ** A small store and a few rows, for the concrete runs *)

Module Sample.

Definition montreal : Region.t := Region.mk 6 "06" "Montreal" "montreal".

(** A facility with the permit number X123. *)
Definition chum : Etablissement.t :=
  Etablissement.mk 1 (Some "ODHF-000001") (Some "X123")
    (VStr "CHUM") "chum" (VStr "Pavillon A") (Some "pavillon a")
    (Some "Hospitals") (Some "1000 rue Saint-Denis") (Some "H2X 0C1")
    (Some "Montreal") (Some "QC") (Some 6) None 100.

(** Its current state: 10 stretchers, 7 taken. *)
Definition chum_actuel : UrgencesEtatActuel.t :=
  UrgencesEtatActuel.mk 1 (VFloat 10) (VFloat 7) (VFloat 1) (VFloat 0)
    (VFloat 20) (VFloat 5) (VFloat 12.5) (VFloat 3) (VFloat 70)
    (Some 100) (Some 100) (Some Scheduler.valide).

Definition store : DB := mkDB [chum] [montreal] [chum_actuel] [].

(** A store with the region and nothing else. *)
Definition empty_store : DB := mkDB [] [montreal] [] [].

(** A measurement of the facility X123: 10 stretchers, 7.5 taken. *)
Definition row_x123 : Series :=
  series [ ("nom_etablissement", VStr "CHUM");
           ("nom_installation", VStr "Pavillon A");
           ("no_permis_installation", VStr "X123");
           ("civieres_fonctionnelles", VFloat 10);
           ("civieres_occupees", VFloat 7.5);
           ("dms_civiere", VStr "2:30");
           ("dms_ambulatoire", VStr "abc") ].

(** A row with no permit number and no name. *)
Definition nameless_row : Series :=
  series [ ("nom_etablissement", VStr "");
           ("nom_installation", VStr "");
           ("no_permis_installation", VStr "");
           ("civieres_fonctionnelles", VFloat 4);
           ("civieres_occupees", VFloat 2) ].

(** A facility whose installation key is [axb], and a row whose
    installation name is [a_b]. *)
Definition axb : Etablissement.t :=
  Etablissement.mk 7 (Some "ODHF-000007") (Some "P7")
    (VStr "Centre") "centre" (VStr "AXB") (Some "axb")
    (Some "Hospitals") (Some "7 rue Principale") (Some "G1A 1A1")
    (Some "Quebec") (Some "QC") (Some 6) None 100.

Definition store_axb : DB := mkDB [axb] [montreal] [] [].

Definition row_a_b : Series :=
  series [ ("nom_etablissement", VStr "");
           ("nom_installation", VStr "a_b");
           ("no_permis_installation", VStr "") ].

(** A row with no permit number, no installation name, and [None] as its
    establishment name. *)
Definition row_none : Series :=
  series [ ("nom_etablissement", VNone);
           ("nom_installation", VStr "");
           ("no_permis_installation", VStr "") ].

(** A row with no stretcher in service and three patients on stretchers. *)
Definition row_0_3 : Series :=
  series [ ("nom_etablissement", VStr "Hopital B");
           ("nom_installation", VStr "Pavillon B");
           ("no_permis_installation", VStr "Y456");
           ("civieres_fonctionnelles", VFloat 0);
           ("civieres_occupees", VFloat 3) ].

(** A row with five stretchers in service and no count of the taken ones. *)
Definition row_5 : Series :=
  series [ ("nom_etablissement", VStr "Hopital C");
           ("nom_installation", VStr "Pavillon C");
           ("no_permis_installation", VStr "Z789");
           ("civieres_fonctionnelles", VFloat 5) ].

(** A feed of one row whose mean length of stay is the text [d]. *)
Definition feed (d : string) : DataValidation.DataFrame :=
  DataValidation.mkDataFrame
    [ "nom_etablissement"; "civieres_fonctionnelles"; "civieres_occupees"; "dms_civiere" ]
    [ series [ ("nom_etablissement", VStr "CHUM");
               ("civieres_fonctionnelles", VFloat 10);
               ("civieres_occupees", VFloat 7);
               ("dms_civiere", VStr d) ] ].

(** A batch of three rows: 12 stretchers, a text that is no number, and
    2000 stretchers. *)
Definition row_12 : Series := series [("civieres_fonctionnelles", VStr "12")].
Definition row_abc : Series := series [("civieres_fonctionnelles", VStr "abc")].
Definition row_2000 : Series := series [("civieres_fonctionnelles", VFloat 2000)].

Definition batch : DataValidation.DataFrame :=
  DataValidation.mkDataFrame ["civieres_fonctionnelles"] [row_12; row_abc; row_2000].

(** A facility with no address on record and [QC] as its province. *)
Definition old_qc : Etablissement.t :=
  Etablissement.mk 9 (Some "SRC-000009") (Some "Q9")
    (VStr "Clinique") "clinique" (VStr "Pavillon Q") (Some "pavillon q")
    (Some "Clinique") None (Some "G1A 1A1") (Some "Quebec") (Some "QC")
    (Some 6) None 100.

Definition store_qc : DB := mkDB [old_qc] [montreal] [] [].

(** A current state that was never validated and has no mean length of
    stay on stretcher. *)
Definition actuel_non_valide : UrgencesEtatActuel.t :=
  UrgencesEtatActuel.mk 1 (VFloat 10) (VFloat 7) (VFloat 1) (VFloat 0)
    (VFloat 20) (VFloat 5) VNone (VFloat 3) (VFloat 70)
    (Some 100) (Some 100) (Some ("non_valid" ++ Scheduler.chr 233)).

Definition store_non_valide : DB := mkDB [chum] [montreal] [actuel_non_valide] [].

(** A row of the facility X123 under other names. *)
Definition row_x123_renamed : Series :=
  series [ ("nom_etablissement", VStr "Autre");
           ("nom_installation", VStr "Pavillon Z");
           ("no_permis_installation", VStr "X123");
           ("civieres_fonctionnelles", VFloat 10);
           ("civieres_occupees", VFloat 5) ].

End Sample.

(** ** The cycles run on the sample store *)

Module Runs.

(** The establishment names of the facilities a store holds. *)
Definition names (db : DB) : list value :=
  List.map Etablissement.nom_etablissement (etablissements db).

(** The store after [_update_database] of scripts/data_updater.py, on a
    store that accepts every write. *)
Definition script_cycle (rows : list Series) : DB :=
  committed (ScriptUpdater.update_database Instances.no_repair Instances.accept_all
               (open Sample.empty_store 1) rows 200 201).

(** The store after [_update_database] of the scheduler, on a store that
    enforces the NOT NULL of [nom_etablissement]. *)
Definition scheduler_cycle (rows : list Series) : DB :=
  committed
    (fst (Scheduler.update_database Instances.no_repair Instances.decimal_literal
            Instances.str_of_float Instances.strftime_Ymd
            Instances.nom_etablissement_not_null []
            (open Sample.empty_store 1) rows 200 201)).

(** The session of scripts/data_updater.py once the row of facility X123
    has been applied to the store without facilities. *)
Definition script_after_x123 : Session :=
  ScriptUpdater.process_row Instances.no_repair Instances.accept_all 200 201
    (open Sample.empty_store 1) Sample.row_x123.

End Runs.

(** ** Specification predicates *)

Module Spec.

(** A history row is a verbatim copy of a current state. *)
Definition verbatim (c : UrgencesEtatActuel.t) (h : UrgencesHistorique.t) : Prop :=
  UrgencesHistorique.etablissement_id h = UrgencesEtatActuel.etablissement_id c
  /\ UrgencesHistorique.civieres_fonctionnelles h = UrgencesEtatActuel.civieres_fonctionnelles c
  /\ UrgencesHistorique.civieres_occupees h = UrgencesEtatActuel.civieres_occupees c
  /\ UrgencesHistorique.patients_24h h = UrgencesEtatActuel.patients_24h c
  /\ UrgencesHistorique.patients_48h h = UrgencesEtatActuel.patients_48h c
  /\ UrgencesHistorique.total_patients h = UrgencesEtatActuel.total_patients c
  /\ UrgencesHistorique.patients_en_attente h = UrgencesEtatActuel.patients_en_attente c
  /\ UrgencesHistorique.dms_civiere h = UrgencesEtatActuel.dms_civiere c
  /\ UrgencesHistorique.dms_ambulatoire h = UrgencesEtatActuel.dms_ambulatoire c
  /\ UrgencesHistorique.taux_occupation h = UrgencesEtatActuel.taux_occupation c
  /\ UrgencesHistorique.date_extraction h = UrgencesEtatActuel.date_extraction c
  /\ UrgencesHistorique.date_maj h = UrgencesEtatActuel.date_maj c
  /\ UrgencesHistorique.statut_validation h = UrgencesEtatActuel.statut_validation c.

(** The current state a query finds for a facility in a table. *)
Definition snapshot (table : list UrgencesEtatActuel.t) (etablissement_id : nat)
    : option UrgencesEtatActuel.t :=
  first (Scheduler.of_etablissement etablissement_id) table.

(** Every history row of a session, flushed or not. *)
Definition history (s : Session) : list UrgencesHistorique.t :=
  urgences_historique (flushed s).

(** The archival invariant of a session against the store [base] it was
    opened on: a snapshot of [base] is still the current state, or a verbatim
    copy of it is among the history rows. *)
Definition archived (base : DB) (s : Session) : Prop :=
  committed s = base
  /\ forall etablissement_id cur,
       snapshot (urgences_etat_actuel base) etablissement_id = Some cur ->
       Scheduler.current_data_of s etablissement_id = Some cur
       \/ In (Scheduler.historique_of cur) (history s).

(** Every character of a text passes [p]. *)
Fixpoint all (p : ascii -> bool) (s : string) : bool :=
  match s with
  | EmptyString => true
  | String c s' => p c && all p s'
  end.

(** A character that a normalized key can hold: a word character, the
    underscore among them, or the space. *)
Definition key_char (c : ascii) : bool := re_word c || Ascii.eqb c " ".

(** No two whitespace characters in a row, starting after [prev]. *)
Fixpoint no_double_space (prev_space : bool) (s : string) : bool :=
  match s with
  | EmptyString => true
  | String c s' =>
      negb (prev_space && isspace c) && no_double_space (isspace c) s'
  end.

(** A character that [str.lower] leaves as it is. *)
Definition lowered (c : ascii) : bool := Ascii.eqb (lower_char c) c.

(** A character that stands for itself in a LIKE pattern. *)
Definition literal (c : ascii) : bool :=
  negb (Ascii.eqb c "%") && negb (Ascii.eqb c "_") && negb (Ascii.eqb c "\").

(** A character that is no percent sign and no backslash: in a LIKE pattern
    it stands for itself, or, the underscore, for any one character. *)
Definition no_escape (c : ascii) : bool :=
  negb (Ascii.eqb c "%") && negb (Ascii.eqb c "\").

(** [key] matches the start of [text], an underscore of [key] standing for
    any one character. *)
Fixpoint prefix_like (key text : string) : bool :=
  match key, text with
  | EmptyString, _ => true
  | String a key', String b text' =>
      (Ascii.eqb a "_" || Ascii.eqb a b) && prefix_like key' text'
  | String _ _, EmptyString => false
  end.

(** [key] matches somewhere in [text], an underscore of [key] standing for
    any one character. *)
Fixpoint contains_like (key text : string) : bool :=
  prefix_like key text
  || match text with
     | EmptyString => false
     | String _ rest => contains_like key rest
     end.

(** [e] is the first row of [table] that passes [p]. *)
Definition first_such {A : Type} (p : A -> bool) (table : list A) (e : A) : Prop :=
  exists before after,
    table = (before ++ e :: after)%list
    /\ p e = true
    /\ forall x, In x before -> p x = false.

(** The conditions under which the steps of the cascade run. *)
Definition permis_given (no_permis : string) : bool :=
  negb (no_permis =? "") && negb (strip no_permis =? "").

(** The filters of the three steps, read on a stored facility: the permit
    number is the one given; the key matches somewhere in the stored
    normalized name put in lower case, an underscore of the key standing for
    any one character. *)
Definition matches_permis (no_permis : string) (e : Etablissement.t) : bool :=
  eq_str (Etablissement.no_permis_installation e) no_permis.

Definition matches_installation (key : string) (e : Etablissement.t) : bool :=
  match Etablissement.nom_installation_normalise e with
  | Some stored => contains_like key (lower stored)
  | None => false
  end.

Definition matches_etablissement (key : string) (e : Etablissement.t) : bool :=
  contains_like key (lower (Etablissement.nom_etablissement_normalise e)).

(** No row of [table] passes [p]. *)
Definition misses {A : Type} (p : A -> bool) (table : list A) : Prop :=
  forall x, In x table -> p x = false.

(** A character with no mark to strip. *)
Definition unmarked (c : ascii) : bool := Ascii.eqb (base_char c) c.

(** A text in the form [normalize_text] gives: word characters and single
    spaces, no space at either end, lower case, and no marked letter when
    the accents are removed. *)
Definition normalized (remove_accents : bool) (s : string) : Prop :=
  all key_char s = true
  /\ all lowered s = true
  /\ (remove_accents = true -> all unmarked s = true)
  /\ no_double_space true s = true
  /\ rstrip s = s.

(** [x] is a number of the interval from [min_val] to [max_val]. *)
Definition within (min_val max_val x : PrimFloat.float) : bool :=
  PrimFloat.leb min_val x && PrimFloat.leb x max_val.

(** A session as [SessionLocal()] gives it: the rows it holds are the
    committed ones, and nothing waits for a flush. *)
Definition fresh (s : Session) : Prop :=
  persistent s = committed s
  /\ new_etablissement s = []
  /\ new_actuel s = []
  /\ new_historique s = [].

(** No row of the tables is selected by the two queries of
    [fix_null_values]. *)
Definition nothing_selected (db : DB) : Prop :=
  List.forallb (fun e => negb (Scheduler.etablissement_avec_null e))
               (etablissements db) = true
  /\ List.forallb (fun u => negb (Scheduler.urgence_avec_null u))
                  (urgences_etat_actuel db) = true.

(** A facility, the date of its last update apart. *)
Definition but_date_maj (e : Etablissement.t) : Etablissement.t :=
  Etablissement.mk (Etablissement.id e) (Etablissement.source_id e)
    (Etablissement.no_permis_installation e) (Etablissement.nom_etablissement e)
    (Etablissement.nom_etablissement_normalise e) (Etablissement.nom_installation e)
    (Etablissement.nom_installation_normalise e) (Etablissement.type e)
    (Etablissement.adresse e) (Etablissement.code_postal e) (Etablissement.ville e)
    (Etablissement.province e) (Etablissement.region_id e) (Etablissement.point_geo e) 0.

(** Two stores that hold the same rows, the dates of last update of the
    facilities apart. *)
Definition same_but_date_maj (db db' : DB) : Prop :=
  List.map but_date_maj (etablissements db) = List.map but_date_maj (etablissements db')
  /\ regions db = regions db'
  /\ urgences_etat_actuel db = urgences_etat_actuel db'
  /\ urgences_historique db = urgences_historique db'.

(** The cells of [col] hold a text that [float] refuses once its commas
    are dots. *)
Definition unreadable (float_of_str : string -> option PrimFloat.float)
    (col : string) (rows : list Series) : Prop :=
  exists row d,
    In row rows /\ get_ row col = VStr d
    /\ float_of_str (replace_char "," "." d) = None.

(** The session [s] is back at the last commit of [s0]: nothing of what
    was written since is left. *)
Definition rolled_back (s0 s : Session) : Prop :=
  committed s = committed s0
  /\ persistent s = committed s0
  /\ new_etablissement s = []
  /\ new_actuel s = []
  /\ new_historique s = [].

End Spec.

(** ** app/utils/encoding_utils.py, on frames *)

Module EncodingFrames.

Import DataValidation.

Section WithFtfy.

(** [ftfy.fix_text] *)
Variable ftfy_fix_text : string -> string.

Abbreviation fix_text_encoding := (EncodingUtils.fix_text_encoding ftfy_fix_text).
Abbreviation normalize_text := (EncodingUtils.normalize_text ftfy_fix_text).

(** [fillna("")] of one cell *)
Definition fillna_empty (x : value) : value :=
  if Scheduler.isna x then VStr "" else x.

(** [df[label] = ...] on the column labels: a new label goes last. *)
Definition with_column (columns : list string) (label : string) : list string :=
  if List.existsb (fun c => c =? label) columns then columns
  else (columns ++ [label])%list.

(** One turn of the loop of [clean_dataframe]. *)
Definition clean_column (df_clean : DataFrame) (col : string) : DataFrame :=
  if has_column df_clean col then
    let norm_col := col ++ "_normalise" in
    mkDataFrame
      (with_column (columns df_clean) norm_col)
      (List.map
         (fun row =>
            let row := set_cell row col (fillna_empty (get_ row col)) in
            let row := set_cell row col (fix_text_encoding (get_ row col)) in
            set_cell row norm_col (VStr (normalize_text (get_ row col) true)))
         (rows df_clean))
  else df_clean.

(** [clean_dataframe(df, text_columns)] *)
Definition clean_dataframe (df : DataFrame) (text_columns : list string) : DataFrame :=
  List.fold_left clean_column text_columns df.

End WithFtfy.

End EncodingFrames.

(** ** app/utils/data_validation.py: the other checks of [DataValidator] *)

Module Validator.

Import DataValidation.

(** The message of an anomaly of [validate_required_fields]. *)
Inductive Report : Type :=
| Missing_columns (columns : list string)
| Missing_values (count : nat).

(** An entry of [self.anomalies], with the rows saved beside it. *)
Record Entry : Type := mkEntry {
  entry_type : string;
  entry_message : Report;
  entry_data : list Series
}.

(** [_log_anomaly(anomaly_type, message, data)] *)
Definition log_entry (anomalies : list Entry) (anomaly_type : string)
    (message : Report) (data : list Series) : list Entry :=
  (anomalies ++ [mkEntry anomaly_type message data])%list.

(** [df[required_columns].isna().any(axis=1)] of one row *)
Definition any_isna (required_columns : list string) (row : Series) : bool :=
  List.existsb (fun col => Scheduler.isna (get_ row col)) required_columns.

(** [validate_required_fields(df, required_columns)]: the frame returned
    and [self.anomalies] after the call. *)
Definition validate_required_fields (anomalies : list Entry) (df : DataFrame)
    (required_columns : list string) : DataFrame * list Entry :=
  let missing_columns :=
    List.filter (fun col => negb (has_column df col)) required_columns in
  let anomalies :=
    match missing_columns with
    | [] => anomalies
    | _ :: _ => log_entry anomalies "validation" (Missing_columns missing_columns) []
    end in
  let required_columns :=
    match missing_columns with
    | [] => required_columns
    | _ :: _ => List.filter (has_column df) required_columns
    end in
  match required_columns with
  | [] => (df, anomalies)
  | _ :: _ =>
      let invalid_mask := any_isna required_columns in
      let invalid_rows := List.filter invalid_mask (rows df) in
      let anomalies :=
        match invalid_rows with
        | [] => anomalies
        | _ :: _ =>
            log_entry anomalies "validation"
                      (Missing_values (List.length invalid_rows)) invalid_rows
        end in
      (mkDataFrame (columns df)
                   (List.filter (fun row => negb (invalid_mask row)) (rows df)),
       anomalies)
  end.

(** [d[key] = v] on a dict given as its list of items: a key that is there
    keeps its place, a new one goes last. *)
Fixpoint dict_set {A : Type} (d : list (string * A)) (key : string) (v : A)
    : list (string * A) :=
  match d with
  | [] => [(key, v)]
  | (k, w) :: rest =>
      if k =? key then (k, v) :: rest else (k, w) :: dict_set rest key v
  end.

(** One turn of the loop of [get_anomaly_summary]:
    [summary[t] = summary.get(t, 0) + 1]. *)
Definition count_type (summary : list (string * nat)) (anomaly_type : string)
    : list (string * nat) :=
  dict_set summary anomaly_type
           (match dict_get summary anomaly_type with
            | Some n => n
            | None => 0
            end + 1).

(** [get_anomaly_summary()], on the types of [self.anomalies] in the order
    they were logged. *)
Definition get_anomaly_summary (anomaly_types : list string) : list (string * nat) :=
  List.fold_left count_type anomaly_types [].

End Validator.

(** ** The regions: [initialize_database] of the scheduler, [init_regions]
    of scripts/fix_tables.py *)

Module Regions.

Section WithFtfy.

(** [ftfy.fix_text] *)
Variable ftfy_fix_text : string -> string.
(** The verdict of the store on a commit. *)
Variable accepts : DB -> bool.

Abbreviation normalize_text := (EncodingUtils.normalize_text ftfy_fix_text).

(** [REGIONS_QUEBEC], which is also the list of [init_regions]: the code
    [rss] and the name of each region. *)
Definition REGIONS_QUEBEC : list (string * string) :=
  [ ("01", "Bas-Saint-Laurent");
    ("02", "Saguenay-Lac-Saint-Jean");
    ("03", "Capitale-Nationale");
    ("04", "Mauricie et Centre-du-Qu" ++ Scheduler.chr 233 ++ "bec");
    ("05", "Estrie");
    ("06", "Montr" ++ Scheduler.chr 233 ++ "al");
    ("07", "Outaouais");
    ("08", "Abitibi-T" ++ Scheduler.chr 233 ++ "miscamingue");
    ("09", "C" ++ Scheduler.chr 244 ++ "te-Nord");
    ("10", "Nord-du-Qu" ++ Scheduler.chr 233 ++ "bec");
    ("11", "Gasp" ++ Scheduler.chr 233 ++ "sie-" ++ Scheduler.chr 206
           ++ "les-de-la-Madeleine");
    ("12", "Chaudi" ++ Scheduler.chr 232 ++ "re-Appalaches");
    ("13", "Laval");
    ("14", "Lanaudi" ++ Scheduler.chr 232 ++ "re");
    ("15", "Laurentides");
    ("16", "Mont" ++ Scheduler.chr 233 ++ "r" ++ Scheduler.chr 233 ++ "gie");
    ("17", "Nunavik");
    ("18", "Terres-Cries-de-la-Baie-James") ].

(** [Region(rss=..., nom=..., nom_normalise=normalize_text(nom, True))],
    under the number the sequence of [regions.id] gives it. *)
Definition region_of (id : nat) (region_data : string * string) : Region.t :=
  Region.mk id (fst region_data) (snd region_data)
            (normalize_text (VStr (snd region_data)) true).

(** The regions made out of a list, numbered from [seq] on. *)
Fixpoint regions_of (seq : nat) (data : list (string * string)) : list Region.t :=
  match data with
  | [] => []
  | region_data :: rest => region_of seq region_data :: regions_of (S seq) rest
  end.

Definition with_regions (db : DB) (added : list Region.t) : DB :=
  mkDB (etablissements db) (regions db ++ added) (urgences_etat_actuel db)
       (urgences_historique db).

(** The part of [initialize_database] that fills [regions], which is also
    [_initialize_regions] of scripts/data_updater.py: the store after the
    call.  Nothing is added when the table holds a region; the 18 regions are
    added in one transaction otherwise. *)
Definition initialize_regions (seq : nat) (db : DB) : DB :=
  if Nat.eqb (List.length (regions db)) 0 then
    let db' := with_regions db (regions_of seq REGIONS_QUEBEC) in
    if accepts db' then db' else db
  else db.

(** The regions of the list that [init_regions] adds: those whose [rss] no
    committed region has.  The session does not flush before a query, so a
    region added by an earlier turn is not seen by the test of a later one. *)
Definition missing_regions (db : DB) (data : list (string * string))
    : list (string * string) :=
  List.filter
    (fun region_data =>
       match first (fun r => Region.rss r =? fst region_data) (regions db) with
       | Some _ => false
       | None => true
       end)
    data.

(** [init_regions()] of scripts/fix_tables.py: the store after the call. *)
Definition init_regions (seq : nat) (db : DB) : DB :=
  let db' := with_regions db (regions_of seq (missing_regions db REGIONS_QUEBEC)) in
  if accepts db' then db' else db.

End WithFtfy.

End Regions.

(** ** Further notions used in the statements *)

Module Notions.

Import DataValidation.

(** A frame whose rows hold cells under its column labels only. *)
Definition well_formed (df : DataFrame) : Prop :=
  forall row, In row (rows df) ->
  forall key, has_column df key = false -> row key = None.

(** [l] starts with [prefix]. *)
Definition extends {A : Type} (prefix l : list A) : Prop :=
  exists added, l = (prefix ++ added)%list.

(** The number of items of [l] equal to [t]. *)
Definition occurrences (t : string) (l : list string) : nat :=
  List.length (List.filter (fun x => x =? t) l).

(** A property of the cells of a column that a turn of [clean_dataframe]
    cannot undo. *)
Definition kept_by_cleaning (ftfy_fix_text : string -> string) (P : value -> bool) : Prop :=
  (forall v, P v = true ->
     P (EncodingUtils.fix_text_encoding ftfy_fix_text (EncodingFrames.fillna_empty v))
     = true)
  /\ (forall s, P (VStr s) = true).

(** The rows agree but under [col]. *)
Definition same_but (col : string) (row row' : Series) : Prop :=
  forall key, key <> col -> row' key = row key.

(** [row'] holds under [col] a float that is a number. *)
Definition number_under (col : string) (row' : Series) : Prop :=
  exists f, row' col = Some (VFloat f) /\ PrimFloat.is_nan f = false.

(** The rows after the loop of [process_urgences_data] over [cols]: a
    column that the loop visits and the frame has holds numbers; every other
    cell is as it was. *)
Definition converted_row (cols : list string) (df : DataFrame) (row row' : Series) : Prop :=
  (forall key, ~ In key cols \/ has_column df key = false -> row' key = row key)
  /\ (forall key, In key cols -> has_column df key = true -> number_under key row').

(** The invariant of a session against the store [base] it was opened on:
    nothing is committed yet, and the tables of the session, pending rows
    included, are those of [base] with rows added. *)
Definition grows (base : DB) (s : Session) : Prop :=
  committed s = base
  /\ extends (etablissements base) (etablissements (flushed s))
  /\ regions (persistent s) = regions base
  /\ extends (urgences_historique base) (urgences_historique (flushed s))
  /\ extends (List.map UrgencesEtatActuel.etablissement_id (urgences_etat_actuel base))
             (List.map UrgencesEtatActuel.etablissement_id
                       (urgences_etat_actuel (flushed s))).

End Notions.

(** ** More rows, for the concrete runs *)

Module MoreSamples.

(** Two rows whose permit cell is missing, under different names. *)
Definition row_no_permit_a : Series :=
  series [ ("nom_etablissement", VStr "Clinique A");
           ("nom_installation", VStr "Pavillon A");
           ("no_permis_installation", VNone) ].

Definition row_no_permit_b : Series :=
  series [ ("nom_etablissement", VStr "Hopital B");
           ("nom_installation", VStr "Pavillon B");
           ("no_permis_installation", VNone) ].

(** A row with a name and no permit number. *)
Definition row_named : Series :=
  series [ ("nom_etablissement", VStr "Centre de sante");
           ("nom_installation", VStr "Pavillon Nord");
           ("no_permis_installation", VStr "") ].

(** A row whose count of taken stretchers is [None]. *)
Definition row_cell_none : Series :=
  series [ ("civieres_fonctionnelles", VFloat 5);
           ("civieres_occupees", VNone) ].

End MoreSamples.

(** ** ArchivalWriter: [_archive_current_data], [_update_current_data] *)

Module ArchivalWriter.

Import Scheduler Spec.

Lemma find_app_Some {A : Type} (p : A -> bool) (l l' : list A) (x : A) :
  List.find p l = Some x -> List.find p (l ++ l') = Some x.
Proof.
  induction l as [|a l IH]; simpl; [discriminate|].
  destruct (p a); auto.
Qed.

Lemma find_update_first_hit {A : Type} (p : A -> bool) (f : A -> A) (l : list A) (x : A) :
  List.find p l = Some x -> p (f x) = true ->
  List.find p (update_first p f l) = Some (f x).
Proof.
  induction l as [|a l IH]; simpl; [discriminate|].
  destruct (p a) eqn:Ha; simpl.
  - intros [= <-] Hf. now rewrite Hf.
  - intros H Hf. rewrite Ha. auto.
Qed.

Lemma find_update_first_other {A : Type} (p q : A -> bool) (f : A -> A) (l : list A) :
  (forall x, p x = true -> q x = false /\ q (f x) = false) ->
  List.find q (update_first p f l) = List.find q l.
Proof.
  intros H. induction l as [|a l IH]; simpl; [reflexivity|].
  destruct (p a) eqn:Ha; simpl.
  - destruct (H a Ha) as [-> ->]. reflexivity.
  - destruct (q a); auto.
Qed.

Lemma find_Some_true {A : Type} (p : A -> bool) (l : list A) (x : A) :
  List.find p l = Some x -> p x = true.
Proof. intros H. apply List.find_some in H. tauto. Qed.

Lemma verbatim_historique_of (c : UrgencesEtatActuel.t) : verbatim c (historique_of c).
Proof. unfold verbatim. repeat split. Qed.

Section Facts.

Variable ftfy_fix_text : string -> string.
Variable float_of_str : string -> option PrimFloat.float.
Variable str_of_float : PrimFloat.float -> string.
Variable strftime_Ymd : Time -> string.
Variable accepts : DB -> bool.
Variable etablissements_info : list (string * Info).

Lemma write_counts_etablissement_id columns row c :
  List.Forall (fun kv => forall x c',
                 UrgencesEtatActuel.etablissement_id (snd kv x c')
                 = UrgencesEtatActuel.etablissement_id c') columns ->
  UrgencesEtatActuel.etablissement_id (fst (write_counts float_of_str columns row c))
  = UrgencesEtatActuel.etablissement_id c.
Proof.
  intros H. revert c. induction H as [|[key set] rest Hset _ IH]; intros c; simpl.
  - reflexivity.
  - destruct (float _); simpl; [|reflexivity].
    rewrite IH. apply Hset.
Qed.

Lemma write_current_data_etablissement_id row de now c :
  UrgencesEtatActuel.etablissement_id
    (fst (fst (write_current_data float_of_str row de now c)))
  = UrgencesEtatActuel.etablissement_id c.
Proof.
  unfold write_current_data.
  pose proof (write_counts_etablissement_id counts row c) as H.
  destruct (write_counts float_of_str counts row c) as [c1 [|]]; simpl in *.
  - destruct (coerce_dms _ _ (get_ row "dms_civiere")) as [d1 w1].
    destruct (coerce_dms _ _ (get_ row "dms_ambulatoire")) as [d2 w2].
    destruct (taux_occupation_of _ _); simpl; apply H; repeat constructor.
  - apply H. repeat constructor.
Qed.

Lemma of_etablissement_written id row de now cur :
  of_etablissement id cur = true ->
  of_etablissement id (fst (fst (write_current_data float_of_str row de now cur))) = true.
Proof.
  unfold of_etablissement. now rewrite write_current_data_etablissement_id.
Qed.

Lemma of_etablissement_other id id' c :
  id <> id' -> of_etablissement id c = true -> of_etablissement id' c = false.
Proof.
  unfold of_etablissement. intros Hne H.
  apply Nat.eqb_eq in H. apply Nat.eqb_neq. congruence.
Qed.

(** What [apply_measurement] does to a facility that has a current state. *)
Lemma apply_measurement_found s id row de now cur :
  current_data_of s id = Some cur ->
  let s' := fst (apply_measurement float_of_str s id row de now) in
  new_historique s' = (new_historique s ++ [historique_of cur])%list
  /\ urgences_historique (persistent s') = urgences_historique (persistent s)
  /\ current_data_of s' id
     = Some (fst (fst (write_current_data float_of_str row de now cur)))
  /\ (forall id', id <> id' -> current_data_of s' id' = current_data_of s id')
  /\ committed s' = committed s.
Proof.
  intros H. unfold apply_measurement, archive_current_data. rewrite H.
  unfold update_current_data.
  change (current_data_of (add_historique (historique_of cur) s) id)
    with (current_data_of s id).
  rewrite H.
  pose proof (of_etablissement_written id row de now cur (find_Some_true _ _ _ H)) as Hw.
  destruct (write_current_data float_of_str row de now cur) as [[c log] ok].
  simpl in *. repeat split.
  - unfold current_data_of, first in *. simpl.
    exact (find_update_first_hit _ (fun _ => c) _ cur H Hw).
  - intros id' Hne. unfold current_data_of, first. simpl.
    apply find_update_first_other. intros x Hx.
    split; [exact (of_etablissement_other id id' x Hne Hx)
           |exact (of_etablissement_other id id' c Hne Hw)].
Qed.

(** What it does to a facility that has none: no history row, and the new
    state waits for the next flush. *)
Lemma apply_measurement_absent s id row de now :
  current_data_of s id = None ->
  let s' := fst (apply_measurement float_of_str s id row de now) in
  new_historique s' = new_historique s
  /\ persistent s' = persistent s
  /\ committed s' = committed s.
Proof.
  intros H. unfold apply_measurement, archive_current_data. rewrite H.
  unfold update_current_data. rewrite H.
  destruct (write_current_data _ _ _ _ _) as [[c log] ok]. simpl. auto.
Qed.

Lemma archived_apply_measurement base s id row de now :
  archived base s ->
  archived base (fst (apply_measurement float_of_str s id row de now)).
Proof.
  intros [Hc Hinv].
  destruct (current_data_of s id) as [cur0|] eqn:Hcur.
  - destruct (apply_measurement_found s id row de now cur0 Hcur)
      as (Hnew & Hold & _ & Hother & Hcom).
    split; [congruence|].
    intros eid cur Hsnap. unfold history, flushed. simpl.
    rewrite Hnew, Hold.
    destruct (Hinv eid cur Hsnap) as [Hstill|Hin].
    + destruct (Nat.eq_dec id eid) as [<-|Hne].
      * right. rewrite Hstill in Hcur. injection Hcur as <-.
        rewrite !in_app_iff. simpl. auto.
      * left. rewrite (Hother eid Hne). exact Hstill.
    + right. unfold history, flushed in Hin. simpl in Hin.
      rewrite !in_app_iff in *. tauto.
  - destruct (apply_measurement_absent s id row de now Hcur) as (Hnew & Hper & Hcom).
    split; [congruence|].
    intros eid cur Hsnap. unfold history, flushed, current_data_of. simpl.
    rewrite Hnew, Hper. exact (Hinv eid cur Hsnap).
Qed.

Lemma archived_rollback base s :
  committed s = base -> archived base (rollback s).
Proof.
  intros <-. split; [reflexivity|]. intros eid cur H. left. exact H.
Qed.

Lemma archived_flush base s s' :
  archived base s -> flush accepts s = Some s' -> archived base s'.
Proof.
  intros [Hc Hinv]. unfold flush. destruct (accepts (flushed s)); [|discriminate].
  intros [= <-]. split; [exact Hc|].
  intros eid cur Hsnap. unfold history, current_data_of, first. simpl.
  rewrite app_nil_r.
  destruct (Hinv eid cur Hsnap) as [Hstill|Hin].
  - left. now apply find_app_Some.
  - right. exact Hin.
Qed.

Lemma archived_add_etablissement base e s :
  archived base s -> archived base (add_etablissement e s).
Proof. intros [Hc Hinv]. split; [exact Hc|exact Hinv]. Qed.

Abbreviation find_etablissement :=
  (Scheduler.find_etablissement ftfy_fix_text str_of_float strftime_Ymd accepts
                                etablissements_info).

Lemma archived_find_etablissement base now s row :
  archived base s -> archived base (fst (find_etablissement now s row)).
Proof.
  intros H. unfold Scheduler.find_etablissement.
  destruct (search _ _ _ _); [exact H|].
  destruct (flush accepts _) as [s'|] eqn:Hf; simpl.
  - eapply archived_flush; [|exact Hf]. now apply archived_add_etablissement.
  - apply archived_rollback. simpl. apply H.
Qed.

Abbreviation process_rows :=
  (Scheduler.process_rows ftfy_fix_text float_of_str str_of_float strftime_Ymd accepts
                          etablissements_info).

Lemma archived_process_rows base de now rows s :
  archived base s -> archived base (fst (process_rows de now s rows)).
Proof.
  revert s. induction rows as [|row rows IH]; intros s H; simpl; [exact H|].
  unfold process_row.
  pose proof (archived_find_etablissement base now s row H) as Hfind.
  destruct (Scheduler.find_etablissement _ _ _ _ _ _ _ _) as [s1 [e|]]; simpl in Hfind.
  - pose proof (archived_apply_measurement base s1 (Etablissement.id e) row de now Hfind)
      as Happ.
    destruct (apply_measurement _ _ _ _ _ _) as [s2 log]. simpl in Happ.
    specialize (IH s2 Happ).
    destruct (Scheduler.process_rows _ _ _ _ _ _ _ _ _ _) as [s3 log']. exact IH.
  - specialize (IH s1 Hfind).
    destruct (Scheduler.process_rows _ _ _ _ _ _ _ _ _ _) as [s3 log']. exact IH.
Qed.

Abbreviation update_database :=
  (Scheduler.update_database ftfy_fix_text float_of_str str_of_float strftime_Ymd accepts
                             etablissements_info).

(** The store after a cycle: a snapshot it held before the cycle is still
    the current state, or a verbatim copy of it is a committed history row. *)
Lemma update_database_archives db seq rows de now id cur :
  snapshot (urgences_etat_actuel db) id = Some cur ->
  let store := committed (fst (update_database (open db seq) rows de now)) in
  snapshot (urgences_etat_actuel store) id = Some cur
  \/ In (historique_of cur) (urgences_historique store).
Proof.
  intros Hsnap. unfold Scheduler.update_database.
  assert (H0 : archived db (open db seq)).
  { split; [reflexivity|]. intros eid c Hc. left. exact Hc. }
  pose proof (archived_process_rows db de now rows _ H0) as H.
  destruct (Scheduler.process_rows _ _ _ _ _ _ _ _ _ _) as [s log]. simpl in H.
  unfold commit. destruct (flush accepts s) as [s'|] eqn:Hf; simpl.
  - destruct (archived_flush db s s' H Hf) as [_ Hinv].
    destruct (Hinv id cur Hsnap) as [Hstill|Hin]; [left; exact Hstill|right].
    unfold history, flushed in Hin.
    unfold flush in Hf. destruct (accepts (flushed s)); [|discriminate].
    injection Hf as <-. simpl in *. now rewrite app_nil_r in Hin.
  - left. destruct H as [-> _]. exact Hsnap.
Qed.


End Facts.

End ArchivalWriter.

(** ** TextNormalizer: [normalize_text], and the LIKE patterns made of its keys *)

Module TextNormalizer.

Import EncodingUtils Spec.

Lemma all_impl (p q : ascii -> bool) (s : string) :
  (forall c, p c = true -> q c = true) -> all p s = true -> all q s = true.
Proof.
  intros H. induction s as [|c s IH]; simpl; [reflexivity|].
  rewrite !andb_true_iff. intros [Hc Hs]. auto.
Qed.

Lemma all_lstrip (p : ascii -> bool) (s : string) :
  all p s = true -> all p (lstrip s) = true.
Proof.
  induction s as [|c s IH]; simpl; [reflexivity|].
  rewrite andb_true_iff. intros [Hc Hs].
  destruct (isspace c); simpl; [auto|now rewrite Hc, Hs].
Qed.

Lemma all_rstrip (p : ascii -> bool) (s : string) :
  all p s = true -> all p (rstrip s) = true.
Proof.
  induction s as [|c s IH]; simpl; [reflexivity|].
  rewrite andb_true_iff. intros [Hc Hs]. specialize (IH Hs).
  destruct (rstrip s) as [|d r]; simpl in *.
  - destruct (isspace c); simpl; [reflexivity|now rewrite Hc].
  - now rewrite Hc, IH.
Qed.

Lemma all_strip (p : ascii -> bool) (s : string) :
  all p s = true -> all p (strip s) = true.
Proof. intros H. unfold strip. now apply all_rstrip, all_lstrip. Qed.

Lemma all_lower (s : string) : all lowered (lower s) = true.
Proof.
  induction s as [|c s IH]; simpl; [reflexivity|]. rewrite IH, andb_true_r.
  unfold lowered. destruct c as [[] [] [] [] [] [] [] []]; vm_compute; reflexivity.
Qed.

Lemma all_strip_marks (s : string) :
  all lowered s = true -> all lowered (strip_marks s) = true.
Proof.
  induction s as [|c s IH]; simpl; [reflexivity|].
  rewrite !andb_true_iff. intros [Hc Hs]. split; [|auto].
  revert Hc. unfold lowered.
  destruct c as [[] [] [] [] [] [] [] []]; vm_compute; congruence.
Qed.

Lemma all_sub_special (p : ascii -> bool) (s : string) :
  p " "%char = true -> all p s = true -> all p (sub_special s) = true.
Proof.
  intros Hsp. induction s as [|c s IH]; simpl; [reflexivity|].
  rewrite !andb_true_iff. intros [Hc Hs]. split; [|auto].
  now destruct (re_word c || isspace c).
Qed.

Lemma all_sub_spaces (p : ascii -> bool) (b : bool) (s : string) :
  p " "%char = true -> all p s = true -> all p (sub_spaces b s) = true.
Proof.
  intros Hsp. revert b. induction s as [|c s IH]; intros b; simpl; [reflexivity|].
  rewrite !andb_true_iff. intros [Hc Hs].
  destruct (isspace c); [destruct b|]; simpl; rewrite ?Hsp, ?Hc; simpl; auto.
Qed.

Lemma sub_special_chars (s : string) :
  all (fun c => re_word c || isspace c) (sub_special s) = true.
Proof.
  induction s as [|c s IH]; [reflexivity|].
  cbn [sub_special all]. rewrite IH, andb_true_r.
  destruct (re_word c || isspace c) eqn:H; [exact H|vm_compute; reflexivity].
Qed.

Lemma sub_spaces_chars (b : bool) (s : string) :
  all (fun c => re_word c || isspace c) s = true ->
  all key_char (sub_spaces b s) = true.
Proof.
  assert (Hsp : key_char " " = true) by (vm_compute; reflexivity).
  revert b. induction s as [|c s IH]; intros b; [reflexivity|].
  cbn [all sub_spaces]. rewrite andb_true_iff. intros [Hc Hs].
  destruct (isspace c) eqn:Hc'; [destruct b|];
    cbn [all]; rewrite ?Hsp; cbn [andb]; auto.
  rewrite orb_false_r in Hc.
  unfold key_char at 1. rewrite Hc. cbn [orb andb]. auto.
Qed.

(** A normalized key holds word characters and spaces only. *)
Lemma normalize_text_chars fix_text text remove_accents :
  all key_char (normalize_text fix_text text remove_accents) = true.
Proof.
  destruct text as [| |s]; try reflexivity.
  unfold normalize_text. apply all_strip, sub_spaces_chars, sub_special_chars.
Qed.

(** A normalized key is in lower case. *)
Lemma normalize_text_lowered fix_text text remove_accents :
  all lowered (normalize_text fix_text text remove_accents) = true.
Proof.
  destruct text as [| |s]; try reflexivity.
  unfold normalize_text.
  apply all_strip, all_sub_spaces, all_sub_special; try reflexivity.
  destruct remove_accents; [apply all_strip_marks|]; apply all_lower.
Qed.

Lemma lower_lowered (s : string) : all lowered s = true -> lower s = s.
Proof.
  induction s as [|c s IH]; simpl; [reflexivity|].
  rewrite andb_true_iff. intros [Hc Hs]. rewrite (IH Hs).
  unfold lowered in Hc. apply Ascii.eqb_eq in Hc. now rewrite Hc.
Qed.

Lemma key_char_no_escape (c : ascii) : key_char c = true -> no_escape c = true.
Proof. destruct c as [[] [] [] [] [] [] [] []]; vm_compute; congruence. Qed.

(** *** LIKE patterns *)

Lemma like_percent (text : string) : like "%" text = true.
Proof.
  induction text as [|c t IH]; [reflexivity|].
  change (like "%" (String c t)) with (like "" (String c t) || like "%" t).
  rewrite IH. apply orb_true_r.
Qed.

Lemma like_prefix (key text : string) :
  all no_escape key = true -> like (key ++ "%") text = prefix_like key text.
Proof.
  revert text. induction key as [|a key IH]; intros text.
  - intros _. rewrite like_percent. now destruct text.
  - simpl. rewrite andb_true_iff. intros [Ha Hk].
    unfold no_escape in Ha. rewrite andb_true_iff, !negb_true_iff in Ha.
    destruct Ha as [Hp Hb]. rewrite Hp, Hb.
    destruct (Ascii.eqb a "_") eqn:Hu; destruct text as [|b text]; simpl; auto.
    now rewrite IH.
Qed.

Lemma like_contains (key text : string) :
  all no_escape key = true ->
  like ("%" ++ key ++ "%") text = contains_like key text.
Proof.
  intros Hk. induction text as [|c t IH].
  - change (like ("%" ++ key ++ "%") "") with (like (key ++ "%") "" || false).
    simpl. now rewrite like_prefix.
  - change (like ("%" ++ key ++ "%") (String c t))
      with (like (key ++ "%") (String c t) || like ("%" ++ key ++ "%") t).
    rewrite IH, like_prefix by exact Hk. reflexivity.
Qed.

Lemma prefix_like_literal (key text : string) :
  all literal key = true -> prefix_like key text = Scheduler.prefix_of key text.
Proof.
  revert text. induction key as [|a key IH]; intros text; simpl; [reflexivity|].
  rewrite andb_true_iff. intros [Ha Hk]. destruct text as [|b text]; [reflexivity|].
  rewrite (IH _ Hk). unfold literal in Ha.
  rewrite !andb_true_iff, !negb_true_iff in Ha. destruct Ha as [[_ ->] _].
  reflexivity.
Qed.

Lemma contains_like_literal (key text : string) :
  all literal key = true -> contains_like key text = Scheduler.substring_of key text.
Proof.
  intros Hk. induction text as [|c t IH]; simpl.
  - now rewrite prefix_like_literal.
  - now rewrite prefix_like_literal, IH.
Qed.

(** The filter [column.ilike(f"%{key}%")] for a normalized key: the key
    matches somewhere in the lowered column, an underscore of the key
    standing for any one character. *)
Lemma ilike_normalized fix_text text remove_accents column :
  let key := normalize_text fix_text text remove_accents in
  ilike column ("%" ++ key ++ "%")
  = match column with
    | Some stored => contains_like key (lower stored)
    | None => false
    end.
Proof.
  intros key. destruct column as [stored|]; [|reflexivity].
  unfold ilike.
  assert (Hl : lower ("%" ++ key ++ "%") = "%" ++ key ++ "%").
  { apply lower_lowered. simpl.
    assert (H : forall s, all lowered s = true -> all lowered (s ++ "%") = true).
    { induction s as [|c s IH]; simpl; [reflexivity|].
      rewrite !andb_true_iff. intros [? ?]. auto. }
    apply H, normalize_text_lowered. }
  rewrite Hl. apply like_contains.
  eapply all_impl; [exact key_char_no_escape|apply normalize_text_chars].
Qed.

(** *** The form of a normalized key *)

Lemma key_char_space (c : ascii) :
  key_char c = true -> isspace c = true -> c = " "%char.
Proof. destruct c as [[] [] [] [] [] [] [] []]; vm_compute; congruence. Qed.

Lemma key_char_kept (c : ascii) : key_char c = true -> re_word c || isspace c = true.
Proof. destruct c as [[] [] [] [] [] [] [] []]; vm_compute; congruence. Qed.

Lemma key_char_punctuation (c : ascii) :
  key_char c = true -> is_punctuation c = true -> c = "_"%char.
Proof. destruct c as [[] [] [] [] [] [] [] []]; vm_compute; congruence. Qed.

Lemma unmarked_base_char (c : ascii) : unmarked (base_char c) = true.
Proof. destruct c as [[] [] [] [] [] [] [] []]; vm_compute; reflexivity. Qed.

Lemma all_unmarked_strip_marks (s : string) : all unmarked (strip_marks s) = true.
Proof.
  induction s as [|c s IH]; [reflexivity|].
  cbn [strip_marks all]. now rewrite unmarked_base_char, IH.
Qed.

Lemma strip_marks_unmarked (s : string) : all unmarked s = true -> strip_marks s = s.
Proof.
  induction s as [|c s IH]; [reflexivity|].
  cbn [strip_marks all]. rewrite andb_true_iff. intros [Hc Hs].
  unfold unmarked in Hc. apply Ascii.eqb_eq in Hc. now rewrite Hc, (IH Hs).
Qed.

Lemma sub_special_key (s : string) : all key_char s = true -> sub_special s = s.
Proof.
  induction s as [|c s IH]; [reflexivity|].
  cbn [sub_special all]. rewrite andb_true_iff. intros [Hc Hs].
  now rewrite (key_char_kept c Hc), (IH Hs).
Qed.

Lemma no_double_space_weaken (s : string) :
  no_double_space true s = true -> no_double_space false s = true.
Proof.
  destruct s as [|c s]; [reflexivity|]. cbn [no_double_space].
  rewrite !andb_true_iff. intros [_ H]. split; [reflexivity|exact H].
Qed.

Lemma sub_spaces_key (b : bool) (s : string) :
  all key_char s = true -> no_double_space b s = true -> sub_spaces b s = s.
Proof.
  revert b. induction s as [|c s IH]; intros b; [reflexivity|].
  cbn [sub_spaces all no_double_space]. rewrite !andb_true_iff.
  intros [Hc Hs] [Hb Hn].
  destruct (isspace c) eqn:Hsp.
  - destruct b; [discriminate|].
    rewrite (IH true Hs Hn). now rewrite (key_char_space c Hc Hsp).
  - now rewrite (IH false Hs Hn).
Qed.

Lemma no_double_space_sub_spaces (b : bool) (s : string) :
  no_double_space b (sub_spaces b s) = true.
Proof.
  assert (Hsp : isspace " " = true) by (vm_compute; reflexivity).
  revert b. induction s as [|c s IH]; intros b; [reflexivity|].
  cbn [sub_spaces]. destruct (isspace c) eqn:Hc; [destruct b|].
  - apply IH.
  - cbn [no_double_space]. rewrite Hsp. apply IH.
  - cbn [no_double_space]. rewrite Hc, andb_false_r. apply IH.
Qed.

Lemma no_double_space_lstrip (s : string) :
  no_double_space false s = true -> no_double_space true (lstrip s) = true.
Proof.
  induction s as [|c s IH]; [reflexivity|].
  cbn [lstrip no_double_space]. destruct (isspace c) eqn:Hc.
  - intros H. apply IH. now apply no_double_space_weaken.
  - cbn [no_double_space]. now rewrite Hc.
Qed.

Lemma no_double_space_rstrip (b : bool) (s : string) :
  no_double_space b s = true -> no_double_space b (rstrip s) = true.
Proof.
  revert b. induction s as [|c s IH]; intros b; [reflexivity|].
  cbn [rstrip no_double_space]. rewrite andb_true_iff. intros [Hb Hs].
  specialize (IH _ Hs).
  destruct (rstrip s) as [|d r].
  - destruct (isspace c) eqn:Hc; [reflexivity|].
    cbn [no_double_space]. now rewrite Hc, andb_false_r.
  - cbn [no_double_space] in *. now rewrite Hb, IH.
Qed.

Lemma rstrip_idempotent (s : string) : rstrip (rstrip s) = rstrip s.
Proof.
  induction s as [|c s IH]; [reflexivity|].
  cbn [rstrip]. destruct (rstrip s) as [|d r] eqn:Hr.
  - destruct (isspace c) eqn:Hc; [reflexivity|]. cbn [rstrip]. now rewrite Hc.
  - remember (String d r) as t eqn:Ht.
    change (rstrip (String c t)) with
      (match rstrip t with
       | EmptyString => if isspace c then EmptyString else String c EmptyString
       | String a r' => String c (String a r')
       end).
    rewrite IH, Ht. reflexivity.
Qed.

Lemma lstrip_rstrip (s : string) :
  no_double_space true s = true -> lstrip (rstrip s) = rstrip s.
Proof.
  destruct s as [|c s]; [reflexivity|].
  cbn [no_double_space]. rewrite andb_true_iff. intros [Hc _].
  cbn [andb] in Hc. apply negb_true_iff in Hc.
  cbn [rstrip]. destruct (rstrip s); rewrite ?Hc; cbn [lstrip]; now rewrite Hc.
Qed.

Lemma lstrip_no_leading_space (s : string) :
  no_double_space true s = true -> lstrip s = s.
Proof.
  destruct s as [|c s]; [reflexivity|].
  cbn [no_double_space lstrip]. rewrite andb_true_iff. intros [Hc _].
  cbn [andb] in Hc. apply negb_true_iff in Hc. now rewrite Hc.
Qed.

(** What [normalize_text] returns is normalized. *)
Lemma normalize_text_normalized fix_text text remove_accents :
  normalized remove_accents (normalize_text fix_text text remove_accents).
Proof.
  unfold normalized.
  split; [apply normalize_text_chars|].
  split; [apply normalize_text_lowered|].
  destruct text as [| |s]; try (repeat split; reflexivity).
  unfold normalize_text, strip.
  split; [|split].
  - intros ->. apply all_rstrip, all_lstrip, all_sub_spaces, all_sub_special;
      try reflexivity. apply all_unmarked_strip_marks.
  - apply no_double_space_rstrip, no_double_space_lstrip, no_double_space_sub_spaces.
  - apply rstrip_idempotent.
Qed.

(** A normalized text that the repair leaves alone is its own key. *)
Lemma normalize_text_fixpoint fix_text remove_accents s :
  normalized remove_accents s -> fix_text s = s ->
  normalize_text fix_text (VStr s) remove_accents = s.
Proof.
  intros (Hk & Hl & Hm & Hd & Hr) Hfix. unfold normalize_text.
  rewrite Hfix, (lower_lowered s Hl).
  assert (Hs : (if remove_accents then strip_marks s else s) = s).
  { destruct remove_accents; [|reflexivity]. now apply strip_marks_unmarked, Hm. }
  rewrite Hs, (sub_special_key s Hk),
    (sub_spaces_key false s Hk (no_double_space_weaken s Hd)).
  unfold strip. now rewrite (lstrip_no_leading_space s Hd).
Qed.

(** [normalize_text] is idempotent on every text whose key the repair
    leaves alone. *)
Lemma normalize_text_idempotent fix_text text remove_accents :
  let key := normalize_text fix_text text remove_accents in
  fix_text key = key ->
  normalize_text fix_text (VStr key) remove_accents = key.
Proof.
  intros key Hfix. apply normalize_text_fixpoint; [|exact Hfix].
  apply normalize_text_normalized.
Qed.

(** It returns the empty text for what is not a str. *)
Lemma normalize_text_not_str fix_text text remove_accents :
  is_str text = false -> normalize_text fix_text text remove_accents = "".
Proof. now destruct text. Qed.

(** The only punctuation mark a key can hold is the underscore. *)
Lemma normalize_text_punctuation fix_text text remove_accents :
  all (fun c => negb (is_punctuation c) || Ascii.eqb c "_")
      (normalize_text fix_text text remove_accents) = true.
Proof.
  eapply all_impl; [|apply normalize_text_chars].
  intros c Hc. destruct (is_punctuation c) eqn:Hp; [|reflexivity].
  rewrite (key_char_punctuation c Hc Hp). reflexivity.
Qed.

(** C6, on the failing input.  The underscore is a punctuation mark and a
    word character of [re]: whatever the accents, [normalize_text] returns
    [a_b] for [a_b], a key that holds a punctuation mark. *)
Theorem underscore_survives fix_text remove_accents :
  fix_text "a_b" = "a_b" ->
  normalize_text fix_text (VStr "a_b") remove_accents = "a_b"
  /\ all (fun c => negb (is_punctuation c)) "a_b" = false.
Proof.
  intros H. split; [|reflexivity].
  unfold normalize_text. rewrite H. now destruct remove_accents.
Qed.

End TextNormalizer.

(** ** FacilityResolver: [_find_etablissement] *)

Module FacilityResolver.

Import Scheduler Spec.

Lemma first_such_first {A : Type} (p : A -> bool) (table : list A) (e : A) :
  first_such p table e -> first p table = Some e.
Proof.
  intros (before & after & -> & He & Hb). unfold first.
  induction before as [|x before IH]; simpl.
  - now rewrite He.
  - rewrite (Hb x) by (left; reflexivity). apply IH. intros y Hy. apply Hb. now right.
Qed.

Lemma first_first_such {A : Type} (p : A -> bool) (table : list A) (e : A) :
  first p table = Some e -> first_such p table e.
Proof.
  unfold first. induction table as [|x table IH]; simpl; [discriminate|].
  destruct (p x) eqn:Hx.
  - intros [= <-]. exists [], table. repeat split; [exact Hx|intros y []].
  - intros H. destruct (IH H) as (before & after & -> & He & Hb).
    exists (x :: before), after. repeat split; [exact He|].
    intros y [<-|Hy]; auto.
Qed.

Lemma first_none {A : Type} (p : A -> bool) (table : list A) :
  (forall x, In x table -> p x = false) -> first p table = None.
Proof.
  unfold first. induction table as [|x table IH]; simpl; [reflexivity|].
  intros H. rewrite (H x) by (left; reflexivity). apply IH. intros y Hy. apply H. now right.
Qed.

Lemma first_ext {A : Type} (p q : A -> bool) (table : list A) :
  (forall x, p x = q x) -> first p table = first q table.
Proof.
  intros H. unfold first. induction table as [|x table IH]; simpl; [reflexivity|].
  now rewrite H, IH.
Qed.

Section Facts.

Variable ftfy_fix_text : string -> string.
Variable str_of_float : PrimFloat.float -> string.
Variable strftime_Ymd : Time -> string.
Variable accepts : DB -> bool.
Variable etablissements_info : list (string * Info).

Abbreviation fix_text_encoding := (EncodingUtils.fix_text_encoding ftfy_fix_text).
Abbreviation normalize_text := (EncodingUtils.normalize_text ftfy_fix_text).
Abbreviation find_etablissement :=
  (Scheduler.find_etablissement ftfy_fix_text str_of_float strftime_Ymd accepts
                                etablissements_info).

Abbreviation no_permis_of := (Scheduler.no_permis_of str_of_float).
Abbreviation installation_key := (Scheduler.installation_key ftfy_fix_text).
Abbreviation etablissement_key := (Scheduler.etablissement_key ftfy_fix_text).
Abbreviation created :=
  (Scheduler.created ftfy_fix_text str_of_float strftime_Ymd etablissements_info).

Lemma by_installation_normalized table text :
  let key := normalize_text text true in
  by_installation table key = first (matches_installation key) table.
Proof.
  intros key. unfold by_installation. apply first_ext. intros e.
  unfold matches_installation. apply TextNormalizer.ilike_normalized.
Qed.

Lemma by_etablissement_normalized table text :
  let key := normalize_text text true in
  by_etablissement table key = first (matches_etablissement key) table.
Proof.
  intros key. unfold by_etablissement. apply first_ext. intros e.
  unfold matches_etablissement.
  exact (TextNormalizer.ilike_normalized ftfy_fix_text text true
           (Some (Etablissement.nom_etablissement_normalise e))).
Qed.

Lemma find_etablissement_search now s row e :
  search (etablissements (persistent s)) (no_permis_of row)
         (installation_key row) (etablissement_key row) = Some e ->
  find_etablissement now s row = (s, Some e).
Proof.
  intros H. unfold Scheduler.find_etablissement.
  fold (no_permis_of row) (installation_key row) (etablissement_key row).
  now rewrite H.
Qed.

Lemma eqb_false_neq (a b : string) : a <> b -> (a =? b) = false.
Proof. apply String.eqb_neq. Qed.

Lemma literal_key_char (c : ascii) :
  key_char c = true -> Ascii.eqb "_" c = false -> literal c = true.
Proof. destruct c as [[] [] [] [] [] [] [] []]; vm_compute; congruence. Qed.

Lemma literal_key (key : string) :
  all key_char key = true -> contains_char "_" key = false -> all literal key = true.
Proof.
  induction key as [|c key IH]; [reflexivity|].
  cbn [all contains_char]. rewrite andb_true_iff, orb_false_iff.
  intros [Hc Hk] [Hu Hn]. rewrite (literal_key_char c Hc Hu). cbn [andb]. auto.
Qed.

(** The search, with the filters read on the stored facilities. *)
Lemma search_normalized table no_permis text_i text_e :
  let ki := normalize_text text_i true in
  let ke := normalize_text text_e true in
  search table no_permis ki ke
  = match (if permis_given no_permis
           then first (matches_permis no_permis) table else None) with
    | Some e => Some e
    | None =>
        match (if negb (ki =? "")
               then first (matches_installation ki) table else None) with
        | Some e => Some e
        | None =>
            if negb (ke =? "")
            then first (matches_etablissement ke) table else None
        end
    end.
Proof.
  intros ki ke.
  pose proof (by_installation_normalized table text_i) as Hi.
  pose proof (by_etablissement_normalized table text_e) as He.
  cbv zeta in Hi, He. fold ki in Hi. fold ke in He.
  unfold search, permis_given. rewrite Hi, He.
  change (by_permis table no_permis) with (first (matches_permis no_permis) table).
  destruct (negb (no_permis =? "") && negb (strip no_permis =? ""));
    [destruct (first (matches_permis no_permis) table); [reflexivity|]|];
    (destruct (negb (ki =? ""));
     [destruct (first (matches_installation ki) table); reflexivity|reflexivity]).
Qed.

(** C2, amended.  The scheduler resolves a row by the first step that hits,
    in the order permit number, installation name, establishment name; a
    step runs only on a non-blank permit number or a non-empty key, and only
    when the steps before it hit nothing; a hit is the first stored facility
    that passes the filter, and the session is left as it was.  The filter
    of a name step is ILIKE on [%key%]: the key matches somewhere in the
    stored name put in lower case, an underscore of the key standing for any
    one character, which is a substring match when the key has no
    underscore.  The search of scripts/data_updater.py is the same cascade
    without its first step. *)
Theorem resolution_cascade now s row :
  let table := etablissements (persistent s) in
  let p := no_permis_of row in
  let ki := installation_key row in
  let ke := etablissement_key row in
  let miss1 := permis_given p = false \/ misses (matches_permis p) table in
  let miss2 := ki = "" \/ misses (matches_installation ki) table in
  let miss3 := ke = "" \/ misses (matches_etablissement ke) table in
  (forall e, permis_given p = true -> first_such (matches_permis p) table e ->
             find_etablissement now s row = (s, Some e))
  /\ (forall e, miss1 -> ki <> "" -> first_such (matches_installation ki) table e ->
                find_etablissement now s row = (s, Some e))
  /\ (forall e, miss1 -> miss2 -> ke <> "" ->
                first_such (matches_etablissement ke) table e ->
                find_etablissement now s row = (s, Some e))
  /\ (miss1 -> miss2 -> miss3 -> search table p ki ke = None)
  /\ (forall stored, contains_char "_" ki = false ->
                     contains_like ki stored = substring_of ki stored)
  /\ ScriptUpdater.search table ki ke = search table "" ki ke.
Proof.
  intros table p ki ke miss1 miss2 miss3.
  assert (H1 : miss1 ->
               (if permis_given p then first (matches_permis p) table else None) = None).
  { intros [->|Hm]; [reflexivity|]. rewrite (first_none _ _ Hm). now destruct (permis_given p). }
  assert (H2 : miss2 ->
               (if negb (ki =? "") then first (matches_installation ki) table else None)
               = None).
  { intros [->|Hm]; [reflexivity|]. rewrite (first_none _ _ Hm).
    now destruct (negb (ki =? "")). }
  assert (H3 : miss3 ->
               (if negb (ke =? "") then first (matches_etablissement ke) table else None)
               = None).
  { intros [->|Hm]; [reflexivity|]. rewrite (first_none _ _ Hm).
    now destruct (negb (ke =? "")). }
  repeat split.
  - intros e Hp He. apply find_etablissement_search. fold table p ki ke.
    unfold ki, ke, installation_key, etablissement_key. rewrite search_normalized.
    now rewrite Hp, (first_such_first _ _ _ He).
  - intros e Hm Hk He. apply find_etablissement_search. fold table p ki ke.
    unfold ki, ke, installation_key, etablissement_key. rewrite search_normalized.
    fold (installation_key row) (etablissement_key row). fold ki ke.
    rewrite (H1 Hm), (eqb_false_neq _ _ Hk). cbn [negb].
    now rewrite (first_such_first _ _ _ He).
  - intros e Hm1 Hm2 Hk He. apply find_etablissement_search. fold table p ki ke.
    unfold ki, ke, installation_key, etablissement_key. rewrite search_normalized.
    fold (installation_key row) (etablissement_key row). fold ki ke.
    rewrite (H1 Hm1), (H2 Hm2), (eqb_false_neq _ _ Hk). cbn [negb].
    exact (first_such_first _ _ _ He).
  - intros Hm1 Hm2 Hm3.
    unfold ki, ke, installation_key, etablissement_key. rewrite search_normalized.
    fold (installation_key row) (etablissement_key row). fold ki ke.
    now rewrite (H1 Hm1), (H2 Hm2), (H3 Hm3).
  - intros stored Hu. apply TextNormalizer.contains_like_literal, literal_key; [|exact Hu].
    apply TextNormalizer.normalize_text_chars.
Qed.

(** [_find_etablissement] when the search finds nothing. *)
Lemma find_etablissement_creates now s row :
  search (etablissements (persistent s)) (no_permis_of row)
         (installation_key row) (etablissement_key row) = None ->
  find_etablissement now s row
  = let s_add := add_etablissement (created now s row) s in
    match flush accepts s_add with
    | Some s' => (s', Some (created now s row (etablissement_seq s)))
    | None => (rollback s_add, None)
    end.
Proof.
  intros H. unfold Scheduler.find_etablissement.
  fold (no_permis_of row) (installation_key row) (etablissement_key row).
  rewrite H. reflexivity.
Qed.

Lemma find_app_None {A : Type} (p : A -> bool) (l l' : list A) :
  List.find p l = None -> List.find p (l ++ l') = List.find p l'.
Proof.
  induction l as [|a l IH]; simpl; [reflexivity|].
  destruct (p a); [discriminate|exact IH].
Qed.

Lemma search_by_permis table no_permis ki ke e :
  permis_given no_permis = true ->
  by_permis table no_permis = Some e ->
  search table no_permis ki ke = Some e.
Proof.
  unfold search, permis_given. intros -> ->. reflexivity.
Qed.

Lemma search_None_by_permis table no_permis ki ke :
  permis_given no_permis = true ->
  search table no_permis ki ke = None ->
  by_permis table no_permis = None.
Proof.
  unfold search, permis_given. intros ->.
  destruct (by_permis table no_permis); [discriminate|reflexivity].
Qed.



End Facts.

End FacilityResolver.

(** ** FieldCoercer: the occupancy rate and the mean lengths of stay *)

Module FieldCoercer.

Import Scheduler Spec.

(** Nothing out of a positive number of stretchers is a rate of zero. *)
Lemma zero_percent (f : PrimFloat.float) :
  PrimFloat.ltb 0 f = true -> (0 / f * 100)%float = 0%float.
Proof.
  intros H. rewrite ltb_spec in H.
  apply Prim2SF_inj. rewrite mul_spec, div_spec.
  change (Prim2SF 0) with (S754_zero false) in *.
  destruct (Prim2SF f) as [sg|sg| |sg m e];
    try discriminate; destruct sg; try discriminate; reflexivity.
Qed.

Lemma ltb_0_nonzero (f : PrimFloat.float) :
  PrimFloat.ltb 0 f = true -> PrimFloat.eqb f 0 = false.
Proof.
  rewrite ltb_spec, eqb_spec.
  change (Prim2SF 0) with (S754_zero false).
  destruct (Prim2SF f) as [sg|sg| |sg m e];
    try discriminate; destruct sg; try discriminate; reflexivity.
Qed.

(** The rate the scheduler writes for two floats. *)
Lemma taux_occupation_of_floats (cf co : PrimFloat.float) :
  taux_occupation_of (VFloat cf) (VFloat co)
  = Some (VFloat (if PrimFloat.ltb 0 cf then co / cf * 100 else 0)%float).
Proof.
  unfold taux_occupation_of, truthy, gt0, percent, is_None.
  destruct (PrimFloat.ltb 0 cf) eqn:Hlt.
  - rewrite (ltb_0_nonzero cf Hlt). reflexivity.
  - now destruct (negb (PrimFloat.eqb cf 0)).
Qed.

Section Facts.

Variable float_of_str : string -> option PrimFloat.float.

Abbreviation float := (Scheduler.float float_of_str).
Abbreviation write_current_data := (Scheduler.write_current_data float_of_str).

Lemma write_counts_done row c c' :
  write_counts float_of_str counts row c = (c', true) ->
  exists cf co,
    float (get row "civieres_fonctionnelles" (VFloat 0)) = Some cf
    /\ float (get row "civieres_occupees" (VFloat 0)) = Some co
    /\ UrgencesEtatActuel.civieres_fonctionnelles c' = VFloat cf
    /\ UrgencesEtatActuel.civieres_occupees c' = VFloat co.
Proof.
  unfold counts. cbn [write_counts].
  destruct (float (get row "civieres_fonctionnelles" _)) as [cf|]; [|discriminate].
  destruct (float (get row "civieres_occupees" _)) as [co|]; [|discriminate].
  destruct (float (get row "patients_24h" _)); [|discriminate].
  destruct (float (get row "patients_48h" _)); [|discriminate].
  destruct (float (get row "total_patients" _)); [|discriminate].
  destruct (float (get row "patients_en_attente" _)); [|discriminate].
  intros [= <-]. exists cf, co. repeat split.
Qed.

(** The scheduler's write, when it runs to its end: the rate stored is
    [occupied / functional * 100] for a positive [functional], and zero
    otherwise; a count missing from the row reads as zero, and then the rate
    is zero. *)
Lemma scheduler_occupancy row de now c c' log :
  write_current_data row de now c = (c', log, true) ->
  exists cf co,
    float (get row "civieres_fonctionnelles" (VFloat 0)) = Some cf
    /\ float (get row "civieres_occupees" (VFloat 0)) = Some co
    /\ UrgencesEtatActuel.taux_occupation c'
       = VFloat (if PrimFloat.ltb 0 cf then co / cf * 100 else 0)%float
    /\ (PrimFloat.ltb 0 cf = false ->
        UrgencesEtatActuel.taux_occupation c' = VFloat 0)
    /\ (row "civieres_fonctionnelles" = None \/ row "civieres_occupees" = None ->
        UrgencesEtatActuel.taux_occupation c' = VFloat 0).
Proof.
  unfold Scheduler.write_current_data.
  destruct (write_counts float_of_str counts row c) as [c1 [|]] eqn:Hc; [|discriminate].
  destruct (write_counts_done row c c1 Hc) as (cf & co & Hcf & Hco & H1 & H2).
  destruct (coerce_dms _ _ (get_ row "dms_civiere")) as [d1 w1].
  destruct (coerce_dms _ _ (get_ row "dms_ambulatoire")) as [d2 w2].
  cbn [UrgencesEtatActuel.civieres_fonctionnelles UrgencesEtatActuel.civieres_occupees
       UrgencesEtatActuel.set_dms_civiere UrgencesEtatActuel.set_dms_ambulatoire].
  rewrite H1, H2, taux_occupation_of_floats.
  intros [= <- _]. exists cf, co.
  cbn [UrgencesEtatActuel.taux_occupation UrgencesEtatActuel.set_statut_validation
       UrgencesEtatActuel.set_date_maj UrgencesEtatActuel.set_date_extraction
       UrgencesEtatActuel.set_taux_occupation].
  repeat split; auto.
  - now intros ->.
  - intros [Hn|Hn].
    + unfold get in Hcf. rewrite Hn in Hcf. injection Hcf as <-. reflexivity.
    + unfold get in Hco. rewrite Hn in Hco. injection Hco as <-.
      destruct (PrimFloat.ltb 0 cf) eqn:Hlt; [|reflexivity].
      now rewrite zero_percent.
Qed.

Lemma split_no_separator (c : ascii) (s : string) :
  contains_char c s = false -> split c s = [s].
Proof.
  induction s as [|d s IH]; [reflexivity|].
  cbn [contains_char split]. rewrite orb_false_iff. intros [Hd Hs].
  rewrite Ascii.eqb_sym, Hd, (IH Hs). reflexivity.
Qed.

Lemma split_at_separator (c : ascii) (h m : string) :
  contains_char c h = false ->
  split c (h ++ String c m) = h :: split c m.
Proof.
  induction h as [|d h IH]; cbn [contains_char split append].
  - intros _. now rewrite Ascii.eqb_refl.
  - rewrite orb_false_iff. intros [Hd Hh].
    rewrite Ascii.eqb_sym, Hd, (IH Hh). reflexivity.
Qed.

Lemma contains_separator (c : ascii) (h m : string) :
  contains_char c (h ++ String c m) = true.
Proof.
  induction h as [|d h IH]; cbn [contains_char append].
  - now rewrite Ascii.eqb_refl.
  - rewrite IH. apply orb_true_r.
Qed.

(** [_update_current_data] on a mean length of stay [H:MM]: the hours plus
    the minutes over sixty. *)
Lemma dms_hours_minutes h m fh fm :
  contains_char ":" h = false -> contains_char ":" m = false ->
  float_of_str h = Some fh -> float_of_str m = Some fm ->
  dms_hours float_of_str (VStr (h ++ ":" ++ m)) = Some (fh + fm / 60)%float.
Proof.
  intros Hh Hm Hfh Hfm. unfold dms_hours.
  change (h ++ ":" ++ m) with (h ++ String ":" m).
  rewrite contains_separator, (split_at_separator ":" h m Hh), (split_no_separator ":" m Hm).
  now rewrite Hfh, Hfm.
Qed.

(** On a decimal number written with a comma: the number read with a dot. *)
Lemma dms_hours_comma d :
  contains_char ":" d = false ->
  dms_hours float_of_str (VStr d) = float_of_str (replace_char "," "." d).
Proof. intros H. unfold dms_hours. now rewrite H. Qed.

(** On a text that is not a number: zero, and a warning. *)
Lemma coerce_dms_unparsable warning d :
  contains_char ":" d = false ->
  float_of_str (replace_char "," "." d) = None ->
  coerce_dms float_of_str warning (VStr d) = (VFloat 0, [warning]).
Proof. intros H Hf. unfold coerce_dms. now rewrite dms_hours_comma, Hf. Qed.

End Facts.

(** *** The occupancy rate in scripts/data_updater.py *)

(** With a number of stretchers in service that is not true (zero, or
    missing), the script stores NULL. *)
Lemma script_occupancy_null row de now c :
  truthy (get_ row "civieres_fonctionnelles") = false ->
  option_map UrgencesEtatActuel.taux_occupation
    (ScriptUpdater.write_current_data row de now c) = Some VNone.
Proof.
  intros H. unfold ScriptUpdater.write_current_data.
  cbn [UrgencesEtatActuel.civieres_fonctionnelles UrgencesEtatActuel.civieres_occupees
       UrgencesEtatActuel.set_civieres_fonctionnelles
       UrgencesEtatActuel.set_civieres_occupees UrgencesEtatActuel.set_patients_24h
       UrgencesEtatActuel.set_patients_48h UrgencesEtatActuel.set_total_patients
       UrgencesEtatActuel.set_patients_en_attente UrgencesEtatActuel.set_dms_civiere
       UrgencesEtatActuel.set_dms_ambulatoire].
  unfold ScriptUpdater.taux_occupation_of. rewrite H. reflexivity.
Qed.

(** *** The loop of [process_urgences_data] over the numeric columns *)

Section Feed.

Import DataValidation.

Variable to_numeric : value -> PrimFloat.float.
Variable float_of_str : string -> option PrimFloat.float.

Abbreviation dms_lambda := (DataValidation.dms_lambda float_of_str).
Abbreviation convert_column := (DataValidation.convert_column to_numeric float_of_str).
Abbreviation convert_numeric_columns :=
  (DataValidation.convert_numeric_columns to_numeric float_of_str).
Abbreviation unreadable := (Spec.unreadable float_of_str).

Lemma get_set_cell_other row c col v :
  c <> col -> get_ (set_cell row c v) col = get_ row col.
Proof.
  intros H. unfold get_, get, set_cell.
  destruct (col =? c) eqn:E; [|reflexivity].
  apply String.eqb_eq in E. congruence.
Qed.

(** [apply] raises as soon as the lambda raises on a cell. *)
Lemma apply_column_raises col rows :
  unreadable col rows -> apply_column dms_lambda col rows = None.
Proof.
  intros (row & d & Hin & Hd & Hf).
  induction rows as [|r rows IH]; [destruct Hin|].
  cbn [apply_column]. destruct Hin as [->|Hin].
  - rewrite Hd. cbn [DataValidation.dms_lambda]. now rewrite Hf.
  - rewrite (IH Hin). now destruct (dms_lambda (get_ r col)).
Qed.

Lemma apply_column_other f c col rows rows' :
  c <> col -> apply_column f c rows = Some rows' ->
  List.map (fun row => get_ row col) rows' = List.map (fun row => get_ row col) rows.
Proof.
  intros Hc. revert rows'. induction rows as [|r rows IH]; intros rows' H.
  - injection H as <-. reflexivity.
  - cbn [apply_column] in H.
    destruct (f (get_ r c)) as [v|]; [|discriminate].
    destruct (apply_column f c rows) as [rest|]; [|discriminate].
    injection H as <-. cbn [List.map].
    now rewrite (get_set_cell_other r c col v Hc), (IH rest eq_refl).
Qed.

Lemma unreadable_cells col rows rows' :
  List.map (fun row => get_ row col) rows' = List.map (fun row => get_ row col) rows ->
  unreadable col rows -> unreadable col rows'.
Proof.
  intros Hmap (row & d & Hin & Hd & Hf).
  assert (Hv : In (VStr d) (List.map (fun row => get_ row col) rows')).
  { rewrite Hmap, <- Hd. exact (List.in_map (fun r => get_ r col) rows row Hin). }
  apply List.in_map_iff in Hv as (row' & Hd' & Hin').
  exists row', d. repeat split; assumption.
Qed.

(** A turn of the loop on another column leaves the cells of [col]. *)
Lemma convert_column_other c col rows rows' :
  c <> col -> convert_column c rows = Some rows' ->
  List.map (fun row => get_ row col) rows' = List.map (fun row => get_ row col) rows.
Proof.
  intros Hc. unfold DataValidation.convert_column.
  destruct (if (c =? "dms_civiere") || (c =? "dms_ambulatoire")
            then apply_column dms_lambda c rows else Some rows) as [rows2|] eqn:H2;
    [|discriminate].
  intros [= <-]. rewrite List.map_map.
  transitivity (List.map (fun row => get_ row col) rows2).
  - apply List.map_ext. intros row. now apply get_set_cell_other.
  - destruct ((c =? "dms_civiere") || (c =? "dms_ambulatoire")).
    + exact (apply_column_other _ c col rows rows2 Hc H2).
    + now injection H2 as <-.
Qed.

Lemma convert_column_raises col rows :
  col = "dms_civiere" \/ col = "dms_ambulatoire" ->
  unreadable col rows -> convert_column col rows = None.
Proof.
  intros Hcol Hu. unfold DataValidation.convert_column.
  assert (E : (col =? "dms_civiere") || (col =? "dms_ambulatoire") = true).
  { destruct Hcol as [->| ->]; reflexivity. }
  rewrite E. now rewrite (apply_column_raises col rows Hu).
Qed.

(** The loop raises when a column of mean length of stay that it visits
    holds a text that [float] refuses. *)
Lemma convert_numeric_columns_raises col cols df :
  col = "dms_civiere" \/ col = "dms_ambulatoire" ->
  In col cols ->
  has_column df col = true ->
  unreadable col (rows df) ->
  convert_numeric_columns cols df = None.
Proof.
  intros Hcol. revert df. induction cols as [|c cols IH]; intros df Hin Hhas Hu;
    [destruct Hin|].
  cbn [DataValidation.convert_numeric_columns].
  destruct (String.eqb_spec c col) as [->|Hne].
  - rewrite Hhas. now rewrite (convert_column_raises col (rows df) Hcol Hu).
  - destruct Hin as [Heq|Hin]; [contradiction|].
    destruct (has_column df c); [|now apply IH].
    destruct (convert_column c (rows df)) as [rows'|] eqn:Hc; [|reflexivity].
    apply IH; [exact Hin|exact Hhas|].
    exact (unreadable_cells col (rows df) rows' (convert_column_other c col _ _ Hne Hc) Hu).
Qed.

End Feed.

(** C3, on the failing input.  Whenever the number of stretchers in service
    is not true (zero, or missing from the row), the writer of
    scripts/data_updater.py stores NULL as the occupancy rate.  For the row
    with no stretcher in service and three taken it stores NULL, where the
    writer of the scheduler stores zero. *)
Theorem occupancy_null_in_script :
  (forall row de now c,
      truthy (get_ row "civieres_fonctionnelles") = false ->
      option_map UrgencesEtatActuel.taux_occupation
        (ScriptUpdater.write_current_data row de now c) = Some VNone)
  /\ get_ Sample.row_0_3 "civieres_fonctionnelles" = VFloat 0
  /\ get_ Sample.row_0_3 "civieres_occupees" = VFloat 3
  /\ option_map UrgencesEtatActuel.taux_occupation
       (ScriptUpdater.write_current_data Sample.row_0_3 200 201 (UrgencesEtatActuel.new 1))
     = Some VNone
  /\ UrgencesEtatActuel.taux_occupation
       (fst (fst (Scheduler.write_current_data Instances.decimal_literal
                    Sample.row_0_3 200 201 (UrgencesEtatActuel.new 1))))
     = VFloat 0.
Proof.
  split; [exact script_occupancy_null|]. repeat split.
Qed.

(** C7, on the failing input.  The loop of [process_urgences_data] over the
    numeric columns raises on every feed with, in a column of mean length of
    stay, a text that [float] refuses once its commas are dots; this ends
    the cycle before any row is written.  It does so on the feed whose mean
    length of stay is [2:30] or [abc]; it goes through on [2,5].
    [_update_current_data], had it been given the same cells, would have read
    2.5 hours out of [2:30], and zero with a warning out of [abc]. *)
Theorem duration_ends_the_cycle :
  (forall to_numeric float_of_str col df,
      col = "dms_civiere" \/ col = "dms_ambulatoire" ->
      DataValidation.has_column df col = true ->
      unreadable float_of_str col (DataValidation.rows df) ->
      DataValidation.convert_numeric_columns to_numeric float_of_str
        DataValidation.numeric_columns df = None)
  /\ Instances.decimal_literal "2:30" = None
  /\ Instances.decimal_literal "abc" = None
  /\ DataValidation.convert_numeric_columns Instances.to_numeric Instances.decimal_literal
       DataValidation.numeric_columns (Sample.feed "2:30") = None
  /\ DataValidation.convert_numeric_columns Instances.to_numeric Instances.decimal_literal
       DataValidation.numeric_columns (Sample.feed "abc") = None
  /\ option_map
       (fun df => List.map (fun row => get_ row "dms_civiere") (DataValidation.rows df))
       (DataValidation.convert_numeric_columns Instances.to_numeric
          Instances.decimal_literal DataValidation.numeric_columns (Sample.feed "2,5"))
     = Some [VFloat 2.5]
  /\ coerce_dms Instances.decimal_literal Warning_dms_civiere (VStr "2:30")
     = (VFloat 2.5, [])
  /\ coerce_dms Instances.decimal_literal Warning_dms_civiere (VStr "abc")
     = (VFloat 0, [Warning_dms_civiere]).
Proof.
  split; [|repeat split].
  intros to_numeric float_of_str col df Hcol Hhas Hu.
  apply (convert_numeric_columns_raises to_numeric float_of_str col _ df Hcol);
    [|exact Hhas|exact Hu].
  destruct Hcol as [->| ->]; cbn [DataValidation.numeric_columns In]; tauto.
Qed.

End FieldCoercer.

(** ** The cycle: [_update_database] and the failure of one row *)

Module Cycle.

Import Runs Scheduler Spec.

Lemma rolled_back_rollback s0 s :
  committed s = committed s0 -> rolled_back s0 (rollback s).
Proof. intros H. unfold rolled_back, rollback. simpl. now rewrite H. Qed.

Lemma archive_committed s id :
  committed (archive_current_data s id) = committed s.
Proof. unfold archive_current_data. now destruct (current_data_of s id). Qed.

Section Rows.

Variable ftfy_fix_text : string -> string.
Variable float_of_str : string -> option PrimFloat.float.
Variable str_of_float : PrimFloat.float -> string.
Variable strftime_Ymd : Time -> string.
Variable accepts : DB -> bool.
Variable etablissements_info : list (string * Info).

Lemma script_find_committed now s row :
  committed (fst (ScriptUpdater.find_etablissement ftfy_fix_text accepts now s row))
  = committed s.
Proof.
  unfold ScriptUpdater.find_etablissement.
  destruct (ScriptUpdater.search _ _ _); [reflexivity|].
  unfold flush. now destruct (accepts _).
Qed.

(** A row of scripts/data_updater.py that raises leaves the session at the
    last commit. *)
Lemma script_row_raises de now s row :
  let found := ScriptUpdater.find_etablissement ftfy_fix_text accepts now s row in
  (snd found = None
   \/ exists e,
        snd found = Some e
        /\ ScriptUpdater.update_current_data
             (archive_current_data (fst found) (Etablissement.id e))
             (Etablissement.id e) row de now = None) ->
  rolled_back s (ScriptUpdater.process_row ftfy_fix_text accepts de now s row).
Proof.
  intros found H. unfold ScriptUpdater.process_row.
  pose proof (script_find_committed now s row) as Hc. fold found in Hc |- *.
  destruct found as [s1 [e|]]; simpl in H, Hc.
  - destruct H as [H|(e' & [= <-] & H)]; [discriminate|]. rewrite H.
    apply rolled_back_rollback. now rewrite archive_committed.
  - now apply rolled_back_rollback.
Qed.

(** A row of the scheduler whose facility the store refuses leaves the
    session at the last commit. *)
Lemma scheduler_row_refused de now s row :
  snd (Scheduler.find_etablissement ftfy_fix_text str_of_float strftime_Ymd accepts
         etablissements_info now s row) = None ->
  rolled_back s
    (fst (Scheduler.process_row ftfy_fix_text float_of_str str_of_float strftime_Ymd
            accepts etablissements_info de now s row)).
Proof.
  unfold Scheduler.process_row, Scheduler.find_etablissement.
  destruct (Scheduler.search _ _ _ _); [discriminate|].
  cbv zeta. unfold flush. destruct (accepts _); [discriminate|]. intros _.
  cbn [fst]. now apply rolled_back_rollback.
Qed.

End Rows.


End Cycle.

(** ** RecordValidator: [validate_numeric_range] *)

Module RecordValidator.

Import DataValidation Spec.

(** *** Comparisons of floats *)

Lemma SFcompare_antisym (a b : spec_float) :
  SFcompare b a = option_map CompOpp (SFcompare a b).
Proof.
  destruct a as [sa|sa| |sa ma ea], b as [sb|sb| |sb mb eb]; simpl;
    try reflexivity; try (destruct sa; reflexivity); try (destruct sb; reflexivity);
    try (destruct sa, sb; reflexivity).
  pose proof (BinInt.Z.compare_antisym ea eb) as He.
  pose proof (BinPos.Pos.compare_cont_antisym ma mb Eq) as Hm. simpl in Hm.
  destruct sa, sb; try reflexivity; rewrite He;
    destruct (BinInt.Z.compare ea eb); simpl; try reflexivity; rewrite <- Hm;
    now destruct (BinPos.Pos.compare_cont Eq ma mb).
Qed.

Lemma SFcompare_refl (a : spec_float) :
  SFcompare a a = match a with S754_nan => None | _ => Some Eq end.
Proof.
  destruct a as [sa|sa| |sa ma ea]; simpl; try reflexivity; try (now destruct sa).
  rewrite BinInt.Z.compare_refl, BinPos.Pos.compare_cont_refl. now destruct sa.
Qed.

Lemma is_nan_spec (x : PrimFloat.float) :
  PrimFloat.is_nan x = match Prim2SF x with S754_nan => true | _ => false end.
Proof.
  unfold PrimFloat.is_nan. rewrite eqb_spec. unfold SFeqb.
  rewrite SFcompare_refl. now destruct (Prim2SF x).
Qed.

(** For a bound that is a number, [x < bound] or [x] NaN is the negation of
    [bound <= x]. *)
Lemma below_or_nan (x bound : PrimFloat.float) :
  PrimFloat.is_nan bound = false ->
  PrimFloat.ltb x bound || PrimFloat.is_nan x = negb (PrimFloat.leb bound x).
Proof.
  rewrite !is_nan_spec, ltb_spec, leb_spec. unfold SFltb, SFleb.
  rewrite (SFcompare_antisym (Prim2SF x) (Prim2SF bound)).
  destruct (Prim2SF bound) as [sb|sb| |sb mb eb] eqn:Hb; try discriminate; intros _;
    destruct (Prim2SF x) as [sa|sa| |sa ma ea] eqn:Ha;
    try reflexivity;
    try (simpl; destruct sa; reflexivity);
    try (simpl; destruct sb; reflexivity);
    try (simpl; destruct sa, sb; reflexivity).
  simpl. destruct sa, sb; try reflexivity;
    destruct (BinInt.Z.compare ea eb); try reflexivity;
    now destruct (BinPos.Pos.compare_cont Eq ma mb).
Qed.

Lemma above_or_nan (x bound : PrimFloat.float) :
  PrimFloat.is_nan bound = false ->
  PrimFloat.ltb bound x || PrimFloat.is_nan x = negb (PrimFloat.leb x bound).
Proof.
  rewrite !is_nan_spec, ltb_spec, leb_spec. unfold SFltb, SFleb.
  rewrite (SFcompare_antisym (Prim2SF bound) (Prim2SF x)).
  destruct (Prim2SF bound) as [sb|sb| |sb mb eb] eqn:Hb; try discriminate; intros _;
    destruct (Prim2SF x) as [sa|sa| |sa ma ea] eqn:Ha;
    try reflexivity;
    try (simpl; destruct sa; reflexivity);
    try (simpl; destruct sb; reflexivity);
    try (simpl; destruct sa, sb; reflexivity).
  simpl. destruct sa, sb; try reflexivity;
    destruct (BinInt.Z.compare eb ea); try reflexivity;
    now destruct (BinPos.Pos.compare_cont Eq mb ma).
Qed.

Lemma invalid_within (min_val max_val x : PrimFloat.float) :
  PrimFloat.is_nan min_val = false ->
  PrimFloat.is_nan max_val = false ->
  invalid min_val max_val x = negb (within min_val max_val x).
Proof.
  intros Hmin Hmax. unfold invalid, within.
  rewrite negb_andb, <- (below_or_nan x min_val Hmin), <- (above_or_nan x max_val Hmax).
  destruct (PrimFloat.ltb x min_val), (PrimFloat.ltb max_val x), (PrimFloat.is_nan x);
    reflexivity.
Qed.

Section Facts.

Variable to_numeric : value -> PrimFloat.float.

Abbreviation validate_numeric_range := (DataValidation.validate_numeric_range to_numeric).
Abbreviation numeric_cell := (DataValidation.numeric_cell to_numeric).
Abbreviation converted := (DataValidation.converted to_numeric).


End Facts.

End RecordValidator.

(** ** NullBackfillJob: [fix_null_values] *)

Module NullBackfillJob.

Import Scheduler Spec.

Lemma or_else_present {A : Type} (x : option A) (y a : A) :
  x = Some a -> or_else x y = Some a.
Proof. now intros ->. Qed.

Lemma or_else_Some {A : Type} (x : option A) (y : A) : exists a, or_else x y = Some a.
Proof. destruct x as [a|]; [exists a|exists y]; reflexivity. Qed.

Lemma taux_occupation_of_not_None cf co t :
  taux_occupation_of cf co = Some t -> is_None t = false.
Proof.
  unfold taux_occupation_of, percent.
  destruct (truthy cf); [|now intros [= <-]].
  destruct (gt0 cf) as [[|]|]; try discriminate; [|now intros [= <-]].
  destruct (negb (is_None co)); [|now intros [= <-]].
  destruct co as [| a |]; try discriminate. destruct cf as [| b |]; try discriminate.
  destruct (PrimFloat.eqb b 0); [discriminate|now intros [= <-]].
Qed.

Lemma zero_if_None_not_None v : is_None (zero_if_None v) = false.
Proof. now destruct v. Qed.

Lemma zero_if_None_present v : is_None v = false -> zero_if_None v = v.
Proof. now destruct v. Qed.

(** *** The statements of scripts/fix_tables.py *)

Lemma case_null_or_empty_twice column param :
  FixTables.case_null_or_empty (FixTables.case_null_or_empty column param) param
  = FixTables.case_null_or_empty column param.
Proof.
  unfold FixTables.case_null_or_empty.
  destruct (FixTables.null_or_empty column) eqn:H; [|now rewrite H].
  cbn [FixTables.null_or_empty]. now destruct (param =? "").
Qed.

Lemma case_null_twice column param :
  FixTables.case_null (FixTables.case_null column param) param
  = FixTables.case_null column param.
Proof. now destruct column. Qed.

(** A facility the script has updated is updated by a later run to what
    that run gives on the facility as it first was. *)
Lemma script_fix_etablissement_twice info now now' e :
  FixTables.fix_etablissement info now' (FixTables.fix_etablissement info now e)
  = FixTables.fix_etablissement info now' e.
Proof.
  unfold FixTables.fix_etablissement.
  cbn [Etablissement.id Etablissement.source_id Etablissement.no_permis_installation
       Etablissement.nom_etablissement Etablissement.nom_etablissement_normalise
       Etablissement.nom_installation Etablissement.nom_installation_normalise
       Etablissement.type Etablissement.adresse Etablissement.code_postal
       Etablissement.ville Etablissement.province Etablissement.region_id
       Etablissement.point_geo].
  rewrite !case_null_or_empty_twice, case_null_twice.
  f_equal.
  destruct (FixTables.point_of _); [|reflexivity].
  now destruct (Etablissement.point_geo e).
Qed.

Lemma script_fix_etablissement_but_date_maj info now now' e :
  but_date_maj (FixTables.fix_etablissement info now' e)
  = but_date_maj (FixTables.fix_etablissement info now e).
Proof. reflexivity. Qed.

Lemma script_taux_not_None u t :
  FixTables.taux_occupation_of u = Some t -> is_None t = false.
Proof.
  unfold FixTables.taux_occupation_of, percent.
  destruct (truthy _); [|now intros [= <-]].
  destruct (gt0 _) as [[|]|]; try discriminate; [|now intros [= <-]].
  destruct (negb _); [|now intros [= <-]].
  destruct (FixTables.or_0 (UrgencesEtatActuel.civieres_occupees u)) as [| a |];
    try discriminate.
  destruct (FixTables.or_0 (UrgencesEtatActuel.civieres_fonctionnelles u)) as [| b |];
    try discriminate.
  destruct (PrimFloat.eqb b 0); [discriminate|now intros [= <-]].
Qed.

Lemma coalesce_not_None column param :
  is_None param = false -> is_None (FixTables.coalesce column param) = false.
Proof. unfold FixTables.coalesce. now destruct column. Qed.

Lemma coalesce_present column param :
  is_None column = false -> FixTables.coalesce column param = column.
Proof. unfold FixTables.coalesce. now intros ->. Qed.

Lemma script_fix_urgence_filled now u u' :
  FixTables.fix_urgence now u = Some u' -> urgence_avec_null u' = false.
Proof.
  unfold FixTables.fix_urgence.
  destruct (FixTables.taux_occupation_of u) as [t|] eqn:Ht; [|discriminate].
  intros [= <-]. unfold urgence_avec_null.
  cbn [UrgencesEtatActuel.dms_civiere UrgencesEtatActuel.dms_ambulatoire
       UrgencesEtatActuel.total_patients UrgencesEtatActuel.patients_en_attente
       UrgencesEtatActuel.taux_occupation].
  rewrite !coalesce_not_None; try reflexivity.
  exact (script_taux_not_None u t Ht).
Qed.

Lemma script_fix_urgences_filled now table table' :
  FixTables.fix_urgences now table = Some table' ->
  List.forallb (fun u => negb (urgence_avec_null u)) table' = true.
Proof.
  revert table'. induction table as [|u table IH]; intros table' H.
  - injection H as <-. reflexivity.
  - cbn [FixTables.fix_urgences] in H.
    destruct (urgence_avec_null u) eqn:Hu.
    + destruct (FixTables.fix_urgence now u) as [u'|] eqn:Hf; [|discriminate].
      destruct (FixTables.fix_urgences now table) as [rest|]; [|discriminate].
      injection H as <-. cbn [List.forallb].
      now rewrite (script_fix_urgence_filled now u u' Hf), (IH rest eq_refl).
    + destruct (FixTables.fix_urgences now table) as [rest|]; [|discriminate].
      injection H as <-. cbn [List.forallb].
      now rewrite Hu, (IH rest eq_refl).
Qed.

Lemma script_fix_urgences_unselected now table :
  List.forallb (fun u => negb (urgence_avec_null u)) table = true ->
  FixTables.fix_urgences now table = Some table.
Proof.
  induction table as [|u table IH]; [reflexivity|].
  cbn [List.forallb FixTables.fix_urgences]. intros H.
  apply andb_true_iff in H as [Hu Ht]. apply negb_true_iff in Hu.
  now rewrite Hu, (IH Ht).
Qed.

Lemma script_fix_urgences_keeps now table table' u :
  FixTables.fix_urgences now table = Some table' ->
  In u table -> urgence_avec_null u = false -> In u table'.
Proof.
  revert table'. induction table as [|x table IH]; intros table' H Hin Hu; [destruct Hin|].
  cbn [FixTables.fix_urgences] in H.
  destruct (if urgence_avec_null x then FixTables.fix_urgence now x else Some x)
    as [x'|] eqn:Hx; [|discriminate].
  destruct (FixTables.fix_urgences now table) as [rest|]; [|discriminate].
  injection H as <-. destruct Hin as [<-|Hin].
  - rewrite Hu in Hx. injection Hx as <-. now left.
  - right. now apply IH.
Qed.

(** On the facilities, a second pass of the first loop changes nothing but
    dates of last update. *)
Lemma script_etablissements_twice info now now' table :
  let pass := fun t (e : Etablissement.t) =>
    if FixTables.etablissement_a_corriger e
    then FixTables.fix_etablissement info t e else e in
  List.map but_date_maj (List.map (pass now') (List.map (pass now) table))
  = List.map but_date_maj (List.map (pass now) table).
Proof.
  intros pass. rewrite !List.map_map. apply List.map_ext. intros e. unfold pass.
  destruct (FixTables.etablissement_a_corriger e) eqn:He.
  - destruct (FixTables.etablissement_a_corriger (FixTables.fix_etablissement info now e));
      [|reflexivity].
    rewrite script_fix_etablissement_twice.
    apply script_fix_etablissement_but_date_maj.
  - now rewrite He.
Qed.

(** A run of the script that changed the store is followed by a run that
    changes nothing but dates of last update. *)
Lemma script_second_run accepts info now now' db :
  let db1 := FixTables.fix_null_values_in_tables accepts info now db in
  db1 = db
  \/ same_but_date_maj (FixTables.fix_null_values_in_tables accepts info now' db1) db1.
Proof.
  intros db1. unfold db1, FixTables.fix_null_values_in_tables.
  destruct (FixTables.backfill info now db) as [d|] eqn:Hb; [|now left].
  destruct (accepts d); [right|now left].
  unfold FixTables.backfill in Hb.
  destruct (FixTables.fix_urgences now (urgences_etat_actuel db)) as [us|] eqn:Hu;
    [|discriminate].
  injection Hb as <-.
  unfold FixTables.backfill. cbn [etablissements regions urgences_etat_actuel
                                  urgences_historique].
  rewrite (script_fix_urgences_unselected now' us (script_fix_urgences_filled _ _ _ Hu)).
  destruct (accepts _); unfold same_but_date_maj;
    cbn [etablissements regions urgences_etat_actuel urgences_historique];
    repeat split.
  apply script_etablissements_twice.
Qed.

(** *** [fix_null_values] of the scheduler *)

Section Facts.

Variable strftime_Ymd : Time -> string.
Variable accepts : DB -> bool.
Variable etablissements_info : list (string * Info).

Abbreviation fix_etablissement :=
  (Scheduler.fix_etablissement strftime_Ymd etablissements_info).
Abbreviation backfill := (Scheduler.backfill strftime_Ymd etablissements_info).
Abbreviation fix_null_values :=
  (Scheduler.fix_null_values strftime_Ymd accepts etablissements_info).

(** After the first loop a facility has none of the four NULLs. *)
Lemma fix_etablissement_filled now e :
  etablissement_avec_null (fix_etablissement now e) = false.
Proof.
  unfold etablissement_avec_null, Scheduler.fix_etablissement.
  cbn [Etablissement.adresse Etablissement.ville Etablissement.type Etablissement.source_id].
  destruct (or_else_Some (Etablissement.adresse e)
              (info_adresse (get_etablissement_info strftime_Ymd etablissements_info now
                 match Etablissement.nom_installation_normalise e with
                 | Some n => n | None => "" end
                 (Etablissement.nom_etablissement_normalise e)))) as [a ->].
  destruct (or_else_Some (Etablissement.ville e)
              (info_ville (get_etablissement_info strftime_Ymd etablissements_info now
                 match Etablissement.nom_installation_normalise e with
                 | Some n => n | None => "" end
                 (Etablissement.nom_etablissement_normalise e)))) as [v ->].
  destruct (or_else_Some (Etablissement.type e)
              (info_type (get_etablissement_info strftime_Ymd etablissements_info now
                 match Etablissement.nom_installation_normalise e with
                 | Some n => n | None => "" end
                 (Etablissement.nom_etablissement_normalise e)))) as [t ->].
  destruct (or_else_Some (Etablissement.source_id e)
              (info_source_id (get_etablissement_info strftime_Ymd etablissements_info now
                 match Etablissement.nom_installation_normalise e with
                 | Some n => n | None => "" end
                 (Etablissement.nom_etablissement_normalise e)))) as [i ->].
  reflexivity.
Qed.

(** After the second loop a current state has none of the five NULLs. *)
Lemma fix_urgence_filled now u u' :
  fix_urgence now u = Some u' -> urgence_avec_null u' = false.
Proof.
  unfold fix_urgence.
  cbn [UrgencesEtatActuel.taux_occupation UrgencesEtatActuel.civieres_fonctionnelles
       UrgencesEtatActuel.civieres_occupees UrgencesEtatActuel.set_dms_civiere
       UrgencesEtatActuel.set_dms_ambulatoire UrgencesEtatActuel.set_total_patients
       UrgencesEtatActuel.set_patients_en_attente].
  destruct (is_None (UrgencesEtatActuel.taux_occupation u)) eqn:Ht.
  - destruct (taux_occupation_of _ _) as [t|] eqn:Hocc; [|discriminate].
    intros [= <-]. unfold urgence_avec_null. simpl.
    rewrite !zero_if_None_not_None, (taux_occupation_of_not_None _ _ _ Hocc). reflexivity.
  - intros [= <-]. unfold urgence_avec_null. simpl.
    rewrite !zero_if_None_not_None, Ht. reflexivity.
Qed.

Lemma fix_urgences_filled now table table' :
  fix_urgences now table = Some table' ->
  List.forallb (fun u => negb (urgence_avec_null u)) table' = true.
Proof.
  revert table'. induction table as [|u table IH]; intros table'; simpl.
  - now intros [= <-].
  - destruct (urgence_avec_null u) eqn:Hu.
    + destruct (fix_urgence now u) as [u'|] eqn:Hf; [|discriminate].
      destruct (fix_urgences now table) as [rest|]; [|discriminate].
      intros [= <-]. simpl. now rewrite (fix_urgence_filled now u u' Hf), (IH rest).
    + destruct (fix_urgences now table) as [rest|]; [|discriminate].
      intros [= <-]. simpl. now rewrite Hu, (IH rest).
Qed.

Lemma fix_urgences_nothing_selected now table :
  List.forallb (fun u => negb (urgence_avec_null u)) table = true ->
  fix_urgences now table = Some table.
Proof.
  induction table as [|u table IH]; simpl; [reflexivity|].
  rewrite andb_true_iff, negb_true_iff. intros [-> Ht]. now rewrite (IH Ht).
Qed.

Lemma map_nothing_selected now (table : list Etablissement.t) :
  List.forallb (fun e => negb (etablissement_avec_null e)) table = true ->
  List.map (fun e => if etablissement_avec_null e then fix_etablissement now e else e) table
  = table.
Proof.
  induction table as [|e table IH]; simpl; [reflexivity|].
  rewrite andb_true_iff, negb_true_iff. intros [-> Ht]. now rewrite (IH Ht).
Qed.

Lemma backfill_nothing_selected now db db' :
  backfill now db = Some db' -> nothing_selected db'.
Proof.
  unfold Scheduler.backfill.
  destruct (fix_urgences now (urgences_etat_actuel db)) as [u|] eqn:Hu; [|discriminate].
  intros [= <-]. split; simpl.
  - induction (etablissements db) as [|e table IH]; simpl; [reflexivity|].
    rewrite IH, andb_true_r.
    destruct (etablissement_avec_null e) eqn:He.
    + now rewrite fix_etablissement_filled.
    + now rewrite He.
  - exact (fix_urgences_filled now _ _ Hu).
Qed.

Lemma backfill_fixpoint now db : nothing_selected db -> backfill now db = Some db.
Proof.
  intros [He Hu]. unfold Scheduler.backfill.
  rewrite (fix_urgences_nothing_selected now _ Hu), (map_nothing_selected now _ He).
  now destruct db.
Qed.

(** On a fresh session whose tables have nothing selected, a run changes
    nothing, whatever the store answers. *)
Lemma fix_null_values_nothing_selected s now :
  fresh s -> nothing_selected (persistent s) -> fix_null_values s now = s.
Proof.
  intros (Hp & He & Ha & Hh) Hsel. unfold Scheduler.fix_null_values.
  rewrite (backfill_fixpoint now _ Hsel).
  destruct s as [com per ne na nh seq]. simpl in *. subst.
  unfold commit, flush, with_persistent, flushed, rollback. simpl.
  rewrite !app_nil_r.
  destruct com as [et re ur hi]. simpl.
  destruct (accepts _); reflexivity.
Qed.

Lemma fresh_rollback s : fresh s -> rollback s = s.
Proof.
  intros (Hp & He & Ha & Hh). destruct s as [com per ne na nh seq].
  simpl in *. now subst.
Qed.

Lemma fix_urgences_unselected now table table' u :
  fix_urgences now table = Some table' ->
  In u table -> urgence_avec_null u = false -> In u table'.
Proof.
  revert table'. induction table as [|x table IH]; intros table' H Hin Hu; [destruct Hin|].
  cbn [fix_urgences] in H.
  destruct (if urgence_avec_null x then fix_urgence now x else Some x) as [x'|] eqn:Hx;
    [|discriminate].
  destruct (fix_urgences now table) as [rest|]; [|discriminate].
  injection H as <-. destruct Hin as [<-|Hin].
  - rewrite Hu in Hx. injection Hx as <-. now left.
  - right. now apply IH.
Qed.

(** A run on a fresh session commits nothing, or leaves a fresh session
    with nothing selected. *)
Lemma fix_null_values_result s now :
  fresh s ->
  fix_null_values s now = s
  \/ (fresh (fix_null_values s now)
      /\ nothing_selected (persistent (fix_null_values s now))).
Proof.
  intros Hfresh. unfold Scheduler.fix_null_values.
  destruct (backfill now (persistent s)) as [db'|] eqn:Hb;
    [|left; now apply fresh_rollback].
  pose proof (backfill_nothing_selected now _ _ Hb) as Hsel.
  destruct Hfresh as (Hp & He & Ha & Hh).
  destruct s as [com per ne na nh seq]. simpl in *. subst.
  unfold commit, flush, with_persistent, flushed. simpl. rewrite !app_nil_r.
  destruct db' as [et re ur hi]. simpl.
  destruct (accepts _); simpl; [right|left; reflexivity].
  split; [repeat split|exact Hsel].
Qed.

(** C9, amended.  On a selected facility the first loop of [fix_null_values]
    keeps every present value of [adresse], [ville], [type], [code_postal],
    [source_id] and [point_geo], the empty text included; it replaces a
    province that is a key of [PROVINCE_MAPPING] by its standard name and a
    NULL province by the default; it stamps [date_maj] and touches no other
    field.  On a selected current state the second loop keeps every present
    value of the five fields it fills and touches nothing else but
    [date_maj].  The rows that are not selected are left as they are.  On a
    fresh session a run either commits nothing, or is followed by a run that
    changes nothing.
    The statements of scripts/fix_tables.py keep, on a selected facility,
    every value of [adresse], [ville], [type] and [province] that is neither
    NULL nor empty, and every present value of [code_postal] and
    [point_geo]; they stamp [date_maj] and touch no other field.  On a
    selected current state they keep every present value of the five fields,
    stamp [date_maj] and set [statut_validation].  The rows that are not
    selected are left as they are.  A run either leaves the store as it was,
    or is followed by a run that changes nothing but dates of last update of
    facilities. *)
Theorem backfill_fills_nulls_only :
  (forall now e,
      let e' := fix_etablissement now e in
      (forall x, Etablissement.adresse e = Some x -> Etablissement.adresse e' = Some x)
      /\ (forall x, Etablissement.ville e = Some x -> Etablissement.ville e' = Some x)
      /\ (forall x, Etablissement.type e = Some x -> Etablissement.type e' = Some x)
      /\ (forall x, Etablissement.code_postal e = Some x ->
                    Etablissement.code_postal e' = Some x)
      /\ (forall x, Etablissement.source_id e = Some x ->
                    Etablissement.source_id e' = Some x)
      /\ (forall x, Etablissement.point_geo e = Some x ->
                    Etablissement.point_geo e' = Some x)
      /\ (forall p, Etablissement.province e = Some p ->
                    Etablissement.province e'
                    = Some (match dict_get PROVINCE_MAPPING p with
                            | Some standard => standard
                            | None => p
                            end))
      /\ (Etablissement.province e = None -> Etablissement.province e' = Some Quebec)
      /\ Etablissement.date_maj e' = now
      /\ Etablissement.id e' = Etablissement.id e
      /\ Etablissement.no_permis_installation e' = Etablissement.no_permis_installation e
      /\ Etablissement.nom_etablissement e' = Etablissement.nom_etablissement e
      /\ Etablissement.nom_etablissement_normalise e'
         = Etablissement.nom_etablissement_normalise e
      /\ Etablissement.nom_installation e' = Etablissement.nom_installation e
      /\ Etablissement.nom_installation_normalise e'
         = Etablissement.nom_installation_normalise e
      /\ Etablissement.region_id e' = Etablissement.region_id e)
  /\ (forall now u u',
        fix_urgence now u = Some u' ->
        (is_None (UrgencesEtatActuel.dms_civiere u) = false ->
         UrgencesEtatActuel.dms_civiere u' = UrgencesEtatActuel.dms_civiere u)
        /\ (is_None (UrgencesEtatActuel.dms_ambulatoire u) = false ->
            UrgencesEtatActuel.dms_ambulatoire u' = UrgencesEtatActuel.dms_ambulatoire u)
        /\ (is_None (UrgencesEtatActuel.total_patients u) = false ->
            UrgencesEtatActuel.total_patients u' = UrgencesEtatActuel.total_patients u)
        /\ (is_None (UrgencesEtatActuel.patients_en_attente u) = false ->
            UrgencesEtatActuel.patients_en_attente u'
            = UrgencesEtatActuel.patients_en_attente u)
        /\ (is_None (UrgencesEtatActuel.taux_occupation u) = false ->
            UrgencesEtatActuel.taux_occupation u' = UrgencesEtatActuel.taux_occupation u)
        /\ UrgencesEtatActuel.date_maj u' = Some now
        /\ UrgencesEtatActuel.etablissement_id u' = UrgencesEtatActuel.etablissement_id u
        /\ UrgencesEtatActuel.civieres_fonctionnelles u'
           = UrgencesEtatActuel.civieres_fonctionnelles u
        /\ UrgencesEtatActuel.civieres_occupees u' = UrgencesEtatActuel.civieres_occupees u
        /\ UrgencesEtatActuel.patients_24h u' = UrgencesEtatActuel.patients_24h u
        /\ UrgencesEtatActuel.patients_48h u' = UrgencesEtatActuel.patients_48h u
        /\ UrgencesEtatActuel.date_extraction u' = UrgencesEtatActuel.date_extraction u
        /\ UrgencesEtatActuel.statut_validation u' = UrgencesEtatActuel.statut_validation u)
  /\ (forall now db db',
        backfill now db = Some db' ->
        (forall e, In e (etablissements db) -> etablissement_avec_null e = false ->
                   In e (etablissements db'))
        /\ (forall u, In u (urgences_etat_actuel db) -> urgence_avec_null u = false ->
                      In u (urgences_etat_actuel db'))
        /\ regions db' = regions db
        /\ urgences_historique db' = urgences_historique db)
  /\ (forall s now now',
        fresh s ->
        fix_null_values s now = s
        \/ fix_null_values (fix_null_values s now) now' = fix_null_values s now)
  /\ (forall catalog now e,
        let e' := FixTables.fix_etablissement catalog now e in
        (forall x, Etablissement.adresse e = Some x -> x <> "" ->
                   Etablissement.adresse e' = Some x)
        /\ (forall x, Etablissement.ville e = Some x -> x <> "" ->
                      Etablissement.ville e' = Some x)
        /\ (forall x, Etablissement.type e = Some x -> x <> "" ->
                      Etablissement.type e' = Some x)
        /\ (forall x, Etablissement.province e = Some x -> x <> "" ->
                      Etablissement.province e' = Some x)
        /\ (forall x, Etablissement.code_postal e = Some x ->
                      Etablissement.code_postal e' = Some x)
        /\ (forall x, Etablissement.point_geo e = Some x ->
                      Etablissement.point_geo e' = Some x)
        /\ Etablissement.date_maj e' = now
        /\ Etablissement.id e' = Etablissement.id e
        /\ Etablissement.source_id e' = Etablissement.source_id e
        /\ Etablissement.no_permis_installation e'
           = Etablissement.no_permis_installation e
        /\ Etablissement.nom_etablissement e' = Etablissement.nom_etablissement e
        /\ Etablissement.nom_etablissement_normalise e'
           = Etablissement.nom_etablissement_normalise e
        /\ Etablissement.nom_installation e' = Etablissement.nom_installation e
        /\ Etablissement.nom_installation_normalise e'
           = Etablissement.nom_installation_normalise e
        /\ Etablissement.region_id e' = Etablissement.region_id e)
  /\ (forall now u u',
        FixTables.fix_urgence now u = Some u' ->
        (is_None (UrgencesEtatActuel.dms_civiere u) = false ->
         UrgencesEtatActuel.dms_civiere u' = UrgencesEtatActuel.dms_civiere u)
        /\ (is_None (UrgencesEtatActuel.dms_ambulatoire u) = false ->
            UrgencesEtatActuel.dms_ambulatoire u' = UrgencesEtatActuel.dms_ambulatoire u)
        /\ (is_None (UrgencesEtatActuel.total_patients u) = false ->
            UrgencesEtatActuel.total_patients u' = UrgencesEtatActuel.total_patients u)
        /\ (is_None (UrgencesEtatActuel.patients_en_attente u) = false ->
            UrgencesEtatActuel.patients_en_attente u'
            = UrgencesEtatActuel.patients_en_attente u)
        /\ (is_None (UrgencesEtatActuel.taux_occupation u) = false ->
            UrgencesEtatActuel.taux_occupation u' = UrgencesEtatActuel.taux_occupation u)
        /\ UrgencesEtatActuel.date_maj u' = Some now
        /\ UrgencesEtatActuel.statut_validation u' = Some valide
        /\ UrgencesEtatActuel.etablissement_id u' = UrgencesEtatActuel.etablissement_id u
        /\ UrgencesEtatActuel.civieres_fonctionnelles u'
           = UrgencesEtatActuel.civieres_fonctionnelles u
        /\ UrgencesEtatActuel.civieres_occupees u' = UrgencesEtatActuel.civieres_occupees u
        /\ UrgencesEtatActuel.patients_24h u' = UrgencesEtatActuel.patients_24h u
        /\ UrgencesEtatActuel.patients_48h u' = UrgencesEtatActuel.patients_48h u
        /\ UrgencesEtatActuel.date_extraction u' = UrgencesEtatActuel.date_extraction u)
  /\ (forall catalog now db db',
        FixTables.backfill catalog now db = Some db' ->
        (forall e, In e (etablissements db) ->
                   FixTables.etablissement_a_corriger e = false ->
                   In e (etablissements db'))
        /\ (forall u, In u (urgences_etat_actuel db) -> urgence_avec_null u = false ->
                      In u (urgences_etat_actuel db'))
        /\ regions db' = regions db
        /\ urgences_historique db' = urgences_historique db)
  /\ (forall store_accepts catalog now now' db,
        let db1 := FixTables.fix_null_values_in_tables store_accepts catalog now db in
        db1 = db
        \/ same_but_date_maj
             (FixTables.fix_null_values_in_tables store_accepts catalog now' db1) db1).
Proof.
  split; [|split; [|split; [|split; [|split; [|split; [|split]]]]]].
  - intros now e e'. unfold e', Scheduler.fix_etablissement.
    cbn [Etablissement.adresse Etablissement.ville Etablissement.type
         Etablissement.code_postal Etablissement.source_id Etablissement.point_geo
         Etablissement.province Etablissement.id Etablissement.no_permis_installation
         Etablissement.nom_etablissement Etablissement.nom_etablissement_normalise
         Etablissement.nom_installation Etablissement.nom_installation_normalise
         Etablissement.region_id Etablissement.date_maj].
    repeat split; try (intros x ->; reflexivity).
    + intros p ->. cbn [or_else]. now destruct (dict_get PROVINCE_MAPPING p).
    + intros ->. reflexivity.
  - intros now u u'. unfold fix_urgence.
    cbn [UrgencesEtatActuel.taux_occupation UrgencesEtatActuel.civieres_fonctionnelles
         UrgencesEtatActuel.civieres_occupees UrgencesEtatActuel.set_dms_civiere
         UrgencesEtatActuel.set_dms_ambulatoire UrgencesEtatActuel.set_total_patients
         UrgencesEtatActuel.set_patients_en_attente].
    destruct (is_None (UrgencesEtatActuel.taux_occupation u)) eqn:Ht.
    + destruct (taux_occupation_of _ _) as [t|]; [|discriminate].
      intros [= <-]. simpl.
      repeat split; try (intros H; now rewrite (zero_if_None_present _ H)).
      discriminate.
    + intros [= <-]. simpl.
      repeat split; try (intros H; now rewrite (zero_if_None_present _ H)).
  - intros now db db'. unfold Scheduler.backfill.
    destruct (fix_urgences now (urgences_etat_actuel db)) as [us|] eqn:Hu; [|discriminate].
    intros [= <-]. simpl. repeat split.
    + intros e Hin He. apply List.in_map_iff. exists e. now rewrite He.
    + intros u Hin Hn. exact (fix_urgences_unselected now _ _ u Hu Hin Hn).
  - intros s now now' Hfresh.
    destruct (fix_null_values_result s now Hfresh) as [H|[Hf Hsel]]; [left; exact H|].
    right. now apply fix_null_values_nothing_selected.
  - intros catalog now e e'. unfold e', FixTables.fix_etablissement.
    cbn [Etablissement.adresse Etablissement.ville Etablissement.type
         Etablissement.code_postal Etablissement.source_id Etablissement.point_geo
         Etablissement.province Etablissement.id Etablissement.no_permis_installation
         Etablissement.nom_etablissement Etablissement.nom_etablissement_normalise
         Etablissement.nom_installation Etablissement.nom_installation_normalise
         Etablissement.region_id Etablissement.date_maj].
    repeat split;
      try (intros x -> Hx; unfold FixTables.case_null_or_empty;
           cbn [FixTables.null_or_empty];
           now rewrite (proj2 (String.eqb_neq x "") Hx)).
    + intros x ->. reflexivity.
    + intros x ->. now destruct (FixTables.point_of _).
  - intros now u u'. unfold FixTables.fix_urgence.
    destruct (FixTables.taux_occupation_of u) as [t|]; [|discriminate].
    intros [= <-]. simpl.
    repeat split; intros H; now rewrite (coalesce_present _ _ H).
  - intros catalog now db db'. unfold FixTables.backfill.
    destruct (FixTables.fix_urgences now (urgences_etat_actuel db)) as [us|] eqn:Hu;
      [|discriminate].
    intros [= <-]. simpl. repeat split.
    + intros e Hin He. apply List.in_map_iff. exists e. now rewrite He.
    + intros u Hin Hn. exact (script_fix_urgences_keeps now _ _ u Hu Hin Hn).
  - intros store_accepts catalog now now' db. apply script_second_run.
Qed.

End Facts.

End NullBackfillJob.

(** ** The keys of [normalize_text] *)

Module KeyLaws.

Import EncodingUtils Spec.

Lemma base_char_class (c : ascii) :
  isspace (base_char c) = isspace c /\ re_word (base_char c) = re_word c.
Proof. destruct c as [[] [] [] [] [] [] [] []]; vm_compute; split; reflexivity. Qed.

Lemma base_char_space : base_char " " = " "%char.
Proof. reflexivity. Qed.

Lemma sub_special_strip_marks (s : string) :
  sub_special (strip_marks s) = strip_marks (sub_special s).
Proof.
  induction s as [|c s IH]; [reflexivity|].
  cbn [strip_marks sub_special]. rewrite IH.
  destruct (base_char_class c) as [Hs Hw]. rewrite Hs, Hw.
  destruct (re_word c || isspace c); [reflexivity|].
  now rewrite base_char_space.
Qed.

Lemma sub_spaces_strip_marks (b : bool) (s : string) :
  sub_spaces b (strip_marks s) = strip_marks (sub_spaces b s).
Proof.
  revert b. induction s as [|c s IH]; intros b; [reflexivity|].
  cbn [strip_marks sub_spaces].
  destruct (base_char_class c) as [Hs _]. rewrite Hs.
  destruct (isspace c); [destruct b|]; cbn [strip_marks]; now rewrite ?IH.
Qed.

Lemma lstrip_strip_marks (s : string) :
  lstrip (strip_marks s) = strip_marks (lstrip s).
Proof.
  induction s as [|c s IH]; [reflexivity|].
  cbn [strip_marks lstrip].
  destruct (base_char_class c) as [Hs _]. rewrite Hs.
  now destruct (isspace c).
Qed.

Lemma rstrip_strip_marks (s : string) :
  rstrip (strip_marks s) = strip_marks (rstrip s).
Proof.
  induction s as [|c s IH]; [reflexivity|].
  cbn [strip_marks rstrip]. rewrite IH.
  destruct (base_char_class c) as [Hs _].
  destruct (rstrip s) as [|d r]; cbn [strip_marks].
  - rewrite Hs. now destruct (isspace c).
  - reflexivity.
Qed.

Lemma normalize_text_strip_marks fix_text text :
  normalize_text fix_text text true
  = strip_marks (normalize_text fix_text text false).
Proof.
  destruct text as [| |s]; try reflexivity.
  unfold normalize_text, strip.
  now rewrite sub_special_strip_marks, sub_spaces_strip_marks,
    lstrip_strip_marks, rstrip_strip_marks.
Qed.


(** Whatever the text, the repair and the flag, a key is in lower case, is
    made of word characters and single spaces, has no space at either end
    and, when the accents are removed, no accented letter. *)
Theorem key_normal_form fix_text text remove_accents :
  let key := normalize_text fix_text text remove_accents in
  all key_char key = true
  /\ all lowered key = true
  /\ (remove_accents = true -> all unmarked key = true)
  /\ no_double_space true key = true
  /\ strip key = key.
Proof.
  intros key.
  destruct (TextNormalizer.normalize_text_normalized fix_text text remove_accents)
    as (Hk & Hl & Hm & Hd & Hr).
  fold key in Hk, Hl, Hm, Hd, Hr.
  repeat split; try assumption.
  unfold strip. now rewrite (TextNormalizer.lstrip_no_leading_space key Hd).
Qed.

(** A text that is in this form and that the repair leaves alone is its own
    key: in particular the key of a key is the key. *)
Theorem key_of_key fix_text text remove_accents :
  let key := normalize_text fix_text text remove_accents in
  fix_text key = key ->
  normalize_text fix_text (VStr key) remove_accents = key
  /\ normalize_text fix_text (VStr key) true = strip_marks key.
Proof.
  intros key Hfix.
  assert (H : normalize_text fix_text (VStr key) remove_accents = key)
    by exact (TextNormalizer.normalize_text_idempotent fix_text text remove_accents Hfix).
  split; [exact H|].
  destruct remove_accents.
  - rewrite H. symmetry. apply TextNormalizer.strip_marks_unmarked.
    apply (TextNormalizer.normalize_text_normalized fix_text text true). reflexivity.
  - now rewrite normalize_text_strip_marks, H.
Qed.

End KeyLaws.

(** ** [clean_dataframe] *)

Module FrameCleaning.

Import DataValidation EncodingFrames Notions.

Lemma get_set_cell_same row c v : get_ (set_cell row c v) c = v.
Proof. unfold get_, get, set_cell. now rewrite String.eqb_refl. Qed.

Lemma get_set_cell_diff row c key v :
  key <> c -> get_ (set_cell row c v) key = get_ row key.
Proof.
  intros H. unfold get_, get, set_cell.
  destruct (String.eqb_spec key c); [contradiction|reflexivity].
Qed.

Lemma set_cell_diff row c key v : key <> c -> set_cell row c v key = row key.
Proof.
  intros H. unfold set_cell.
  destruct (String.eqb_spec key c); [contradiction|reflexivity].
Qed.

Lemma has_column_with_column columns label c :
  List.existsb (fun x => x =? c) (with_column columns label)
  = List.existsb (fun x => x =? c) columns || (label =? c).
Proof.
  unfold with_column.
  destruct (List.existsb (fun x => x =? label) columns) eqn:E.
  - destruct (String.eqb_spec label c) as [->|]; [now rewrite E|now rewrite orb_false_r].
  - rewrite List.existsb_app. cbn [List.existsb]. now rewrite orb_false_r.
Qed.

Lemma not_suffixed (col : string) : col ++ "_normalise" <> col.
Proof.
  induction col as [|c col IH]; [discriminate|].
  intros H. injection H as H. exact (IH H).
Qed.

Section WithFtfy.

Variable ftfy_fix_text : string -> string.

Abbreviation fix_text_encoding := (EncodingUtils.fix_text_encoding ftfy_fix_text).
Abbreviation clean_column := (EncodingFrames.clean_column ftfy_fix_text).
Abbreviation clean_dataframe := (EncodingFrames.clean_dataframe ftfy_fix_text).

(** What one turn writes under the column it cleans is no missing value,
    and is a str when the cell was one. *)
Lemma cleaned_not_na v : Scheduler.isna (fix_text_encoding (fillna_empty v)) = false.
Proof.
  unfold fillna_empty. destruct (Scheduler.isna v) eqn:H; [reflexivity|].
  destruct v; [discriminate|exact H|reflexivity].
Qed.

Lemma cleaned_str v : is_str v = true -> is_str (fix_text_encoding (fillna_empty v)) = true.
Proof. destruct v; try discriminate. reflexivity. Qed.

(** The cell of a row under [key], after one turn on [col]. *)
Lemma clean_column_cell df col row :
  has_column df col = true -> In row (rows (clean_column df col)) ->
  exists old,
    In old (rows df)
    /\ get_ row col = fix_text_encoding (fillna_empty (get_ old col))
    /\ is_str (get_ row (col ++ "_normalise")) = true
    /\ forall key, key <> col -> key <> col ++ "_normalise" -> row key = old key.
Proof.
  intros Hcol. unfold EncodingFrames.clean_column. rewrite Hcol. cbn [rows].
  intros Hin. apply List.in_map_iff in Hin as (old & <- & Hin).
  exists old. split; [exact Hin|]. split; [|split].
  - rewrite get_set_cell_diff by (intros E; symmetry in E; now apply not_suffixed in E).
    now rewrite !get_set_cell_same.
  - now rewrite get_set_cell_same.
  - intros key H1 H2. now rewrite !set_cell_diff.
Qed.

Lemma clean_column_length df col :
  List.length (rows (clean_column df col)) = List.length (rows df).
Proof.
  unfold EncodingFrames.clean_column.
  destruct (has_column df col); [|reflexivity]. cbn [rows]. apply List.length_map.
Qed.

Lemma clean_column_has_column df col c :
  has_column df c = true -> has_column (clean_column df col) c = true.
Proof.
  intros H. unfold EncodingFrames.clean_column.
  destruct (has_column df col); [|exact H].
  unfold has_column in *. cbn [columns]. now rewrite has_column_with_column, H.
Qed.

Lemma clean_column_companion df col :
  has_column df col = true ->
  has_column (clean_column df col) (col ++ "_normalise") = true.
Proof.
  intros H. unfold EncodingFrames.clean_column. rewrite H.
  unfold has_column. cbn [columns].
  now rewrite has_column_with_column, String.eqb_refl, orb_true_r.
Qed.

Abbreviation kept_by_cleaning := (Notions.kept_by_cleaning ftfy_fix_text).

Lemma clean_column_keeps P key df col :
  kept_by_cleaning P ->
  List.forallb (fun row => P (get_ row key)) (rows df) = true ->
  List.forallb (fun row => P (get_ row key)) (rows (clean_column df col)) = true.
Proof.
  intros [Hfix Hstr] H. unfold EncodingFrames.clean_column.
  destruct (has_column df col); [|exact H]. cbn [rows].
  rewrite List.forallb_forall in *. intros row Hin.
  apply List.in_map_iff in Hin as (old & <- & Hin). specialize (H old Hin).
  destruct (String.eqb_spec key (col ++ "_normalise")) as [->|Hn].
  - rewrite get_set_cell_same. apply Hstr.
  - rewrite get_set_cell_diff by exact Hn.
    destruct (String.eqb_spec key col) as [->|Hc].
    + rewrite !get_set_cell_same. now apply Hfix.
    + now rewrite !get_set_cell_diff.
Qed.

Lemma clean_dataframe_keeps P key text_columns df :
  kept_by_cleaning P ->
  List.forallb (fun row => P (get_ row key)) (rows df) = true ->
  List.forallb (fun row => P (get_ row key)) (rows (clean_dataframe df text_columns)) = true.
Proof.
  intros HP. revert df. induction text_columns as [|c l IH]; intros df H; [exact H|].
  cbn [EncodingFrames.clean_dataframe List.fold_left].
  apply IH. now apply clean_column_keeps.
Qed.

Lemma clean_dataframe_has_column text_columns df c :
  has_column df c = true -> has_column (clean_dataframe df text_columns) c = true.
Proof.
  revert df. induction text_columns as [|x l IH]; intros df H; [exact H|].
  cbn [EncodingFrames.clean_dataframe List.fold_left].
  apply IH. now apply clean_column_has_column.
Qed.

Lemma kept_not_na : kept_by_cleaning (fun v => negb (Scheduler.isna v)).
Proof.
  split; [|reflexivity]. intros v _. now rewrite cleaned_not_na.
Qed.

Lemma kept_str : kept_by_cleaning is_str.
Proof. split; [exact cleaned_str|reflexivity]. Qed.

Lemma clean_column_establishes df col :
  has_column df col = true ->
  List.forallb (fun row => negb (Scheduler.isna (get_ row col)))
               (rows (clean_column df col)) = true
  /\ List.forallb (fun row => is_str (get_ row (col ++ "_normalise")))
                  (rows (clean_column df col)) = true.
Proof.
  intros H. split; apply List.forallb_forall; intros row Hin;
    destruct (clean_column_cell df col row H Hin) as (old & _ & Hc & Hn & _).
  - now rewrite Hc, cleaned_not_na.
  - exact Hn.
Qed.

Lemma clean_dataframe_establishes text_columns df col :
  In col text_columns -> has_column df col = true ->
  let df' := clean_dataframe df text_columns in
  has_column df' col = true
  /\ has_column df' (col ++ "_normalise") = true
  /\ List.forallb (fun row => negb (Scheduler.isna (get_ row col))) (rows df') = true
  /\ List.forallb (fun row => is_str (get_ row (col ++ "_normalise"))) (rows df') = true.
Proof.
  revert df. induction text_columns as [|c l IH]; intros df Hin Hcol; [destruct Hin|].
  cbn [EncodingFrames.clean_dataframe List.fold_left].
  destruct (String.eqb_spec c col) as [->|Hne].
  - destruct (clean_column_establishes df col Hcol) as [Hna Hstr].
    repeat split.
    + apply clean_dataframe_has_column. now apply clean_column_has_column.
    + apply clean_dataframe_has_column. now apply clean_column_companion.
    + now apply (clean_dataframe_keeps _ col l _ kept_not_na).
    + now apply (clean_dataframe_keeps _ (col ++ "_normalise") l _ kept_str).
  - destruct Hin as [E|Hin]; [contradiction|].
    apply IH; [exact Hin|]. now apply clean_column_has_column.
Qed.

Lemma clean_column_other df col key :
  key <> col -> key <> col ++ "_normalise" ->
  List.map (fun row : Series => row key) (rows (clean_column df col))
  = List.map (fun row : Series => row key) (rows df).
Proof.
  intros H1 H2. unfold EncodingFrames.clean_column.
  destruct (has_column df col); [|reflexivity]. cbn [rows].
  rewrite List.map_map. apply List.map_ext. intros row. now rewrite !set_cell_diff.
Qed.

Lemma clean_column_absent df col : has_column df col = false -> clean_column df col = df.
Proof. intros H. unfold EncodingFrames.clean_column. now rewrite H. Qed.

(** [clean_dataframe] keeps the rows, their number and their order, and
    the columns of the frame.  A listed column that the frame has ends with
    no missing value, and with a companion column of keys, all of them str.
    The cells of a column that is neither listed nor the companion of a
    listed one are left as they are, and a frame that has none of the listed
    columns is returned as it is. *)
Theorem clean_dataframe_spec df text_columns :
  let df' := clean_dataframe df text_columns in
  List.length (rows df') = List.length (rows df)
  /\ (forall c, has_column df c = true -> has_column df' c = true)
  /\ (forall col, In col text_columns -> has_column df col = true ->
        has_column df' (col ++ "_normalise") = true
        /\ forall row, In row (rows df') ->
             Scheduler.isna (get_ row col) = false
             /\ is_str (get_ row (col ++ "_normalise")) = true)
  /\ (forall key,
        (forall col, In col text_columns -> key <> col /\ key <> col ++ "_normalise") ->
        List.map (fun row : Series => row key) (rows df')
        = List.map (fun row : Series => row key) (rows df))
  /\ ((forall col, In col text_columns -> has_column df col = false) -> df' = df).
Proof.
  intros df'. unfold df'. clear df'. split; [|split; [|split; [|split]]].
  - revert df. induction text_columns as [|c l IH]; intros df; [reflexivity|].
    cbn [EncodingFrames.clean_dataframe List.fold_left].
    etransitivity; [apply IH|apply clean_column_length].
  - intros c. apply clean_dataframe_has_column.
  - intros col Hin Hcol.
    destruct (clean_dataframe_establishes text_columns df col Hin Hcol)
      as (_ & Hcomp & Hna & Hstr).
    split; [exact Hcomp|]. intros row Hrow.
    rewrite List.forallb_forall in Hna, Hstr.
    split; [now apply negb_true_iff, Hna|now apply Hstr].
  - intros key. revert df. induction text_columns as [|c l IH]; intros df H; [reflexivity|].
    cbn [EncodingFrames.clean_dataframe List.fold_left].
    destruct (H c (or_introl eq_refl)) as [H1 H2].
    etransitivity; [apply IH|now apply clean_column_other].
    intros col Hin. apply H. now right.
  - revert df. induction text_columns as [|c l IH]; intros df H; [reflexivity|].
    cbn [EncodingFrames.clean_dataframe List.fold_left].
    rewrite (clean_column_absent df c (H c (or_introl eq_refl))).
    apply IH. intros col Hin. apply H. now right.
Qed.

End WithFtfy.

End FrameCleaning.

(** ** [validate_required_fields] and [get_anomaly_summary] *)

Module RequiredFields.

Import DataValidation Validator Notions.

Lemma filter_all {A : Type} (p : A -> bool) (l : list A) :
  List.filter (fun x => negb (p x)) l = [] -> List.filter p l = l.
Proof.
  induction l as [|a l IH]; [reflexivity|]. cbn [List.filter].
  destruct (p a); cbn [negb]; [|discriminate]. intros H. now rewrite (IH H).
Qed.

Lemma filter_none {A : Type} (p : A -> bool) (l : list A) :
  (forall x, In x l -> p x = true) -> List.filter p l = l.
Proof.
  induction l as [|a l IH]; [reflexivity|]. intros H. cbn [List.filter].
  rewrite (H a (or_introl eq_refl)), IH; [reflexivity|].
  intros x Hx. apply H. now right.
Qed.

Lemma filter_false {A : Type} (l : list A) : List.filter (fun _ => false) l = [].
Proof. induction l as [|a l IH]; [reflexivity|exact IH]. Qed.

Lemma filter_filter {A : Type} (p : A -> bool) (l : list A) :
  List.filter p (List.filter p l) = List.filter p l.
Proof.
  apply filter_none. intros x Hx. now apply List.filter_In in Hx.
Qed.

(** The required columns that the frame has. *)
Lemma enforced_columns df required_columns :
  match List.filter (fun col => negb (has_column df col)) required_columns with
  | [] => required_columns
  | _ :: _ => List.filter (has_column df) required_columns
  end = List.filter (has_column df) required_columns.
Proof.
  destruct (List.filter (fun col => negb (has_column df col)) required_columns) eqn:E;
    [|reflexivity].
  symmetry. now apply filter_all.
Qed.

Lemma validate_required_fields_frame anomalies df required_columns :
  fst (validate_required_fields anomalies df required_columns)
  = mkDataFrame (columns df)
      (List.filter
         (fun row => negb (any_isna (List.filter (has_column df) required_columns) row))
         (rows df)).
Proof.
  unfold validate_required_fields. rewrite enforced_columns.
  destruct (List.filter (has_column df) required_columns) as [|c l] eqn:E.
  - cbn [fst any_isna List.existsb negb].
    rewrite (filter_none (fun _ => true)) by reflexivity. now destruct df.
  - reflexivity.
Qed.

(** [validate_required_fields] keeps, in their order, the rows with no
    missing value under the required columns that the frame has; a required
    column that the frame lacks is logged and then not enforced, so that a
    frame with none of the required columns comes back whole.  It logs the
    missing columns, then the number of rows it drops, and validating its
    result again drops nothing. *)
Theorem validate_required_fields_spec anomalies df required_columns :
  let result := validate_required_fields anomalies df required_columns in
  let enforced := List.filter (has_column df) required_columns in
  let missing := List.filter (fun col => negb (has_column df col)) required_columns in
  let dropped := List.filter (any_isna enforced) (rows df) in
  columns (fst result) = columns df
  /\ rows (fst result) = List.filter (fun row => negb (any_isna enforced row)) (rows df)
  /\ (forall row col,
        In row (rows (fst result)) -> In col required_columns ->
        has_column df col = true -> Scheduler.isna (get_ row col) = false)
  /\ (enforced = [] -> fst result = df)
  /\ snd result
     = (anomalies
        ++ match missing with
           | [] => []
           | _ :: _ => [mkEntry "validation" (Missing_columns missing) []]
           end
        ++ match dropped with
           | [] => []
           | _ :: _ =>
               [mkEntry "validation" (Missing_values (List.length dropped)) dropped]
           end)%list
  /\ (forall anomalies',
        fst (validate_required_fields anomalies' (fst result) required_columns)
        = fst result).
Proof.
  intros result enforced missing dropped.
  pose proof (validate_required_fields_frame anomalies df required_columns) as Hf.
  fold result enforced in Hf.
  split; [now rewrite Hf|]. split; [now rewrite Hf|]. split; [|split; [|split]].
  - intros row col Hrow Hcol Hhas. rewrite Hf in Hrow. cbn [rows] in Hrow.
    apply List.filter_In in Hrow as [_ Hrow]. apply negb_true_iff in Hrow.
    unfold any_isna in Hrow.
    destruct (Scheduler.isna (get_ row col)) eqn:Hna; [|reflexivity].
    assert (Hex : List.existsb (fun c => Scheduler.isna (get_ row c)) enforced = true).
    { apply List.existsb_exists. exists col. split; [|exact Hna].
      apply List.filter_In. now split. }
    congruence.
  - intros He. rewrite Hf, He. cbn [any_isna List.existsb negb].
    rewrite (filter_none (fun _ => true)) by reflexivity. now destruct df.
  - unfold result, validate_required_fields. rewrite enforced_columns.
    fold enforced missing.
    destruct enforced as [|c l] eqn:E.
    + unfold dropped. cbn [any_isna List.existsb snd].
      change (any_isna []) with (fun _ : Series => false).
      rewrite (filter_false (rows df)).
      destruct missing; unfold log_entry; now rewrite ?app_nil_r.
    + cbn [snd]. fold dropped.
      destruct missing, dropped; unfold log_entry;
        rewrite ?app_nil_r, <- ?app_assoc; reflexivity.
  - intros anomalies'. rewrite validate_required_fields_frame. rewrite Hf.
    cbn [columns rows]. unfold has_column. cbn [columns]. fold (has_column df).
    fold enforced. now rewrite filter_filter.
Qed.

End RequiredFields.

Module AnomalySummary.

Import Validator Notions.

Lemma dict_get_dict_set {A : Type} (d : list (string * A)) (key t : string) (v : A) :
  dict_get (dict_set d key v) t = if key =? t then Some v else dict_get d t.
Proof.
  induction d as [|[k w] d IH]; cbn [dict_set dict_get].
  - reflexivity.
  - destruct (String.eqb_spec k key) as [->|Hk]; cbn [dict_get].
    + now destruct (key =? t).
    + rewrite IH. destruct (String.eqb_spec k t) as [->|Ht]; [|reflexivity].
      destruct (String.eqb_spec key t) as [->|]; [contradiction|reflexivity].
Qed.

Lemma keys_dict_set {A : Type} (d : list (string * A)) (key : string) (v : A) :
  List.map fst (dict_set d key v)
  = if List.existsb (fun k => k =? key) (List.map fst d)
    then List.map fst d else (List.map fst d ++ [key])%list.
Proof.
  induction d as [|[k w] d IH]; cbn [dict_set List.map List.existsb fst]; [reflexivity|].
  destruct (String.eqb_spec k key) as [->|Hk]; [reflexivity|].
  cbn [List.map fst orb]. rewrite IH.
  now destruct (List.existsb (fun k0 => k0 =? key) (List.map fst d)).
Qed.

Lemma fold_count_type (l : list string) (d : list (string * nat)) (t : string) :
  dict_get (List.fold_left count_type l d) t
  = match occurrences t l with
    | 0 => dict_get d t
    | S n => Some (match dict_get d t with Some m => m | None => 0 end + S n)
    end.
Proof.
  revert d. induction l as [|a l IH]; intros d; [reflexivity|].
  cbn [List.fold_left]. rewrite IH. unfold occurrences. cbn [List.filter].
  unfold count_type. rewrite dict_get_dict_set.
  destruct (String.eqb_spec a t) as [->|Hne]; cbn [List.length].
  - destruct (List.length (List.filter (fun x => x =? t) l)) as [|n]; f_equal; lia.
  - reflexivity.
Qed.

Lemma nodup_keys (l : list string) (d : list (string * nat)) :
  NoDup (List.map fst d) -> NoDup (List.map fst (List.fold_left count_type l d)).
Proof.
  revert d. induction l as [|a l IH]; intros d H; [exact H|].
  cbn [List.fold_left]. apply IH. unfold count_type. rewrite keys_dict_set.
  destruct (List.existsb (fun k => k =? a) (List.map fst d)) eqn:E; [exact H|].
  apply NoDup_app; [exact H|repeat constructor; intros []|].
  intros x Hx [Hax|[]]. subst x.
  assert (List.existsb (fun k => k =? a) (List.map fst d) = true).
  { apply List.existsb_exists. exists a. split; [exact Hx|apply String.eqb_refl]. }
  congruence.
Qed.

(** [get_anomaly_summary] maps each type that was logged to the number of
    anomalies of this type, has no entry for a type that was never logged,
    and holds each type once. *)
Theorem get_anomaly_summary_counts (anomaly_types : list string) :
  let summary := get_anomaly_summary anomaly_types in
  (forall t,
      dict_get summary t
      = match occurrences t anomaly_types with
        | 0 => None
        | S n => Some (S n)
        end)
  /\ NoDup (List.map fst summary)
  /\ (anomaly_types = [] -> summary = []).
Proof.
  intros summary. split; [|split].
  - intros t. unfold summary, get_anomaly_summary. rewrite fold_count_type.
    now destruct (occurrences t anomaly_types).
  - apply nodup_keys. constructor.
  - now intros ->.
Qed.

End AnomalySummary.

(** ** The numeric columns after [process_urgences_data] *)

Module NumericColumns.

Import DataValidation Notions.

Lemma Forall2_compose {A : Type} (R1 R2 R3 : A -> A -> Prop) (l1 l2 l3 : list A) :
  (forall a b c, R1 a b -> R2 b c -> R3 a c) ->
  Forall2 R1 l1 l2 -> Forall2 R2 l2 l3 -> Forall2 R3 l1 l3.
Proof.
  intros H H1. revert l3. induction H1 as [|a b l1 l2 Hab _ IH]; intros l3 H2.
  - inversion H2. constructor.
  - inversion H2 as [|b' c l2' l3' Hbc Hrest]; subst. constructor; eauto.
Qed.

Lemma Forall2_map_r {A : Type} (R : A -> A -> Prop) (f : A -> A) (l : list A) :
  (forall a, R a (f a)) -> Forall2 R l (List.map f l).
Proof. intros H. induction l; constructor; auto. Qed.

Lemma Forall2_refl {A : Type} (R : A -> A -> Prop) (l : list A) :
  (forall a, R a a) -> Forall2 R l l.
Proof. intros H. induction l; constructor; auto. Qed.

Lemma Forall2_In_r {A : Type} (R : A -> A -> Prop) (l l' : list A) (b : A) :
  Forall2 R l l' -> In b l' -> exists a, In a l /\ R a b.
Proof.
  induction 1 as [|x y l l' Hxy _ IH]; intros Hin; [destruct Hin|].
  destruct Hin as [<-|Hin].
  - exists x. split; [now left|exact Hxy].
  - destruct (IH Hin) as (a & Ha & Hab). exists a. split; [now right|exact Hab].
Qed.

Lemma fillna0_not_nan (x : PrimFloat.float) : PrimFloat.is_nan (fillna0 x) = false.
Proof.
  unfold fillna0. destruct (PrimFloat.is_nan x) eqn:H; [reflexivity|exact H].
Qed.

Section Loop.

Variable to_numeric : value -> PrimFloat.float.
Variable float_of_str : string -> option PrimFloat.float.

Abbreviation convert_column := (DataValidation.convert_column to_numeric float_of_str).
Abbreviation convert_numeric_columns :=
  (DataValidation.convert_numeric_columns to_numeric float_of_str).

Lemma set_cell_other row c key v : key <> c -> set_cell row c v key = row key.
Proof.
  intros H. unfold set_cell.
  destruct (String.eqb_spec key c); [contradiction|reflexivity].
Qed.

Lemma apply_column_same_but f col rows rows' :
  apply_column f col rows = Some rows' -> Forall2 (same_but col) rows rows'.
Proof.
  revert rows'. induction rows as [|r rows IH]; intros rows' H.
  - injection H as <-. constructor.
  - cbn [apply_column] in H.
    destruct (f (get_ r col)) as [v|]; [|discriminate].
    destruct (apply_column f col rows) as [rest|]; [|discriminate].
    injection H as <-. constructor; [|now apply IH].
    intros key Hk. now apply set_cell_other.
Qed.

(** One turn of the loop that goes through. *)
Lemma convert_column_done col rows rows' :
  convert_column col rows = Some rows' ->
  Forall2 (fun row row' => same_but col row row' /\ number_under col row') rows rows'.
Proof.
  unfold DataValidation.convert_column.
  destruct (if (col =? "dms_civiere") || (col =? "dms_ambulatoire")
            then apply_column (dms_lambda float_of_str) col rows else Some rows)
    as [rows2|] eqn:H2; [|discriminate].
  intros [= <-].
  assert (H : Forall2 (same_but col) rows rows2).
  { destruct ((col =? "dms_civiere") || (col =? "dms_ambulatoire")).
    - exact (apply_column_same_but _ col rows rows2 H2).
    - injection H2 as <-. apply Forall2_refl. intros r key _. reflexivity. }
  eapply (Forall2_compose (same_but col)
            (fun row row' => same_but col row row' /\ number_under col row'));
    [|exact H|apply Forall2_map_r].
  - intros a b c Hab [Hbc Hn]. split; [|exact Hn].
    intros key Hk. now rewrite (Hbc key Hk), (Hab key Hk).
  - intros r. split.
    + intros key Hk. now apply set_cell_other.
    + eexists. split; [unfold set_cell; now rewrite String.eqb_refl|].
      apply fillna0_not_nan.
Qed.

Lemma convert_numeric_columns_done cols df df' :
  convert_numeric_columns cols df = Some df' ->
  columns df' = columns df
  /\ Forall2 (converted_row cols df) (rows df) (rows df').
Proof.
  revert df. induction cols as [|c cols IH]; intros df H.
  - injection H as <-. split; [reflexivity|].
    apply Forall2_refl. intros r. split; [reflexivity|intros key []].
  - cbn [DataValidation.convert_numeric_columns] in H.
    destruct (has_column df c) eqn:Hc.
    + destruct (convert_column c (rows df)) as [rows1|] eqn:H1; [|discriminate].
      destruct (IH _ H) as [Hcols Hrows]. cbn [columns rows] in Hcols, Hrows.
      split; [exact Hcols|].
      eapply Forall2_compose; [|exact (convert_column_done c _ _ H1)|exact Hrows].
      intros a b r [Hab Hn] [Hother Hnum].
      assert (Hhas : forall key, has_column (mkDataFrame (columns df) rows1) key
                                 = has_column df key) by reflexivity.
      split.
      * intros key Hk.
        assert (Hne : key <> c).
        { intros ->. destruct Hk as [Hk|Hk]; [apply Hk; now left|congruence]. }
        rewrite Hother, (Hab key Hne); [reflexivity|].
        destruct Hk as [Hk|Hk]; [left|right; now rewrite Hhas].
        intros Hin. apply Hk. now right.
      * intros key Hin Hk.
        destruct (List.in_dec String.string_dec key cols) as [Hrest|Hrest].
        -- apply Hnum; [exact Hrest|now rewrite Hhas].
        -- destruct Hin as [->|Hin]; [|contradiction].
           destruct Hn as (f & Hf & Hnan). exists f. split; [|exact Hnan].
           rewrite Hother; [exact Hf|now left].
    + destruct (IH _ H) as [Hcols Hrows]. split; [exact Hcols|].
      eapply Forall2_impl; [|exact Hrows]. intros a b [Hother Hnum]. split.
      * intros key Hk. apply Hother.
        destruct Hk as [Hk|Hk]; [left|now right].
        intros Hin. apply Hk. now right.
      * intros key [->|Hin] Hk; [congruence|now apply Hnum].
Qed.


Lemma has_column_same df df' key :
  columns df' = columns df -> has_column df' key = has_column df key.
Proof. intros H. unfold has_column. now rewrite H. Qed.

(** A cell read by the writer on a row that went through the loop: a float,
    the default when the frame has no such column. *)
Lemma cell_read df row row' key default :
  well_formed df -> In row (rows df) ->
  converted_row numeric_columns df row row' ->
  In key numeric_columns ->
  (exists f, get row' key default = VFloat f /\ PrimFloat.is_nan f = false)
  \/ (has_column df key = false /\ get row' key default = default).
Proof.
  intros Hwf Hrow [Hother Hnum] Hkey.
  destruct (has_column df key) eqn:Hhas.
  - left. destruct (Hnum key Hkey Hhas) as (f & Hf & Hnan).
    exists f. unfold get. now rewrite Hf.
  - right. split; [reflexivity|]. unfold get.
    rewrite Hother by now right. now rewrite (Hwf row Hrow key Hhas).
Qed.

(** When the loop goes through, the frame keeps its columns and the number
    of its rows; every numeric column it has holds floats that are numbers;
    the cells of the other columns are as they were. *)
Theorem numeric_columns_are_numbers df df' :
  convert_numeric_columns numeric_columns df = Some df' ->
  columns df' = columns df
  /\ List.length (rows df') = List.length (rows df)
  /\ (forall row col,
        In row (rows df') -> In col numeric_columns -> has_column df col = true ->
        exists f, get_ row col = VFloat f /\ PrimFloat.is_nan f = false)
  /\ (forall key,
        ~ In key numeric_columns ->
        List.map (fun row : Series => row key) (rows df')
        = List.map (fun row : Series => row key) (rows df))
  /\ (well_formed df -> well_formed df').
Proof.
  intros H. destruct (convert_numeric_columns_done _ _ _ H) as [Hcols Hrows].
  split; [exact Hcols|]. split; [symmetry; exact (Forall2_length Hrows)|].
  split; [|split].
  - intros row col Hin Hcol Hhas.
    destruct (Forall2_In_r _ _ _ row Hrows Hin) as (old & _ & _ & Hnum).
    destruct (Hnum col Hcol Hhas) as (f & Hf & Hnan).
    exists f. unfold get_, get. now rewrite Hf.
  - intros key Hkey. clear H Hcols.
    induction Hrows as [|a b l l' [Hother _] _ IH]; [reflexivity|].
    cbn [List.map]. rewrite IH. f_equal. apply Hother. now left.
  - intros Hwf row Hin key Hkey.
    destruct (Forall2_In_r _ _ _ row Hrows Hin) as (old & Hold & Hother & _).
    rewrite (has_column_same df df' key Hcols) in Hkey.
    rewrite Hother by now right. exact (Hwf old Hold key Hkey).
Qed.

(** [_update_current_data] on a row that went through the loop: every
    conversion succeeds, so that the body runs to its end without a warning
    and stamps the state; a rate is stored. *)
Theorem writer_runs_to_its_end df df' :
  well_formed df ->
  convert_numeric_columns numeric_columns df = Some df' ->
  forall float_of_str' row date_extraction now c,
    In row (rows df') ->
    exists c',
      Scheduler.write_current_data float_of_str' row date_extraction now c = (c', [], true)
      /\ UrgencesEtatActuel.date_extraction c' = Some date_extraction
      /\ UrgencesEtatActuel.date_maj c' = Some now
      /\ UrgencesEtatActuel.statut_validation c' = Some Scheduler.valide
      /\ is_None (UrgencesEtatActuel.taux_occupation c') = false.
Proof.
  intros Hwf H fos row de now c Hin.
  destruct (convert_numeric_columns_done _ _ _ H) as [_ Hrows].
  destruct (Forall2_In_r _ _ _ row Hrows Hin) as (old & Hold & Hconv).
  assert (Hcount : forall key, In key numeric_columns ->
            exists f, Scheduler.float fos (get row key (VFloat 0)) = Some f).
  { intros key Hkey.
    destruct (cell_read df old row key (VFloat 0) Hwf Hold Hconv Hkey)
      as [(f & -> & _)|[_ ->]]; eexists; reflexivity. }
  assert (Hdms : forall key warning, In key numeric_columns ->
            exists f, Scheduler.coerce_dms fos warning (get_ row key) = (VFloat f, [])).
  { intros key warning Hkey. unfold get_.
    destruct (cell_read df old row key VNone Hwf Hold Hconv Hkey)
      as [(f & -> & _)|[_ ->]]; eexists; reflexivity. }
  unfold Scheduler.write_current_data, Scheduler.counts.
  cbn [Scheduler.write_counts].
  destruct (Hcount "civieres_fonctionnelles") as [f1 ->]; [cbn; tauto|].
  destruct (Hcount "civieres_occupees") as [f2 ->]; [cbn; tauto|].
  destruct (Hcount "patients_24h") as [f3 ->]; [cbn; tauto|].
  destruct (Hcount "patients_48h") as [f4 ->]; [cbn; tauto|].
  destruct (Hcount "total_patients") as [f5 ->]; [cbn; tauto|].
  destruct (Hcount "patients_en_attente") as [f6 ->]; [cbn; tauto|].
  destruct (Hdms "dms_civiere" Scheduler.Warning_dms_civiere) as [d1 ->]; [cbn; tauto|].
  destruct (Hdms "dms_ambulatoire" Scheduler.Warning_dms_ambulatoire) as [d2 ->];
    [cbn; tauto|].
  cbn [UrgencesEtatActuel.civieres_fonctionnelles UrgencesEtatActuel.civieres_occupees
       UrgencesEtatActuel.set_civieres_fonctionnelles
       UrgencesEtatActuel.set_civieres_occupees UrgencesEtatActuel.set_patients_24h
       UrgencesEtatActuel.set_patients_48h UrgencesEtatActuel.set_total_patients
       UrgencesEtatActuel.set_patients_en_attente UrgencesEtatActuel.set_dms_civiere
       UrgencesEtatActuel.set_dms_ambulatoire].
  rewrite FieldCoercer.taux_occupation_of_floats.
  eexists. split; [reflexivity|]. repeat split.
Qed.

End Loop.

End NumericColumns.

Module RangeTwice.

Import DataValidation Notions.

Section Facts.

Variable to_numeric : value -> PrimFloat.float.

Abbreviation validate_numeric_range := (DataValidation.validate_numeric_range to_numeric).
Abbreviation numeric_cell := (DataValidation.numeric_cell to_numeric).
Abbreviation converted := (DataValidation.converted to_numeric).

Lemma numeric_cell_converted column row :
  (forall f, to_numeric (VFloat f) = f) ->
  numeric_cell column (converted column row) = numeric_cell column row.
Proof.
  intros H. unfold DataValidation.numeric_cell, DataValidation.converted, get_, get, set_cell.
  rewrite String.eqb_refl. apply H.
Qed.

Lemma converted_twice column row key :
  (forall f, to_numeric (VFloat f) = f) ->
  converted column (converted column row) key = converted column row key.
Proof.
  intros H. unfold DataValidation.converted at 1. unfold set_cell at 1.
  destruct (String.eqb_spec key column) as [->|Hne].
  - rewrite (numeric_cell_converted column row H).
    unfold DataValidation.converted, set_cell. now rewrite String.eqb_refl.
  - reflexivity.
Qed.

Lemma filter_map_all {A : Type} (p : A -> bool) (f : A -> A) (l : list A) :
  (forall x, In x l -> p (f x) = true) ->
  List.filter p (List.map f l) = List.map f l.
Proof.
  induction l as [|a l IH]; intros H; [reflexivity|]. cbn [List.map List.filter].
  rewrite (H a (or_introl eq_refl)), IH; [reflexivity|].
  intros x Hx. apply H. now right.
Qed.

Lemma filter_map_none {A : Type} (p : A -> bool) (f : A -> A) (l : list A) :
  (forall x, In x l -> p (f x) = false) ->
  List.filter p (List.map f l) = [].
Proof.
  induction l as [|a l IH]; intros H; [reflexivity|]. cbn [List.map List.filter].
  rewrite (H a (or_introl eq_refl)). apply IH.
  intros x Hx. apply H. now right.
Qed.


End Facts.

End RangeTwice.

(** ** [_find_region_id] and [_get_etablissement_info] *)

Module Lookups.

Import Scheduler Spec.

Lemma first_In {A : Type} (p : A -> bool) (table : list A) (x : A) :
  first p table = Some x -> In x table /\ p x = true.
Proof. unfold first. apply List.find_some. Qed.

Lemma first_any {A : Type} (table : list A) :
  first (fun _ => true) table = None -> table = [].
Proof. destruct table; [reflexivity|discriminate]. Qed.

Lemma first_of_first_such {A : Type} (p : A -> bool) (table : list A) (x : A) :
  first_such p table x -> first p table = Some x.
Proof.
  intros (before & after & -> & Hp & Hb). unfold first.
  induction before as [|b before IH]; cbn [List.app List.find].
  - now rewrite Hp.
  - rewrite (Hb b (or_introl eq_refl)). apply IH. intros y Hy. apply Hb. now right.
Qed.

Lemma first_of_misses {A : Type} (p : A -> bool) (table : list A) :
  misses p table -> first p table = None.
Proof.
  unfold misses, first. induction table as [|a l IH]; intros H; [reflexivity|].
  cbn [List.find]. rewrite (H a (or_introl eq_refl)). apply IH.
  intros x Hx. apply H. now right.
Qed.

Lemma find_never {A : Type} (p : A -> bool) (l : list A) :
  (forall x, p x = false) -> List.find p l = None.
Proof.
  intros H. induction l as [|a l IH]; [reflexivity|].
  cbn [List.find]. now rewrite H.
Qed.

Section Facts.

Variable ftfy_fix_text : string -> string.
Variable str_of_float : PrimFloat.float -> string.
Variable strftime_Ymd : Time -> string.
Variable etablissements_info : list (string * Info).

Abbreviation find_region_id := (Scheduler.find_region_id ftfy_fix_text str_of_float).
Abbreviation str := (Scheduler.str str_of_float).
Abbreviation get_etablissement_info :=
  (Scheduler.get_etablissement_info strftime_Ymd etablissements_info).
Abbreviation default_info := (Scheduler.default_info strftime_Ymd etablissements_info).

Lemma find_region_id_none s rss region_name :
  find_region_id s rss region_name = None -> regions (persistent s) = [].
Proof.
  unfold Scheduler.find_region_id.
  destruct (if negb (strip (str rss) =? "") then first _ _ else None) as [r|];
    [discriminate|].
  destruct (if truthy region_name then _ else None) as [r|]; [discriminate|].
  destruct (first (fun r => Region.rss r =? "06") _) as [r|]; [discriminate|].
  destruct (first (fun _ => true) _) as [r|] eqn:E; [discriminate|].
  intros _. exact (first_any _ E).
Qed.

(** [_find_region_id] returns the [id] of a stored region, and nothing only
    when the table is empty.  A region whose [rss] is the code given, once
    stripped, wins over everything else; without a code that matches and
    with a name that is not true, Montreal (06) is the answer. *)
Theorem find_region_id_spec s rss region_name :
  let table := regions (persistent s) in
  let code := strip (str rss) in
  (find_region_id s rss region_name = None <-> table = [])
  /\ (forall id, find_region_id s rss region_name = Some id ->
                 exists r, In r table /\ Region.id r = id)
  /\ (forall r, code <> "" -> first_such (fun r => Region.rss r =? code) table r ->
                find_region_id s rss region_name = Some (Region.id r))
  /\ (forall r, code = "" \/ misses (fun r => Region.rss r =? code) table ->
                truthy region_name = false ->
                first_such (fun r => Region.rss r =? "06") table r ->
                find_region_id s rss region_name = Some (Region.id r)).
Proof.
  intros table code. unfold Scheduler.find_region_id. fold table code.
  split; [|split; [|split]].
  - split.
    + exact (find_region_id_none s rss region_name).
    + intros ->. cbn. destruct (negb (code =? "")), (truthy region_name); reflexivity.
  - intros id.
    destruct (if negb (code =? "") then first _ table else None) as [r|] eqn:E1.
    { intros [= <-]. exists r. split; [|reflexivity].
      destruct (negb (code =? "")); [|discriminate]. now apply first_In in E1. }
    destruct (if truthy region_name then _ else None) as [r|] eqn:E2.
    { intros [= <-]. exists r. split; [|reflexivity].
      destruct (truthy region_name); [|discriminate]. now apply first_In in E2. }
    destruct (first (fun r => Region.rss r =? "06") table) as [r|] eqn:E3.
    { intros [= <-]. exists r. split; [|reflexivity]. now apply first_In in E3. }
    destruct (first (fun _ => true) table) as [r|] eqn:E4; [|discriminate].
    intros [= <-]. exists r. split; [|reflexivity]. now apply first_In in E4.
  - intros r Hcode Hr. apply String.eqb_neq in Hcode. rewrite Hcode. cbn [negb].
    now rewrite (first_of_first_such _ _ _ Hr).
  - intros r Hcode Hname Hr.
    assert (E1 : (if negb (code =? "")
                  then first (fun r => Region.rss r =? code) table else None) = None).
    { destruct Hcode as [->|Hm]; [reflexivity|].
      rewrite (first_of_misses _ _ Hm). now destruct (negb (code =? "")). }
    rewrite E1, Hname. now rewrite (first_of_first_such _ _ _ Hr).
Qed.

(** [_get_etablissement_info], in the scheduler and in scripts/fix_tables.py,
    returns the first entry of the catalog whose key holds one of the two
    names, or the default values.  An empty name is never looked for: with
    two empty names the answer is the default, whatever the catalog. *)
Theorem get_etablissement_info_spec now nom_installation_norm nom_etablissement_norm :
  let hit := fun key : string =>
    (negb (nom_installation_norm =? "") && substring_of nom_installation_norm key)
    || (negb (nom_etablissement_norm =? "") && substring_of nom_etablissement_norm key) in
  (get_etablissement_info now "" "" = default_info now)
  /\ (forall item,
        first_such (fun item => hit (fst item)) etablissements_info item ->
        get_etablissement_info now nom_installation_norm nom_etablissement_norm
        = snd item)
  /\ (misses (fun item => hit (fst item)) etablissements_info ->
      get_etablissement_info now nom_installation_norm nom_etablissement_norm
      = default_info now)
  /\ (forall catalog,
        FixTables.get_etablissement_info catalog "" "" = FixTables.default_info)
  /\ (forall catalog item,
        first_such (fun item : string * FixTables.Info => hit (fst item)) catalog item ->
        FixTables.get_etablissement_info catalog nom_installation_norm
          nom_etablissement_norm = snd item)
  /\ (forall catalog,
        misses (fun item : string * FixTables.Info => hit (fst item)) catalog ->
        FixTables.get_etablissement_info catalog nom_installation_norm
          nom_etablissement_norm = FixTables.default_info).
Proof.
  intros hit. split; [|split; [|split; [|split; [|split]]]].
  - unfold Scheduler.get_etablissement_info.
    now rewrite find_never by reflexivity.
  - intros [key info] H. unfold Scheduler.get_etablissement_info.
    pose proof (first_of_first_such _ _ _ H) as E.
    unfold first, hit in E. cbv beta in E. now rewrite E.
  - intros H. unfold Scheduler.get_etablissement_info.
    pose proof (first_of_misses _ _ H) as E.
    unfold first, hit in E. cbv beta in E. now rewrite E.
  - reflexivity.
  - intros catalog [key info] H. unfold FixTables.get_etablissement_info.
    destruct ((nom_installation_norm =? "") && (nom_etablissement_norm =? "")) eqn:E.
    + destruct H as (_ & _ & _ & Hhit & _). unfold hit in Hhit. cbn [fst] in Hhit.
      apply andb_true_iff in E as [E1 E2]. rewrite E1, E2 in Hhit. discriminate.
    + pose proof (first_of_first_such _ _ _ H) as E'.
      unfold first, hit in E'. cbv beta in E'. now rewrite E'.
  - intros catalog H. unfold FixTables.get_etablissement_info.
    destruct ((nom_installation_norm =? "") && (nom_etablissement_norm =? ""));
      [reflexivity|].
    pose proof (first_of_misses _ _ H) as E.
    unfold first, hit in E. cbv beta in E. now rewrite E.
Qed.

End Facts.

End Lookups.

(** ** Facilities seen again *)

Module Resolution.

Import Scheduler Spec.

Lemma prefix_like_refl (key rest : string) : prefix_like key (key ++ rest) = true.
Proof.
  induction key as [|c key IH]; [reflexivity|].
  cbn [String.append prefix_like]. now rewrite Ascii.eqb_refl, orb_true_r, IH.
Qed.

Lemma contains_like_refl (key : string) : contains_like key key = true.
Proof.
  assert (H : prefix_like key key = true).
  { pose proof (prefix_like_refl key "") as H.
    assert (E : forall s, s ++ "" = s).
    { induction s as [|c s IH]; [reflexivity|]. cbn [String.append]. now rewrite IH. }
    now rewrite E in H. }
  destruct key; cbn [contains_like]; now rewrite H.
Qed.

Lemma find_last {A : Type} (p : A -> bool) (l : list A) (x : A) :
  List.find p l = None -> p x = true -> List.find p (l ++ [x]) = Some x.
Proof.
  intros Hl Hx. rewrite (FacilityResolver.find_app_None p l [x] Hl).
  cbn [List.find]. now rewrite Hx.
Qed.

Section Facts.

Variable ftfy_fix_text : string -> string.
Variable str_of_float : PrimFloat.float -> string.
Variable strftime_Ymd : Time -> string.
Variable accepts : DB -> bool.
Variable etablissements_info : list (string * Info).

Abbreviation normalize_text := (EncodingUtils.normalize_text ftfy_fix_text).
Abbreviation find_etablissement :=
  (Scheduler.find_etablissement ftfy_fix_text str_of_float strftime_Ymd accepts
                                etablissements_info).
Abbreviation no_permis_of := (Scheduler.no_permis_of str_of_float).
Abbreviation installation_key := (Scheduler.installation_key ftfy_fix_text).
Abbreviation etablissement_key := (Scheduler.etablissement_key ftfy_fix_text).
Abbreviation created :=
  (Scheduler.created ftfy_fix_text str_of_float strftime_Ymd etablissements_info).
Abbreviation find_etablissement_search :=
  (FacilityResolver.find_etablissement_search ftfy_fix_text str_of_float strftime_Ymd
     accepts etablissements_info).
Abbreviation find_etablissement_creates :=
  (FacilityResolver.find_etablissement_creates ftfy_fix_text str_of_float strftime_Ymd
     accepts etablissements_info).

(** A key matches itself, as a stored name. *)
Lemma ilike_own_key text :
  let key := normalize_text text true in
  ilike (Some key) ("%" ++ key ++ "%") = true.
Proof.
  intros key. unfold key.
  rewrite (TextNormalizer.ilike_normalized ftfy_fix_text text true (Some _)).
  fold key.
  rewrite (TextNormalizer.lower_lowered key
             (TextNormalizer.normalize_text_lowered ftfy_fix_text text true)).
  apply contains_like_refl.
Qed.

(** The facility that the creation makes, as the queries see it. *)
Lemma created_columns now s row id :
  Etablissement.no_permis_installation (created now s row id) = Some (no_permis_of row)
  /\ Etablissement.nom_installation_normalise (created now s row id)
     = Some (installation_key row)
  /\ Etablissement.nom_etablissement_normalise (created now s row id)
     = etablissement_key row.
Proof. repeat split. Qed.

(** What [_find_etablissement] returns with a facility. *)
Lemma find_etablissement_cases now s row s1 e :
  find_etablissement now s row = (s1, Some e) ->
  (search (etablissements (persistent s)) (no_permis_of row)
          (installation_key row) (etablissement_key row) = Some e /\ s1 = s)
  \/ (search (etablissements (persistent s)) (no_permis_of row)
             (installation_key row) (etablissement_key row) = None
      /\ e = created now s row (etablissement_seq s)
      /\ etablissements (persistent s1)
         = (etablissements (persistent s) ++ new_etablissement s ++ [e])%list).
Proof.
  intros H.
  destruct (search (etablissements (persistent s)) (no_permis_of row)
                   (installation_key row) (etablissement_key row)) as [e0|] eqn:Hs.
  - rewrite (find_etablissement_search now s row e0 Hs) in H.
    injection H as <- <-. now left.
  - rewrite (find_etablissement_creates now s row Hs) in H. cbv zeta in H.
    unfold flush in H. destruct (accepts _); [|discriminate].
    injection H as <- <-. right. repeat split.
Qed.

(** Round trip by name.  A row without permit number and with a name, once
    resolved to a facility, found or created, resolves to it again on any
    session that holds the same facilities, which it leaves as it is. *)
Theorem name_round_trip now s row s1 e :
  new_etablissement s = [] ->
  permis_given (no_permis_of row) = false ->
  installation_key row <> "" \/ etablissement_key row <> "" ->
  find_etablissement now s row = (s1, Some e) ->
  forall now' s2,
    etablissements (persistent s2) = etablissements (persistent s1) ->
    find_etablissement now' s2 row = (s2, Some e).
Proof.
  intros Hnew Hp Hname Hfind now' s2 Htable.
  apply find_etablissement_search. rewrite Htable.
  destruct (find_etablissement_cases now s row s1 e Hfind)
    as [[Hs ->]|(Hs & He & ->)]; [exact Hs|].
  rewrite Hnew. cbn [List.app].
  set (table := etablissements (persistent s)) in *.
  set (ki := installation_key row) in *. set (ke := etablissement_key row) in *.
  unfold search in Hs |- *. fold (permis_given (no_permis_of row)) in Hs |- *.
  rewrite Hp in Hs |- *. cbn [andb] in Hs |- *.
  destruct (created_columns now s row (etablissement_seq s)) as (_ & Hi & He').
  rewrite <- He in Hi, He'. fold ki in Hi. fold ke in He'.
  destruct (negb (ki =? "")) eqn:Eki.
  - destruct (by_installation table ki) eqn:Hbi; [discriminate|].
    unfold by_installation, first in Hbi |- *.
    rewrite (find_last _ table e Hbi); [reflexivity|].
    rewrite Hi. apply ilike_own_key.
  - destruct Hname as [Hname|Hname];
      [apply String.eqb_neq in Hname; rewrite Hname in Eki; discriminate|].
    apply String.eqb_neq in Hname. rewrite Hname in Hs |- *. cbn [negb] in Hs |- *.
    unfold by_etablissement, first in Hs |- *.
    rewrite (find_last _ table e Hs); [reflexivity|].
    rewrite He'. apply ilike_own_key.
Qed.


End Facts.

Section Script.

Variable ftfy_fix_text : string -> string.
Variable accepts : DB -> bool.

Abbreviation normalize_text' := (EncodingUtils.normalize_text ftfy_fix_text).
Abbreviation installation_key' := (Scheduler.installation_key ftfy_fix_text).
Abbreviation etablissement_key' := (Scheduler.etablissement_key ftfy_fix_text).

(** Round trip by name in scripts/data_updater.py, where the permit number
    is not looked at: a row with a name, once resolved to a facility,
    resolves to it again. *)
Theorem script_name_round_trip now s row s1 e :
  new_etablissement s = [] ->
  installation_key' row <> "" \/ etablissement_key' row <> "" ->
  ScriptUpdater.find_etablissement ftfy_fix_text accepts now s row = (s1, Some e) ->
  forall now' s2,
    etablissements (persistent s2) = etablissements (persistent s1) ->
    ScriptUpdater.find_etablissement ftfy_fix_text accepts now' s2 row = (s2, Some e).
Proof.
  intros Hnew Hname Hfind now' s2 Htable.
  unfold ScriptUpdater.find_etablissement in Hfind |- *.
  fold (Scheduler.installation_key ftfy_fix_text row) in Hfind |- *.
  fold (Scheduler.etablissement_key ftfy_fix_text row) in Hfind |- *.
  set (ki := installation_key' row) in *. set (ke := etablissement_key' row) in *.
  set (table := etablissements (persistent s)) in *.
  rewrite Htable.
  destruct (ScriptUpdater.search table ki ke) as [e0|] eqn:Hs.
  - injection Hfind as <- <-. fold table. now rewrite Hs.
  - cbv zeta in Hfind. unfold flush in Hfind.
    destruct (accepts _); [|discriminate].
    injection Hfind as <- <-. cbn [persistent flushed etablissements add_etablissement
                                   new_etablissement].
    fold table. rewrite Hnew. cbn [List.app].
    set (e := ScriptUpdater.new_etablissement_of ftfy_fix_text now row
                (ScriptUpdater.default_region_id s) (etablissement_seq s)).
    assert (Hi : Etablissement.nom_installation_normalise e = Some ki) by reflexivity.
    assert (He : Etablissement.nom_etablissement_normalise e = ke) by reflexivity.
    assert (Hfound : ScriptUpdater.search (table ++ [e]) ki ke = Some e).
    { unfold ScriptUpdater.search in Hs |- *.
      destruct (negb (ki =? "")) eqn:Eki.
      - destruct (by_installation table ki) eqn:Hbi; [discriminate|].
        unfold by_installation, first in Hbi |- *.
        rewrite (find_last _ table e Hbi); [reflexivity|].
        rewrite Hi. apply ilike_own_key.
      - destruct Hname as [Hname|Hname];
          [apply String.eqb_neq in Hname; rewrite Hname in Eki; discriminate|].
        apply String.eqb_neq in Hname. rewrite Hname in Hs |- *. cbn [negb] in Hs |- *.
        unfold by_etablissement, first in Hs |- *.
        rewrite (find_last _ table e Hs); [reflexivity|].
        rewrite He. apply ilike_own_key. }
    now rewrite Hfound.
Qed.

End Script.

End Resolution.

(** ** What a cycle never does *)

Module CycleInvariants.

Import Scheduler Spec Notions.

Lemma extends_refl {A : Type} (l : list A) : extends l l.
Proof. exists []. now rewrite app_nil_r. Qed.

Lemma extends_app {A : Type} (base l added : list A) :
  extends base l -> extends base (l ++ added).
Proof. intros [x ->]. exists (x ++ added)%list. now rewrite app_assoc. Qed.

Lemma extends_app_app {A : Type} (base l m added : list A) :
  extends base (l ++ m) -> extends base (l ++ m ++ added).
Proof. intros H. rewrite app_assoc. now apply extends_app. Qed.

Lemma map_update_first {A B : Type} (g : A -> B) (p : A -> bool) (f : A -> A)
    (l : list A) :
  (forall x, p x = true -> g (f x) = g x) ->
  List.map g (update_first p f l) = List.map g l.
Proof.
  intros H. induction l as [|a l IH]; [reflexivity|].
  cbn [update_first]. destruct (p a) eqn:Hp; cbn [List.map].
  - now rewrite (H a Hp).
  - now rewrite IH.
Qed.

Section Facts.

Variable ftfy_fix_text : string -> string.
Variable float_of_str : string -> option PrimFloat.float.
Variable str_of_float : PrimFloat.float -> string.
Variable strftime_Ymd : Time -> string.
Variable accepts : DB -> bool.
Variable etablissements_info : list (string * Info).

Abbreviation find_etablissement :=
  (Scheduler.find_etablissement ftfy_fix_text str_of_float strftime_Ymd accepts
                                etablissements_info).
Abbreviation update_current_data := (Scheduler.update_current_data float_of_str).
Abbreviation process_row :=
  (Scheduler.process_row ftfy_fix_text float_of_str str_of_float strftime_Ymd accepts
                         etablissements_info).
Abbreviation process_rows :=
  (Scheduler.process_rows ftfy_fix_text float_of_str str_of_float strftime_Ymd accepts
                          etablissements_info).
Abbreviation update_database :=
  (Scheduler.update_database ftfy_fix_text float_of_str str_of_float strftime_Ymd accepts
                             etablissements_info).

Lemma grows_open base seq : grows base (open base seq).
Proof.
  unfold grows, open, flushed. cbn. rewrite !app_nil_r.
  repeat split; apply extends_refl.
Qed.

Lemma grows_rollback base s : committed s = base -> grows base (rollback s).
Proof.
  intros H. unfold grows, rollback, flushed. cbn. rewrite !app_nil_r, H.
  repeat split; apply extends_refl.
Qed.

Lemma grows_find_etablissement base now s row :
  grows base s -> grows base (fst (find_etablissement now s row)).
Proof.
  intros Hg. unfold Scheduler.find_etablissement.
  destruct (search _ _ _ _); [exact Hg|]. cbv zeta. unfold flush.
  destruct Hg as (Hc & He & Hr & Hh & Ha).
  destruct (accepts _); cbn [fst].
  - unfold grows, flushed, add_etablissement in *. cbn in *. rewrite !app_nil_r.
    repeat split; try assumption. now apply extends_app_app.
  - apply grows_rollback. exact Hc.
Qed.

Lemma grows_archive base s id :
  grows base s -> grows base (archive_current_data s id).
Proof.
  intros Hg. unfold archive_current_data.
  destruct (current_data_of s id); [|exact Hg].
  destruct Hg as (Hc & He & Hr & Hh & Ha).
  unfold grows, flushed, add_historique in *. cbn in *.
  repeat split; try assumption. now apply extends_app_app.
Qed.

Lemma grows_update_current_data base s id row de now :
  grows base s -> grows base (fst (update_current_data s id row de now)).
Proof.
  intros (Hc & He & Hr & Hh & Ha). unfold Scheduler.update_current_data.
  destruct (current_data_of s id) as [cur|] eqn:Hcur.
  - pose proof (ArchivalWriter.write_current_data_etablissement_id float_of_str
                  row de now cur) as Hid.
    destruct (write_current_data float_of_str row de now cur) as [[c log] ok].
    cbn [fst] in Hid |- *.
    unfold grows, flushed, with_persistent, write_persistent in *. cbn in *.
    repeat split; try assumption.
    rewrite List.map_app in Ha |- *.
    rewrite (map_update_first UrgencesEtatActuel.etablissement_id); [exact Ha|].
    intros x Hx. unfold current_data_of, first in Hcur.
    apply List.find_some in Hcur as [_ Hcur].
    unfold of_etablissement in Hx, Hcur.
    apply Nat.eqb_eq in Hx. apply Nat.eqb_eq in Hcur. congruence.
  - destruct (write_current_data float_of_str row de now (UrgencesEtatActuel.new id))
      as [[c log] ok].
    cbn [fst]. unfold grows, flushed, add_actuel in *. cbn in *.
    repeat split; try assumption.
    rewrite app_assoc, List.map_app. now apply extends_app.
Qed.

Lemma grows_process_row base de now s row :
  grows base s -> grows base (fst (process_row de now s row)).
Proof.
  intros Hg. unfold Scheduler.process_row.
  pose proof (grows_find_etablissement base now s row Hg) as Hf.
  destruct (find_etablissement now s row) as [s1 [e|]]; cbn [fst] in Hf |- *;
    [|exact Hf].
  unfold apply_measurement. apply grows_update_current_data. now apply grows_archive.
Qed.

Lemma grows_process_rows base de now rows s :
  grows base s -> grows base (fst (process_rows de now s rows)).
Proof.
  revert s. induction rows as [|row rows IH]; intros s Hg; [exact Hg|].
  cbn [Scheduler.process_rows].
  pose proof (grows_process_row base de now s row Hg) as H1.
  destruct (process_row de now s row) as [s1 log1]. cbn [fst] in H1.
  specialize (IH s1 H1).
  destruct (process_rows de now s1 rows) as [s2 log2]. exact IH.
Qed.


End Facts.

End CycleInvariants.

(** ** The writer of the current state *)

Module CurrentStateWriter.

Import Scheduler Spec.

Section Facts.

Variable float_of_str : string -> option PrimFloat.float.

Abbreviation float := (Scheduler.float float_of_str).
Abbreviation write_counts := (Scheduler.write_counts float_of_str).
Abbreviation write_current_data := (Scheduler.write_current_data float_of_str).
Abbreviation update_current_data := (Scheduler.update_current_data float_of_str).
Abbreviation coerce_dms := (Scheduler.coerce_dms float_of_str).

Lemma write_counts_stops row c c' :
  write_counts counts row c = (c', false) ->
  (UrgencesEtatActuel.etablissement_id c' = UrgencesEtatActuel.etablissement_id c
   /\ UrgencesEtatActuel.dms_civiere c' = UrgencesEtatActuel.dms_civiere c
   /\ UrgencesEtatActuel.dms_ambulatoire c' = UrgencesEtatActuel.dms_ambulatoire c
   /\ UrgencesEtatActuel.taux_occupation c' = UrgencesEtatActuel.taux_occupation c
   /\ UrgencesEtatActuel.date_extraction c' = UrgencesEtatActuel.date_extraction c
   /\ UrgencesEtatActuel.date_maj c' = UrgencesEtatActuel.date_maj c
   /\ UrgencesEtatActuel.statut_validation c' = UrgencesEtatActuel.statut_validation c)
  /\ exists key,
       In key (List.map fst counts) /\ float (get row key (VFloat 0)) = None.
Proof.
  unfold counts. cbn [Scheduler.write_counts List.map fst].
  destruct (float (get row "civieres_fonctionnelles" _)) eqn:E1;
    [|intros [= <-]; split; [repeat split|eexists; split; [|exact E1]; cbn; tauto]].
  destruct (float (get row "civieres_occupees" _)) eqn:E2;
    [|intros [= <-]; split; [repeat split|eexists; split; [|exact E2]; cbn; tauto]].
  destruct (float (get row "patients_24h" _)) eqn:E3;
    [|intros [= <-]; split; [repeat split|eexists; split; [|exact E3]; cbn; tauto]].
  destruct (float (get row "patients_48h" _)) eqn:E4;
    [|intros [= <-]; split; [repeat split|eexists; split; [|exact E4]; cbn; tauto]].
  destruct (float (get row "total_patients" _)) eqn:E5;
    [|intros [= <-]; split; [repeat split|eexists; split; [|exact E5]; cbn; tauto]].
  destruct (float (get row "patients_en_attente" _)) eqn:E6;
    [|intros [= <-]; split; [repeat split|eexists; split; [|exact E6]; cbn; tauto]].
  discriminate.
Qed.

(** When a count of the row cannot be converted, [_update_current_data]
    stops there: the duration fields, the rate, the dates and the status of
    the state are left as they were, whatever the counts written before the
    failure; the error is logged and the session is neither flushed nor
    rolled back. *)
Theorem failed_count_leaves_the_rest row de now c c' log :
  write_current_data row de now c = (c', log, false) ->
  (exists key,
      In key (List.map fst counts) /\ float (get row key (VFloat 0)) = None)
  /\ log = []
  /\ UrgencesEtatActuel.dms_civiere c' = UrgencesEtatActuel.dms_civiere c
  /\ UrgencesEtatActuel.dms_ambulatoire c' = UrgencesEtatActuel.dms_ambulatoire c
  /\ UrgencesEtatActuel.taux_occupation c' = UrgencesEtatActuel.taux_occupation c
  /\ UrgencesEtatActuel.date_extraction c' = UrgencesEtatActuel.date_extraction c
  /\ UrgencesEtatActuel.date_maj c' = UrgencesEtatActuel.date_maj c
  /\ UrgencesEtatActuel.statut_validation c' = UrgencesEtatActuel.statut_validation c
  /\ forall s id,
       let s' := fst (update_current_data s id row de now) in
       committed s' = committed s
       /\ new_historique s' = new_historique s
       /\ new_etablissement s' = new_etablissement s
       /\ etablissements (persistent s') = etablissements (persistent s)
       /\ urgences_historique (persistent s') = urgences_historique (persistent s).
Proof.
  unfold Scheduler.write_current_data.
  destruct (write_counts counts row c) as [c1 [|]] eqn:Hw.
  - destruct (FieldCoercer.write_counts_done float_of_str row c c1 Hw)
      as (cf & co & _ & _ & Hcf & Hco).
    destruct (coerce_dms _ (get_ row "dms_civiere")) as [d1 w1].
    destruct (coerce_dms _ (get_ row "dms_ambulatoire")) as [d2 w2].
    cbn [UrgencesEtatActuel.civieres_fonctionnelles UrgencesEtatActuel.civieres_occupees
         UrgencesEtatActuel.set_dms_civiere UrgencesEtatActuel.set_dms_ambulatoire].
    rewrite Hcf, Hco, FieldCoercer.taux_occupation_of_floats. discriminate.
  - intros H. injection H as H1 H2. subst c' log.
    destruct (write_counts_stops row c c1 Hw) as ((_ & G1 & G2 & G3 & G4 & G5 & G6) & Hk).
    split; [exact Hk|]. split; [reflexivity|].
    repeat (split; [assumption|]).
    intros s id. cbv zeta. unfold Scheduler.update_current_data.
    destruct (current_data_of s id) as [cur|].
    + destruct (Scheduler.write_current_data float_of_str row de now cur) as [[x l] ok].
      repeat split.
    + destruct (Scheduler.write_current_data float_of_str row de now
                  (UrgencesEtatActuel.new id)) as [[x l] ok].
      repeat split.
Qed.

(** The mean lengths of stay, as [_update_current_data] reads them when it
    is given the cells of the feed as they are: hours and minutes, a decimal
    number with a comma or a dot, nothing, a float; anything else is zero with
    a warning, as is a text with more than one colon. *)
Theorem durations_as_written warning :
  (forall h m fh fm,
      contains_char ":" h = false -> contains_char ":" m = false ->
      float_of_str h = Some fh -> float_of_str m = Some fm ->
      coerce_dms warning (VStr (h ++ ":" ++ m)) = (VFloat (fh + fm / 60)%float, []))
  /\ (forall h m,
        contains_char ":" h = false -> contains_char ":" m = false ->
        float_of_str h = None \/ float_of_str m = None ->
        coerce_dms warning (VStr (h ++ ":" ++ m)) = (VFloat 0, [warning]))
  /\ (forall d f,
        contains_char ":" d = false ->
        float_of_str (replace_char "," "." d) = Some f ->
        coerce_dms warning (VStr d) = (VFloat f, []))
  /\ (forall d,
        contains_char ":" d = false ->
        float_of_str (replace_char "," "." d) = None ->
        coerce_dms warning (VStr d) = (VFloat 0, [warning]))
  /\ (forall d,
        2 < List.length (split ":" d) ->
        coerce_dms warning (VStr d) = (VFloat 0, [warning]))
  /\ coerce_dms warning VNone = (VFloat 0, [])
  /\ (forall f, coerce_dms warning (VFloat f) = (VFloat f, [])).
Proof.
  split; [|split; [|split; [|split; [|split; [|split]]]]].
  - intros h m fh fm Hh Hm Hfh Hfm. unfold Scheduler.coerce_dms.
    now rewrite (FieldCoercer.dms_hours_minutes float_of_str h m fh fm Hh Hm Hfh Hfm).
  - intros h m Hh Hm Hf. unfold Scheduler.coerce_dms, Scheduler.dms_hours.
    change (h ++ ":" ++ m) with (h ++ String ":" m).
    rewrite FieldCoercer.contains_separator,
      (FieldCoercer.split_at_separator ":" h m Hh),
      (FieldCoercer.split_no_separator ":" m Hm).
    destruct (float_of_str h), (float_of_str m), Hf; try discriminate; reflexivity.
  - intros d f Hd Hf. unfold Scheduler.coerce_dms.
    now rewrite (FieldCoercer.dms_hours_comma float_of_str d Hd), Hf.
  - intros d Hd Hf. exact (FieldCoercer.coerce_dms_unparsable float_of_str warning d Hd Hf).
  - intros d Hlen. unfold Scheduler.coerce_dms, Scheduler.dms_hours.
    destruct (contains_char ":" d) eqn:Hc.
    + destruct (split ":" d) as [|a [|b [|x l]]]; cbn [List.length] in Hlen;
        try lia. reflexivity.
    + rewrite (FieldCoercer.split_no_separator ":" d Hc) in Hlen.
      cbn [List.length] in Hlen. lia.
  - reflexivity.
  - reflexivity.
Qed.

(** When [_update_current_data] runs to its end, the rate it stores is
    never NULL: it is [occupied / functional * 100] for a positive number of
    stretchers in service and zero otherwise, a count that the row lacks
    being read as zero. *)
Theorem rate_as_written row de now c c' log :
  write_current_data row de now c = (c', log, true) ->
  exists cf co,
    float (get row "civieres_fonctionnelles" (VFloat 0)) = Some cf
    /\ float (get row "civieres_occupees" (VFloat 0)) = Some co
    /\ UrgencesEtatActuel.taux_occupation c'
       = VFloat (if PrimFloat.ltb 0 cf then co / cf * 100 else 0)%float
    /\ UrgencesEtatActuel.civieres_fonctionnelles c' = VFloat cf
    /\ UrgencesEtatActuel.civieres_occupees c' = VFloat co
    /\ UrgencesEtatActuel.statut_validation c' = Some valide
    /\ UrgencesEtatActuel.date_extraction c' = Some de.
Proof.
  unfold Scheduler.write_current_data.
  destruct (write_counts counts row c) as [c1 [|]] eqn:Hw; [|discriminate].
  destruct (FieldCoercer.write_counts_done float_of_str row c c1 Hw)
    as (cf & co & Hrcf & Hrco & Hcf & Hco).
  destruct (coerce_dms _ (get_ row "dms_civiere")) as [d1 w1].
  destruct (coerce_dms _ (get_ row "dms_ambulatoire")) as [d2 w2].
  cbn [UrgencesEtatActuel.civieres_fonctionnelles UrgencesEtatActuel.civieres_occupees
       UrgencesEtatActuel.set_dms_civiere UrgencesEtatActuel.set_dms_ambulatoire].
  rewrite Hcf, Hco, FieldCoercer.taux_occupation_of_floats.
  intros [= <- _]. exists cf, co. cbn. repeat split; assumption.
Qed.

End Facts.

End CurrentStateWriter.

(** ** The regions *)

Module RegionSetup.

Import Scheduler Spec Regions Notions.

Section Facts.

Variable ftfy_fix_text : string -> string.
Variable str_of_float : PrimFloat.float -> string.
Variable accepts : DB -> bool.

Abbreviation region_of := (Regions.region_of ftfy_fix_text).
Abbreviation regions_of := (Regions.regions_of ftfy_fix_text).
Abbreviation initialize_regions := (Regions.initialize_regions ftfy_fix_text accepts).
Abbreviation init_regions := (Regions.init_regions ftfy_fix_text accepts).
Abbreviation find_region_id := (Scheduler.find_region_id ftfy_fix_text str_of_float).

Lemma rss_regions_of seq data :
  List.map Region.rss (regions_of seq data) = List.map fst data.
Proof.
  revert seq. induction data as [|d data IH]; intros seq; [reflexivity|].
  cbn [Regions.regions_of List.map]. now rewrite IH.
Qed.

Lemma with_regions_nil db : with_regions db [] = db.
Proof. unfold with_regions. rewrite app_nil_r. now destruct db. Qed.

Lemma length_zero {A : Type} (l : list A) : Nat.eqb (List.length l) 0 = true <-> l = [].
Proof. destruct l; split; intros H; try reflexivity; discriminate. Qed.

Lemma initialize_regions_kept seq db :
  regions db <> [] -> initialize_regions seq db = db.
Proof.
  intros H. unfold Regions.initialize_regions.
  destruct (Nat.eqb _ 0) eqn:E; [|reflexivity].
  apply length_zero in E. contradiction.
Qed.

(** [initialize_database] fills the table of regions only when it is empty:
    a table that holds a region, whichever, is left as it is.  On an empty
    table, when the store accepts them, the 18 regions are added under the
    codes 01 to 18, and then [_find_region_id] always finds a region, Montreal
    when it is given neither a code nor a name. *)
Theorem initialize_regions_spec seq db :
  let db' := initialize_regions seq db in
  (regions db <> [] -> db' = db)
  /\ etablissements db' = etablissements db
  /\ urgences_etat_actuel db' = urgences_etat_actuel db
  /\ urgences_historique db' = urgences_historique db
  /\ (regions db = [] ->
      accepts (with_regions db (regions_of seq REGIONS_QUEBEC)) = true ->
      List.map Region.rss (regions db')
      = ["01"; "02"; "03"; "04"; "05"; "06"; "07"; "08"; "09";
         "10"; "11"; "12"; "13"; "14"; "15"; "16"; "17"; "18"]
      /\ List.map Region.id (regions db') = List.seq seq 18
      /\ forall s rss region_name,
           regions (persistent s) = regions db' ->
           find_region_id s rss region_name <> None
           /\ (strip (Scheduler.str str_of_float rss) = "" ->
               truthy region_name = false ->
               find_region_id s rss region_name = Some (seq + 5)))
  /\ (regions db' <> [] -> forall seq', initialize_regions seq' db' = db').
Proof.
  intros db'. unfold db', Regions.initialize_regions.
  split; [|split; [|split; [|split; [|split]]]].
  - apply initialize_regions_kept.
  - destruct (Nat.eqb _ 0); [|reflexivity]. now destruct (accepts _).
  - destruct (Nat.eqb _ 0); [|reflexivity]. now destruct (accepts _).
  - destruct (Nat.eqb _ 0); [|reflexivity]. now destruct (accepts _).
  - intros Hempty Hacc. rewrite (proj2 (length_zero _) Hempty), Hacc.
    cbn [regions with_regions]. rewrite Hempty. cbn [List.app].
    split; [now rewrite rss_regions_of|]. split; [reflexivity|].
    intros s rss region_name Hs. split.
    + intros Hnone.
      apply (Lookups.find_region_id_none ftfy_fix_text str_of_float) in Hnone.
      rewrite Hs in Hnone. discriminate.
    + intros Hcode Hname. unfold Scheduler.find_region_id.
      rewrite Hs, Hcode, Hname. cbn. f_equal. lia.
  - intros Hne seq'. now apply initialize_regions_kept.
Qed.

Lemma missing_regions_stored db data :
  (forall code, In code (List.map fst data) ->
     exists r, In r (regions db) /\ Region.rss r = code) ->
  missing_regions db data = [].
Proof.
  intros H. unfold missing_regions.
  induction data as [|d data IH]; [reflexivity|]. cbn [List.filter].
  destruct (H (fst d)) as (r & Hr & Hcode); [now left|].
  destruct (first (fun r0 => Region.rss r0 =? fst d) (regions db)) eqn:E.
  - apply IH. intros code Hc. apply H. now right.
  - unfold first in E. apply (List.find_none _ _ E) in Hr.
    rewrite Hcode, String.eqb_refl in Hr. discriminate.
Qed.

Lemma missing_regions_In db data d :
  In d (missing_regions db data) ->
  In d data /\ forall r, In r (regions db) -> Region.rss r <> fst d.
Proof.
  unfold missing_regions. intros H. apply List.filter_In in H as [Hd H].
  split; [exact Hd|]. intros r Hr Hcode.
  destruct (first (fun r0 => Region.rss r0 =? fst d) (regions db)) eqn:E;
    [discriminate|].
  unfold first in E. apply (List.find_none _ _ E) in Hr.
  rewrite Hcode, String.eqb_refl in Hr. discriminate.
Qed.

Lemma In_regions_of seq data r :
  In r (regions_of seq data) -> exists d, In d data /\ Region.rss r = fst d.
Proof.
  revert seq. induction data as [|d data IH]; intros seq; [intros []|].
  cbn [Regions.regions_of]. intros [<-|H].
  - exists d. split; [now left|reflexivity].
  - destruct (IH _ H) as (d' & Hd' & Hr). exists d'. split; [now right|exact Hr].
Qed.

Lemma regions_of_covers seq data code :
  In code (List.map fst data) ->
  exists r, In r (regions_of seq data) /\ Region.rss r = code.
Proof.
  intros H. rewrite <- (rss_regions_of seq data) in H.
  apply List.in_map_iff in H as (r & Hr & Hin). now exists r.
Qed.

(** [init_regions] of scripts/fix_tables.py adds, after the regions that are
    there and without touching them, the regions of its list whose code no
    stored region has.  When the store accepts them every code of the list
    is stored, and a second call adds nothing. *)
Theorem init_regions_spec seq db :
  let db' := init_regions seq db in
  let added := regions_of seq (missing_regions db REGIONS_QUEBEC) in
  extends (regions db) (regions db')
  /\ etablissements db' = etablissements db
  /\ urgences_etat_actuel db' = urgences_etat_actuel db
  /\ urgences_historique db' = urgences_historique db
  /\ (forall r r', In r added -> In r' (regions db) -> Region.rss r <> Region.rss r')
  /\ (accepts (with_regions db added) = true ->
      regions db' = (regions db ++ added)%list
      /\ (forall code, In code (List.map fst REGIONS_QUEBEC) ->
            exists r, In r (regions db') /\ Region.rss r = code)
      /\ forall seq', init_regions seq' db' = db')
  /\ (accepts (with_regions db added) = false -> db' = db).
Proof.
  intros db' added. unfold db', Regions.init_regions. fold added.
  split; [|split; [|split; [|split; [|split; [|split]]]]].
  - destruct (accepts _); [now exists added|exists []; now rewrite app_nil_r].
  - now destruct (accepts _).
  - now destruct (accepts _).
  - now destruct (accepts _).
  - intros r r' Hr Hr'. destruct (In_regions_of _ _ _ Hr) as (d & Hd & ->).
    destruct (missing_regions_In db REGIONS_QUEBEC d Hd) as [_ H].
    intros E. exact (H r' Hr' (eq_sym E)).
  - intros Hacc. rewrite Hacc. cbn [regions with_regions].
    assert (Hall : forall code, In code (List.map fst REGIONS_QUEBEC) ->
              exists r, In r (regions db ++ added) /\ Region.rss r = code).
    { intros code Hcode.
      destruct (first (fun r => Region.rss r =? code) (regions db)) as [r|] eqn:E.
      - unfold first in E. apply List.find_some in E as [Hr Hc].
        apply String.eqb_eq in Hc. exists r. split; [|exact Hc].
        apply List.in_or_app. now left.
      - apply List.in_map_iff in Hcode as (d & Hd & Hin).
        assert (Hm : In d (missing_regions db REGIONS_QUEBEC)).
        { unfold missing_regions. apply List.filter_In. split; [exact Hin|].
          now rewrite Hd, E. }
        destruct (regions_of_covers seq (missing_regions db REGIONS_QUEBEC) code)
          as (r & Hr & Hc).
        { apply List.in_map_iff. now exists d. }
        exists r. split; [|exact Hc]. apply List.in_or_app. now right. }
    split; [reflexivity|]. split; [exact Hall|].
    intros seq'.
    rewrite (missing_regions_stored (with_regions db added) REGIONS_QUEBEC) by exact Hall.
    cbn [Regions.regions_of]. rewrite with_regions_nil. now destruct (accepts _).
  - now intros ->.
Qed.

End Facts.

End RegionSetup.

(** ** What the backfill leaves *)

Module BackfillResult.

Import Scheduler Spec.

Lemma forallb_In {A : Type} (p : A -> bool) (l : list A) (x : A) :
  List.forallb p l = true -> In x l -> p x = true.
Proof. intros H. now apply List.forallb_forall. Qed.

Lemma avec_null_fields e :
  etablissement_avec_null e = false ->
  Etablissement.adresse e <> None /\ Etablissement.ville e <> None
  /\ Etablissement.type e <> None /\ Etablissement.source_id e <> None.
Proof.
  unfold etablissement_avec_null.
  destruct (Etablissement.adresse e), (Etablissement.ville e),
    (Etablissement.type e), (Etablissement.source_id e); try discriminate.
  intros _. repeat split; discriminate.
Qed.

Lemma case_null_or_empty_Some column param :
  FixTables.case_null_or_empty column param <> None.
Proof.
  unfold FixTables.case_null_or_empty.
  destruct column as [x|]; cbn [FixTables.null_or_empty]; [|discriminate].
  destruct (x =? ""); discriminate.
Qed.

Lemma a_corriger_fields e :
  FixTables.etablissement_a_corriger e = false ->
  Etablissement.adresse e <> None /\ Etablissement.ville e <> None
  /\ Etablissement.type e <> None /\ Etablissement.province e <> None.
Proof.
  unfold FixTables.etablissement_a_corriger.
  destruct (Etablissement.adresse e), (Etablissement.ville e),
    (Etablissement.type e), (Etablissement.province e); try discriminate;
    cbn [FixTables.is_null orb]; try discriminate.
  intros _. repeat split; discriminate.
Qed.

Section Facts.

Variable ftfy_fix_text : string -> string.
Variable str_of_float : PrimFloat.float -> string.
Variable strftime_Ymd : Time -> string.
Variable accepts : DB -> bool.
Variable etablissements_info : list (string * Info).

Abbreviation fix_null_values :=
  (Scheduler.fix_null_values strftime_Ymd accepts etablissements_info).

(** A run of [fix_null_values] on a fresh session either leaves the store
    as it was, or leaves no facility with a NULL address, city, type or
    source id and no current state with a NULL among the two mean lengths of
    stay, the two totals and the rate.  The province is no criterion: a
    facility that has the four fields keeps a NULL province. *)
Theorem backfill_leaves_no_null s now :
  fresh s ->
  let store := committed (fix_null_values s now) in
  fix_null_values s now = s
  \/ ((forall e, In e (etablissements store) ->
         Etablissement.adresse e <> None /\ Etablissement.ville e <> None
         /\ Etablissement.type e <> None /\ Etablissement.source_id e <> None)
      /\ (forall u, In u (urgences_etat_actuel store) ->
            is_None (UrgencesEtatActuel.dms_civiere u) = false
            /\ is_None (UrgencesEtatActuel.dms_ambulatoire u) = false
            /\ is_None (UrgencesEtatActuel.total_patients u) = false
            /\ is_None (UrgencesEtatActuel.patients_en_attente u) = false
            /\ is_None (UrgencesEtatActuel.taux_occupation u) = false)).
Proof.
  intros Hfresh store.
  destruct (NullBackfillJob.fix_null_values_result strftime_Ymd accepts
              etablissements_info s now Hfresh) as [H|[Hf [He Hu]]]; [now left|].
  right. destruct Hf as (Hp & _). fold store in Hp.
  rewrite Hp in He, Hu. split.
  - intros e Hin. apply avec_null_fields.
    apply negb_true_iff. exact (forallb_In _ _ e He Hin).
  - intros u Hin. pose proof (forallb_In _ _ u Hu Hin) as H.
    apply negb_true_iff in H. unfold urgence_avec_null in H.
    repeat (apply orb_false_iff in H as [H ?]). repeat split; assumption.
Qed.

(** A run of scripts/fix_tables.py either leaves the store as it was, or
    leaves no facility with a NULL address, city, type or province and no
    current state with a NULL among the five fields. *)
Theorem script_backfill_leaves_no_null store_accepts catalog now db :
  let store := FixTables.fix_null_values_in_tables store_accepts catalog now db in
  store = db
  \/ ((forall e, In e (etablissements store) ->
         Etablissement.adresse e <> None /\ Etablissement.ville e <> None
         /\ Etablissement.type e <> None /\ Etablissement.province e <> None)
      /\ (forall u, In u (urgences_etat_actuel store) ->
            is_None (UrgencesEtatActuel.dms_civiere u) = false
            /\ is_None (UrgencesEtatActuel.dms_ambulatoire u) = false
            /\ is_None (UrgencesEtatActuel.total_patients u) = false
            /\ is_None (UrgencesEtatActuel.patients_en_attente u) = false
            /\ is_None (UrgencesEtatActuel.taux_occupation u) = false)).
Proof.
  intros store. unfold store, FixTables.fix_null_values_in_tables.
  destruct (FixTables.backfill catalog now db) as [d|] eqn:Hb; [|now left].
  destruct (store_accepts d); [right|now left].
  unfold FixTables.backfill in Hb.
  destruct (FixTables.fix_urgences now (urgences_etat_actuel db)) as [us|] eqn:Hu;
    [|discriminate].
  injection Hb as <-. cbn [etablissements urgences_etat_actuel]. split.
  - intros e' Hin. apply List.in_map_iff in Hin as (e & <- & _).
    destruct (FixTables.etablissement_a_corriger e) eqn:Hsel.
    + unfold FixTables.fix_etablissement.
      cbn [Etablissement.adresse Etablissement.ville Etablissement.type
           Etablissement.province].
      repeat split; apply case_null_or_empty_Some.
    + now apply a_corriger_fields.
  - intros u Hin.
    pose proof (forallb_In _ _ u
                  (NullBackfillJob.script_fix_urgences_filled now _ us Hu) Hin) as H.
    apply negb_true_iff in H. unfold urgence_avec_null in H.
    repeat (apply orb_false_iff in H as [H ?]). repeat split; assumption.
Qed.

End Facts.

End BackfillResult.

(** ** Concrete runs *)

(** The normalizer on a facility name. *)
Example normalize_text_example :
  EncodingUtils.normalize_text (fun s => s) (VStr "  CHU  Sainte-Justine (Montreal) ") true
  = "chu sainte justine montreal".
Proof. reflexivity. Qed.

(** LIKE on a pattern of plain characters between two percent signs is a
    substring test. *)
Example like_substring : like "%ab%" "xxabyy" = true /\ like "%ab%" "axb" = false.
Proof. split; reflexivity. Qed.

(** An underscore of the pattern stands for any one character. *)
Example like_underscore : like "%a_b%" "xaxby" = true.
Proof. reflexivity. Qed.

(** The reader of decimal literals, which stands for [float] on a str. *)
Example decimal_literal_examples :
  Instances.decimal_literal "2" = Some 2%float
  /\ Instances.decimal_literal "30" = Some 30%float
  /\ Instances.decimal_literal "7.5" = Some 7.5%float
  /\ Instances.decimal_literal "abc" = None
  /\ Instances.decimal_literal "2:30" = None.
Proof. repeat split; reflexivity. Qed.

(** The row of facility X123 resolves, by its permit number, to the facility
    of the sample store. *)
Lemma resolution_cascade_witness :
  Spec.permis_given
    (Scheduler.no_permis_of Instances.str_of_float Sample.row_x123) = true
  /\ Scheduler.find_etablissement Instances.no_repair Instances.str_of_float
       Instances.strftime_Ymd Instances.accept_all [] 200
       (open Sample.store 2) Sample.row_x123
     = (open Sample.store 2, Some Sample.chum).
Proof.
  split; [reflexivity|].
  apply (proj1 (FacilityResolver.resolution_cascade
                  Instances.no_repair Instances.str_of_float Instances.strftime_Ymd
                  Instances.accept_all [] 200 (open Sample.store 2) Sample.row_x123)).
  - reflexivity.
  - exists [], []. repeat split. intros x [].
Defined.

(** The claim of C2 read on the code.  In scripts/data_updater.py the permit
    number is no step of the search: the row of facility X123 under other
    names, which the scheduler resolves to that facility, gets a facility of
    its own.  In the scheduler the key [a_b] is not a substring of the stored
    key [axb], and the row resolves to that facility all the same. *)
Lemma cascade_counterexample :
  snd (Scheduler.find_etablissement Instances.no_repair Instances.str_of_float
         Instances.strftime_Ymd Instances.accept_all [] 200
         (open Sample.store 2) Sample.row_x123_renamed)
  = Some Sample.chum
  /\ option_map Etablissement.id
       (snd (ScriptUpdater.find_etablissement Instances.no_repair Instances.accept_all 200
               (open Sample.store 2) Sample.row_x123_renamed))
     = Some 2
  /\ List.length
       (etablissements
          (persistent
             (fst (ScriptUpdater.find_etablissement Instances.no_repair
                     Instances.accept_all 200
                     (open Sample.store 2) Sample.row_x123_renamed))))
     = 2
  /\ Scheduler.installation_key Instances.no_repair Sample.row_a_b = "a_b"
  /\ Scheduler.substring_of "a_b" "axb" = false
  /\ Scheduler.find_etablissement Instances.no_repair Instances.str_of_float
       Instances.strftime_Ymd Instances.accept_all [] 200
       (open Sample.store_axb 8) Sample.row_a_b
     = (open Sample.store_axb 8, Some Sample.axb).
Proof. repeat split. Qed.





(** The repair that leaves every text alone leaves [a_b] alone. *)
Lemma underscore_survives_witness :
  Instances.no_repair "a_b" = "a_b"
  /\ EncodingUtils.normalize_text Instances.no_repair (VStr "a_b") false = "a_b".
Proof.
  split; [reflexivity|].
  apply (TextNormalizer.underscore_survives Instances.no_repair false eq_refl).
Defined.


(** The claim of C9 read on the code.  The facility of the sample store has
    no address and the province [QC]: the run of the scheduler selects it and
    writes the standard name over the province.  The current state of the
    other store has no mean length of stay on stretcher and was never
    validated: the run of scripts/fix_tables.py selects it and writes a new
    validation status over the old one. *)
Lemma present_values_are_rewritten :
  List.map Etablissement.province (etablissements Sample.store_qc) = [Some "QC"]
  /\ List.map Etablissement.province
       (etablissements
          (committed
             (Scheduler.fix_null_values Instances.strftime_Ymd Instances.accept_all []
                (open Sample.store_qc 10) 300)))
     = [Some Scheduler.Quebec]
  /\ List.map UrgencesEtatActuel.statut_validation
       (urgences_etat_actuel Sample.store_non_valide)
     = [Some ("non_valid" ++ Scheduler.chr 233)]
  /\ List.map UrgencesEtatActuel.statut_validation
       (urgences_etat_actuel
          (FixTables.fix_null_values_in_tables Instances.accept_all [] 300
             Sample.store_non_valide))
     = [Some Scheduler.valide].
Proof. repeat split. Qed.

(** A session opened on the sample store is fresh: a second run after the
    first changes nothing. *)
Lemma backfill_fills_nulls_only_witness :
  Spec.fresh (open Sample.store_qc 10)
  /\ (Scheduler.fix_null_values Instances.strftime_Ymd Instances.accept_all []
        (open Sample.store_qc 10) 300
      = open Sample.store_qc 10
      \/ Scheduler.fix_null_values Instances.strftime_Ymd Instances.accept_all []
           (Scheduler.fix_null_values Instances.strftime_Ymd Instances.accept_all []
              (open Sample.store_qc 10) 300) 301
         = Scheduler.fix_null_values Instances.strftime_Ymd Instances.accept_all []
             (open Sample.store_qc 10) 300).
Proof.
  assert (H : Spec.fresh (open Sample.store_qc 10)) by (repeat split).
  split; [exact H|].
  exact (proj1 (proj2 (proj2 (proj2 (NullBackfillJob.backfill_fills_nulls_only
                                       Instances.strftime_Ymd Instances.accept_all []))))
               (open Sample.store_qc 10) 300 301 H).
Defined.

(** The row with no stretcher in service: the script stores NULL. *)
Lemma occupancy_null_in_script_witness :
  truthy (get_ Sample.row_0_3 "civieres_fonctionnelles") = false
  /\ option_map UrgencesEtatActuel.taux_occupation
       (ScriptUpdater.write_current_data Sample.row_0_3 200 201 (UrgencesEtatActuel.new 1))
     = Some VNone.
Proof.
  split; [reflexivity|].
  apply (proj1 FieldCoercer.occupancy_null_in_script Sample.row_0_3 200 201
               (UrgencesEtatActuel.new 1)).
  reflexivity.
Defined.

(** The feed whose mean length of stay is [2:30]: the loop raises. *)
Lemma duration_ends_the_cycle_witness :
  DataValidation.has_column (Sample.feed "2:30") "dms_civiere" = true
  /\ Spec.unreadable Instances.decimal_literal "dms_civiere"
       (DataValidation.rows (Sample.feed "2:30"))
  /\ DataValidation.convert_numeric_columns Instances.to_numeric Instances.decimal_literal
       DataValidation.numeric_columns (Sample.feed "2:30") = None.
Proof.
  assert (H : Spec.unreadable Instances.decimal_literal "dms_civiere"
                (DataValidation.rows (Sample.feed "2:30"))).
  { eexists _, "2:30". split; [left; reflexivity|]. split; reflexivity. }
  split; [reflexivity|]. split; [exact H|].
  apply (proj1 FieldCoercer.duration_ends_the_cycle Instances.to_numeric
               Instances.decimal_literal "dms_civiere" (Sample.feed "2:30")).
  - left. reflexivity.
  - reflexivity.
  - exact H.
Defined.


(** ** Concrete runs of the further properties *)

(** The key of a facility name is its own key. *)
Lemma key_of_key_witness :
  EncodingUtils.normalize_text Instances.no_repair
    (VStr (EncodingUtils.normalize_text Instances.no_repair
             (VStr "CHU Sainte-Justine") true)) true
  = EncodingUtils.normalize_text Instances.no_repair (VStr "CHU Sainte-Justine") true.
Proof.
  exact (proj1 (KeyLaws.key_of_key Instances.no_repair (VStr "CHU Sainte-Justine") true
                  eq_refl)).
Defined.

(** The feed whose mean length of stay is [2,5] goes through the loop and
    keeps its columns. *)
Lemma numeric_columns_are_numbers_witness :
  match DataValidation.convert_numeric_columns Instances.to_numeric
          Instances.decimal_literal DataValidation.numeric_columns (Sample.feed "2,5") with
  | Some df' => DataValidation.columns df' = DataValidation.columns (Sample.feed "2,5")
  | None => False
  end.
Proof.
  destruct (DataValidation.convert_numeric_columns Instances.to_numeric
              Instances.decimal_literal DataValidation.numeric_columns (Sample.feed "2,5"))
    as [df'|] eqn:H.
  - exact (proj1 (NumericColumns.numeric_columns_are_numbers Instances.to_numeric
                    Instances.decimal_literal (Sample.feed "2,5") df' H)).
  - vm_compute in H. discriminate.
Defined.

(** Its row is written to the end. *)
Lemma writer_runs_to_its_end_witness :
  match DataValidation.convert_numeric_columns Instances.to_numeric
          Instances.decimal_literal DataValidation.numeric_columns (Sample.feed "2,5") with
  | Some df' =>
      forall row, In row (DataValidation.rows df') ->
      exists c',
        Scheduler.write_current_data Instances.decimal_literal row 200 201
          (UrgencesEtatActuel.new 1) = (c', [], true)
  | None => False
  end.
Proof.
  assert (Hwf : Notions.well_formed (Sample.feed "2,5")).
  { intros row [<-|[]] key Hkey.
    unfold DataValidation.has_column, Sample.feed in Hkey.
    cbn [DataValidation.columns List.existsb] in Hkey.
    repeat (apply orb_false_iff in Hkey as [? Hkey]).
    cbn [series]. now rewrite H, H0, H1, H2. }
  destruct (DataValidation.convert_numeric_columns Instances.to_numeric
              Instances.decimal_literal DataValidation.numeric_columns (Sample.feed "2,5"))
    as [df'|] eqn:H.
  - intros row Hrow.
    destruct (NumericColumns.writer_runs_to_its_end Instances.to_numeric
                Instances.decimal_literal (Sample.feed "2,5") df' Hwf H
                Instances.decimal_literal row 200 201 (UrgencesEtatActuel.new 1) Hrow)
      as (c' & Hc & _).
    now exists c'.
  - vm_compute in H. discriminate.
Defined.


(** A row with a name and no permit number, seen twice. *)
Lemma name_round_trip_witness :
  Scheduler.find_etablissement Instances.no_repair Instances.str_of_float
    Instances.strftime_Ymd Instances.accept_all [] 201
    (fst (Scheduler.find_etablissement Instances.no_repair Instances.str_of_float
            Instances.strftime_Ymd Instances.accept_all [] 200
            (open Sample.empty_store 1) MoreSamples.row_named))
    MoreSamples.row_named
  = Scheduler.find_etablissement Instances.no_repair Instances.str_of_float
      Instances.strftime_Ymd Instances.accept_all [] 200
      (open Sample.empty_store 1) MoreSamples.row_named.
Proof.
  match goal with
  | |- _ = ?first_sighting =>
      let r := eval vm_compute in first_sighting in
      change first_sighting with r
  end.
  eapply (Resolution.name_round_trip
            Instances.no_repair Instances.str_of_float Instances.strftime_Ymd
            Instances.accept_all [] 200 (open Sample.empty_store 1) MoreSamples.row_named);
    try reflexivity.
  left. discriminate.
Defined.


(** The row of facility X123, seen twice by scripts/data_updater.py. *)
Lemma script_name_round_trip_witness :
  ScriptUpdater.find_etablissement Instances.no_repair Instances.accept_all 201
    (fst (ScriptUpdater.find_etablissement Instances.no_repair Instances.accept_all 200
            (open Sample.empty_store 1) Sample.row_x123))
    Sample.row_x123
  = ScriptUpdater.find_etablissement Instances.no_repair Instances.accept_all 200
      (open Sample.empty_store 1) Sample.row_x123.
Proof.
  match goal with
  | |- _ = ?first_sighting =>
      let r := eval vm_compute in first_sighting in
      change first_sighting with r
  end.
  eapply (Resolution.script_name_round_trip
            Instances.no_repair Instances.accept_all 200 (open Sample.empty_store 1)
            Sample.row_x123);
    try reflexivity.
  left. discriminate.
Defined.

(** The row whose count of taken stretchers is [None], written over the
    current state of the sample store: the count in service is written, the
    rate of 70 stays. *)
Lemma failed_count_leaves_the_rest_witness :
  snd (Scheduler.write_current_data Instances.decimal_literal MoreSamples.row_cell_none
         200 201 Sample.chum_actuel) = false
  /\ UrgencesEtatActuel.civieres_fonctionnelles
       (fst (fst (Scheduler.write_current_data Instances.decimal_literal
                    MoreSamples.row_cell_none 200 201 Sample.chum_actuel)))
     = VFloat 5
  /\ UrgencesEtatActuel.taux_occupation
       (fst (fst (Scheduler.write_current_data Instances.decimal_literal
                    MoreSamples.row_cell_none 200 201 Sample.chum_actuel)))
     = UrgencesEtatActuel.taux_occupation Sample.chum_actuel.
Proof.
  split; [reflexivity|]. split; [reflexivity|].
  destruct (Scheduler.write_current_data Instances.decimal_literal
              MoreSamples.row_cell_none 200 201 Sample.chum_actuel)
    as [[c' log] ok] eqn:H.
  assert (Hok : ok = false) by (apply (f_equal snd) in H; vm_compute in H; congruence).
  subst ok.
  destruct (CurrentStateWriter.failed_count_leaves_the_rest Instances.decimal_literal
              MoreSamples.row_cell_none 200 201 Sample.chum_actuel c' log H)
    as (_ & _ & _ & _ & Ht & _).
  exact Ht.
Defined.

(** The row of facility X123, written over the current state of the sample
    store: 7.5 stretchers taken out of 10. *)
Lemma rate_as_written_witness :
  exists cf co,
    UrgencesEtatActuel.taux_occupation
      (fst (fst (Scheduler.write_current_data Instances.decimal_literal
                   Sample.row_x123 200 201 Sample.chum_actuel)))
    = VFloat (if PrimFloat.ltb 0 cf then co / cf * 100 else 0)%float
    /\ cf = 10%float /\ co = 7.5%float.
Proof.
  destruct (Scheduler.write_current_data Instances.decimal_literal
              Sample.row_x123 200 201 Sample.chum_actuel)
    as [[c' log] ok] eqn:H.
  assert (Hok : ok = true) by (apply (f_equal snd) in H; vm_compute in H; congruence).
  subst ok.
  destruct (CurrentStateWriter.rate_as_written Instances.decimal_literal
              Sample.row_x123 200 201 Sample.chum_actuel c' log H)
    as (cf & co & Hcf & Hco & Ht & _).
  exists cf, co. split; [exact Ht|].
  vm_compute in Hcf, Hco. split; congruence.
Defined.

(** A session opened on the sample store is fresh. *)
Lemma backfill_leaves_no_null_witness :
  Scheduler.fix_null_values Instances.strftime_Ymd Instances.accept_all []
    (open Sample.store_qc 10) 300 = open Sample.store_qc 10
  \/ forall e,
       In e (etablissements
               (committed
                  (Scheduler.fix_null_values Instances.strftime_Ymd Instances.accept_all
                     [] (open Sample.store_qc 10) 300))) ->
       Etablissement.adresse e <> None.
Proof.
  assert (H : Spec.fresh (open Sample.store_qc 10)) by (repeat split).
  destruct (BackfillResult.backfill_leaves_no_null Instances.strftime_Ymd
              Instances.accept_all [] (open Sample.store_qc 10) 300 H) as [E|[He _]].
  - left. exact E.
  - right. intros e Hin. exact (proj1 (He e Hin)).
Defined.
